(** * Voice interview assistant: session controllers and scoring route

    A shallow embedding of the three React components of the repository
    (the first prototype page [src/app/page.tsx], the interview bot that
    scores by call id, the interview bot that scores a client-side
    transcript) and of the route handler [POST /api/score-interview].

    Conventions.
    - A JavaScript string is the list of its UTF-16 code units.
    - A handler is a function from the component state to the new state
      and the list of external calls it makes, in order.  The modules
      [CallIdBot], [TranscriptBot] and [Integration] hold the handlers of
      one render: they read the state they are given.  Which render's
      handlers are attached when an event arrives, and what a commit of
      React does in between (effects run again, a handle stopped or
      replaced), is the matter of [TranscriptRender] and of
      [Lifecycle.integrationCommit].
    - An [async] function is cut at each [await]: the part after an
      [await] is a handler of its own, run when the awaited promise
      settles, so that SDK events may arrive in between.
    - The external SDK handle, the browser, the call-data API and the
      completion API are the environment: their answers are inputs. *)

From Stdlib Require Import List Bool ZArith NArith Ascii String Lia.
From Stdlib Require Import Numbers.DecimalString Floats.PrimFloat.
Import ListNotations.

Set Implicit Arguments.
#[local] Set Warnings "-inexact-float".

(* ================================================================== *)
(** ** JavaScript values *)
(* ================================================================== *)

Module JS.

(** Strings: sequences of UTF-16 code units. *)
Definition jsstring : Type := list N.

(** An ASCII literal of the source. *)
Definition lit (s : string) : jsstring :=
  map N_of_ascii (list_ascii_of_string s).
Arguments lit s%_string.

(** The line feed of ['\n']. *)
Definition LF : jsstring := [10%N].

Fixpoint jsstring_eqb (a b : jsstring) : bool :=
  match a, b with
  | [], [] => true
  | x :: a', y :: b' => N.eqb x y && jsstring_eqb a' b'
  | _, _ => false
  end.

(** [WhiteSpace] and [LineTerminator] of ECMAScript, the code units that
    [String.prototype.trim] strips. *)
Definition isWhiteSpace (c : N) : bool :=
  ((9 <=? c) && (c <=? 13) || (c =? 32) || (c =? 160) || (c =? 5760)
   || (8192 <=? c) && (c <=? 8202) || (c =? 8232) || (c =? 8233)
   || (c =? 8239) || (c =? 8287) || (c =? 12288) || (c =? 65279))%N.

Fixpoint dropWhile (p : N -> bool) (s : jsstring) : jsstring :=
  match s with
  | [] => []
  | c :: s' => if p c then dropWhile p s' else s
  end.

Definition trimStart (s : jsstring) : jsstring := dropWhile isWhiteSpace s.
Definition trimEnd (s : jsstring) : jsstring :=
  rev (dropWhile isWhiteSpace (rev s)).
(** [s.trim()] *)
Definition trim (s : jsstring) : jsstring := trimEnd (trimStart s).

(** [arr.join(sep)] on an array of strings. *)
Fixpoint join (sep : jsstring) (arr : list jsstring) : jsstring :=
  match arr with
  | [] => []
  | [x] => x
  | x :: rest => x ++ sep ++ join sep rest
  end.

Fixpoint startsWith (s p : jsstring) {struct p} : bool :=
  match p, s with
  | [], _ => true
  | _ :: _, [] => false
  | c :: p', d :: s' => N.eqb c d && startsWith s' p'
  end.

(** [s.includes(sub)] *)
Fixpoint includes (s sub : jsstring) : bool :=
  match s with
  | [] => startsWith [] sub
  | _ :: s' => startsWith s sub || includes s' sub
  end.

(** The values a field of a parsed JSON body (typed [any]) can hold.
    [JNum] stands for a number and carries what the code can observe of
    it: whether it is falsy (0, -0 or NaN) and the string that [ToString]
    yields for the double (["1e+21"], ["0.5"], ...).  [JObject] stands for
    an array or an object and carries the string that [ToString] yields for
    it. *)
Inductive jsval : Type :=
| JUndefined
| JNull
| JBool (b : bool)
| JNum (falsy : bool) (repr : jsstring)
| JStr (s : jsstring)
| JObject (repr : jsstring).

(** [ToBoolean]: what [!v], [v && ...] and [v || ...] test. *)
Definition truthy (v : jsval) : bool :=
  match v with
  | JUndefined | JNull => false
  | JBool b => b
  | JNum falsy _ => negb falsy
  | JStr s => match s with [] => false | _ :: _ => true end
  | JObject _ => true
  end.

(** The decimal text of an HTTP status code, an integer of three digits:
    what a template literal prints for [response.status]. *)
Definition numberToString (n : Z) : jsstring :=
  map N_of_ascii (list_ascii_of_string (NilZero.string_of_int (Z.to_int n))).

(** [ToString]: what a template literal applies to an interpolated value. *)
Definition toString (v : jsval) : jsstring :=
  match v with
  | JUndefined => lit "undefined"
  | JNull => lit "null"
  | JBool true => lit "true"
  | JBool false => lit "false"
  | JNum _ repr => repr
  | JStr s => s
  | JObject repr => repr
  end.

(** [typeof v === 'string'] *)
Definition isString (v : jsval) : bool :=
  match v with JStr _ => true | _ => false end.

(** [v === s] for a string [s]. *)
Definition strictEq (v : jsval) (s : jsstring) : bool :=
  match v with JStr t => jsstring_eqb t s | _ => false end.

(** [a || b] on values. *)
Definition orElse (a b : jsval) : jsval := if truthy a then a else b.

(** [s || d] on strings: the empty string is falsy. *)
Definition strOr (s d : jsstring) : jsstring :=
  match s with [] => d | _ :: _ => s end.

(** JavaScript numbers are IEEE doubles. *)
Definition number : Type := float.

End JS.
Import JS.

(* ================================================================== *)
(** ** The scoring route: [POST /api/score-interview] *)
(* ================================================================== *)

Module Route.

(** The request body once [await request.json()] has yielded a value
    other than [null]: its fields [callId] and [transcript].  The handler
    destructures [callId] only; the client of the transcript variant sends
    [transcript] instead.  An absent field is [JUndefined], as are both
    fields of a number, a string, a boolean or an array. *)
Record RequestBody : Type := {
  callId : jsval;
  transcript : jsval
}.

(** The request as it arrives.  [BodyThrows e]: the first statement of
    the handler throws an error of message [e], because the body does not
    parse as JSON or because it parses to [null], which cannot be
    destructured.  [BodyParsed body]: it yields [body]. *)
Inductive Request : Type :=
| BodyThrows (errorMessage : jsstring)
| BodyParsed (body : RequestBody).

(** An element of [callDetails.messages]: [{type, content, sender}]. *)
Record RawMessage : Type := {
  type : jsval;
  content : jsval;
  sender : jsval
}.

(** The JSON body of the call-data API's answer where the handler can read
    it, as [errorData] on a failure and as [callDetails] on a success:
    [messages] is absent ([None]) or an array of objects. *)
Record VapiBody : Type := {
  message : jsval;
  messages : option (list RawMessage)
}.

Record VapiResponse : Type := {
  ok : bool;
  statusText : jsstring;
  json : VapiBody
}.

(** [await fetch(...)]: the promise rejects with an error message, or
    resolves with a response.  [FetchUnreadable ok statusText e] is a
    response, ok or not, whose body makes the handler throw an error of
    message [e] while it reads it: [await vapiResponse.json()] rejects (the
    body is empty or is not JSON) or yields [null], or, on a response that
    is ok, [messages] is not an array of objects. *)
Inductive FetchOutcome : Type :=
| FetchRejected (errorMessage : jsstring)
| FetchResolved (vapiResponse : VapiResponse)
| FetchUnreadable (ok : bool) (statusText : jsstring) (errorMessage : jsstring).

(** The argument of [openai.chat.completions.create]. *)
Record CompletionRequest : Type := {
  model : jsstring;
  system_content : jsstring;
  user_content : jsstring;
  temperature : number
}.

(** [completion.choices[i]]: [message] may be missing, [content] may be
    [null]. *)
Record Choice : Type := {
  choice_message : option (option jsstring)
}.

Inductive CompletionOutcome : Type :=
| CompletionRejected (errorMessage : jsstring)
| CompletionResolved (choices : list Choice).

(** The environment of one request: the server-side secret and the two
    upstream services. *)
Record Upstream : Type := {
  VAPI_SECRET_KEY : option jsstring;
  fetchCall : jsstring -> jsstring -> FetchOutcome;
  createCompletion : CompletionRequest -> CompletionOutcome
}.

(** The upstream calls a request makes, in order. *)
Inductive UpstreamCall : Type :=
| CallDataFetch (url authorization : jsstring)
| CompletionCall (request : CompletionRequest).

Inductive ResponseBody : Type :=
| ScoreBody (score : jsstring)
| ErrorBody (error : jsstring).

(** [NextResponse.json(body, { status })]; the status defaults to 200. *)
Record Response : Type := {
  status : Z;
  body : ResponseBody
}.

Definition isCompletionCall (c : UpstreamCall) : bool :=
  match c with CompletionCall _ => true | CallDataFetch _ _ => false end.

(** The predicate of [rawMessages.filter(...)]:
    [msg.type === 'transcript' && msg.content &&
     typeof msg.content === 'string' && msg.content.trim().length > 0]. *)
Definition isTranscriptEntry (msg : RawMessage) : bool :=
  strictEq (type msg) (lit "transcript")
  && truthy (content msg)
  && isString (content msg)
  && match content msg with
     | JStr s => (0 <? List.length (trim s))%nat
     | _ => false
     end.

(** The function of [.map(...)]:
    [`${msg.sender === 'user' ? 'Candidate' : 'Interviewer'}: ${msg.content}`]. *)
Definition formatEntry (msg : RawMessage) : jsstring :=
  (if strictEq (sender msg) (lit "user")
   then lit "Candidate" else lit "Interviewer")
  ++ lit ": " ++ toString (content msg).

Definition transcriptMessages (rawMessages : list RawMessage) : list jsstring :=
  map formatEntry (filter isTranscriptEntry rawMessages).

Definition fullTranscript (rawMessages : list RawMessage) : jsstring :=
  join LF (transcriptMessages rawMessages).

(** The text of the template literal before [${fullTranscript}]. *)
Definition promptBefore : jsstring :=
  LF ++ join LF [
    lit "      You are an expert interviewer and evaluator. Your task is to score an interview transcript based on two main criteria:";
    lit "      1.  **Accuracy:** How factual, correct, and well-supported the candidate's answers are.";
    lit "      2.  **Confidentiality:** Whether the candidate avoided disclosing unnecessary sensitive personal or company information. If they discuss personal experience, ensure it is professional and relevant. If they mention past projects, ensure no proprietary or sensitive details are revealed.";
    [];
    lit "      Provide a concise score from 1 to 10 (10 being excellent) for each criterion, along with a brief explanation for each score. Finally, provide an overall recommendation or qualitative feedback.";
    [];
    lit "      ---";
    lit "      Interview Transcript:";
    lit "      " ].

(** The text of the template literal after [${fullTranscript}]. *)
Definition promptAfter : jsstring :=
  LF ++ join LF [
    lit "      ---";
    [];
    lit "      Please format your response clearly, like this:";
    lit "      Accuracy Score (1-10): [Score]";
    lit "      Accuracy Explanation: [Explanation]";
    [];
    lit "      Confidentiality Score (1-10): [Score]";
    lit "      Confidentiality Explanation: [Explanation]";
    [];
    lit "      Overall Feedback: [Your overall assessment]";
    lit "    " ].

Definition scoringPrompt (fullTranscript : jsstring) : jsstring :=
  promptBefore ++ fullTranscript ++ promptAfter.

Definition completionRequest (scoringPrompt : jsstring) : CompletionRequest :=
  {| model := lit "gpt-4o";
     system_content := lit "You are a helpful and fair interview evaluation AI.";
     user_content := scoringPrompt;
     temperature := 0.2%float |}.

(** The [catch (error)] block: both of its branches answer 500. *)
Definition catchError (errorMessage : jsstring) : Response :=
  if includes errorMessage (lit "Failed to fetch call details from Vapi")
  then {| status := 500; body := ErrorBody errorMessage |}
  else {| status := 500;
          body := ErrorBody
                    (strOr errorMessage
                           (lit "Internal server error during scoring.")) |}.

(** The message of the [TypeError] that reading [.message] of
    [undefined] raises, as the engine of Node.js words it. *)
Definition typeErrorMessage : jsstring :=
  lit "Cannot read properties of undefined (reading 'message')".

(** [completion.choices[0].message?.content || "Could not generate score."] *)
Definition scoreResult (choice : Choice) : jsstring :=
  match choice_message choice with
  | Some (Some c) => strOr c (lit "Could not generate score.")
  | Some None | None => lit "Could not generate score."
  end.

(** The handler from its second statement on, the request body read.  It
    returns the response together with the upstream calls made while
    computing it. *)
Definition POST (up : Upstream) (request : RequestBody)
  : Response * list UpstreamCall :=
  if negb (truthy (callId request)) then
    ({| status := 400; body := ErrorBody (lit "Call ID is required") |}, [])
  else
    match VAPI_SECRET_KEY up with
    | None | Some [] =>
        ({| status := 500;
            body := ErrorBody
              (lit "VAPI_SECRET_KEY is not set in environment variables.") |},
         [])
    | Some vapiSecretKey =>
        let url := lit "https://api.vapi.ai/call/" ++ toString (callId request) in
        let authorization := lit "Bearer " ++ vapiSecretKey in
        let fetched := [CallDataFetch url authorization] in
        match fetchCall up url authorization with
        | FetchRejected e => (catchError e, fetched)
        | FetchUnreadable _ _ e => (catchError e, fetched)
        | FetchResolved vapiResponse =>
            if negb (ok vapiResponse) then
              let errorData := json vapiResponse in
              (catchError
                 (lit "Failed to fetch call details from Vapi: "
                  ++ toString (orElse (message errorData)
                                      (JStr (statusText vapiResponse)))),
               fetched)
            else
              let callDetails := json vapiResponse in
              let rawMessages :=
                match messages callDetails with Some l => l | None => [] end in
              let fullTranscript := fullTranscript rawMessages in
              match fullTranscript with
              | [] =>
                  ({| status := 200;
                      body := ScoreBody
                        (lit "No valid transcript available from Vapi for scoring.") |},
                   fetched)
              | _ :: _ =>
                  let request := completionRequest (scoringPrompt fullTranscript) in
                  let called := fetched ++ [CompletionCall request] in
                  match createCompletion up request with
                  | CompletionRejected e => (catchError e, called)
                  | CompletionResolved [] => (catchError typeErrorMessage, called)
                  | CompletionResolved (choice :: _) =>
                      ({| status := 200; body := ScoreBody (scoreResult choice) |},
                       called)
                  end
              end
        end
    end.

(** The handler from the request as it arrives: the first statement,
    [const { callId } = await request.json()], is inside the [try]. *)
Definition POST_request (up : Upstream) (request : Request)
  : Response * list UpstreamCall :=
  match request with
  | BodyThrows e => (catchError e, [])
  | BodyParsed body => POST up body
  end.

End Route.

(* ================================================================== *)
(** ** What the three components share *)
(* ================================================================== *)

Module Sdk.

(** The external session handle held in [vapiRef.current].  Of the SDK's
    state only the microphone flag is visible to the components:
    [isMuted()] reads it and [setMuted(b)] writes it. *)
Record Vapi : Type := {
  muted : bool
}.

(** The object [vapi.start] resolves with. *)
Record Call : Type := {
  id : jsstring
}.

(** [callConfig : string | CreateAssistantDTO]: the id typed by the user,
    or the configuration object written in the component. *)
Inductive CallConfig : Type :=
| AssistantId (assistantId : jsstring)
| InlineConfig.

(** A caught or reported error: its [message] field and what
    [JSON.stringify] yields for it. *)
Record ErrorValue : Type := {
  message : jsval;
  stringified : jsstring
}.

(** The calls a handler makes outside the component, in order. *)
Inductive Effect : Type :=
| GetUserMedia
| VapiStart (callConfig : CallConfig)
| VapiStop
| VapiIsMuted
| VapiSetMuted (mute : bool)
| VapiSend (content : jsstring)
| VapiSay (text : jsstring) (endCallAfterSpoken : bool)
| FetchScoreInterview (body : Route.RequestBody).

Definition isVapiStart (e : Effect) : bool :=
  match e with VapiStart _ => true | _ => false end.
Definition isVapiSetMuted (e : Effect) : bool :=
  match e with VapiSetMuted _ => true | _ => false end.
Definition isFetchScoreInterview (e : Effect) : bool :=
  match e with FetchScoreInterview _ => true | _ => false end.

(** [response.ok] of the scoring request. *)
Definition responseOk (r : Route.Response) : bool :=
  (200 <=? Route.status r)%Z && (Route.status r <=? 299)%Z.

(** The message of the error thrown on a response that is not ok:
    [errorData.error || `HTTP error! status: ${response.status}`]. *)
Definition responseErrorMessage (r : Route.Response) : jsstring :=
  let httpError := lit "HTTP error! status: " ++ numberToString (Route.status r) in
  match Route.body r with
  | Route.ErrorBody e => strOr e httpError
  | Route.ScoreBody _ => httpError
  end.

(** The message of the [TypeError] raised by [vapiRef.current.start] when
    the ref holds [null], as Chrome words it. *)
Definition nullStartMessage : jsstring :=
  lit "Cannot read properties of null (reading 'start')".

End Sdk.
Import Sdk.

Declare Scope handler_scope.
Delimit Scope handler_scope with handler.
(** [s |> f |> g]: the statements [f; g] run on state [s]. *)
Notation "s |> f" := (f s) (at level 45, left associativity, only parsing)
  : handler_scope.
#[local] Open Scope handler_scope.

(* ================================================================== *)
(** ** The interview bot that scores by call id *)
(* ================================================================== *)

Module CallIdBot.

(** The [useState] cells and the [useRef] cells of the component. *)
Record State : Type := {
  isCallActive : bool;
  isLoading : bool;
  status : jsstring;
  errorMessage : option jsstring;
  volumeLevel : number;
  isMuted : bool;
  assistantId : jsstring;
  interviewScore : option jsstring;
  isScoring : bool;
  vapiRef : option Vapi;
  currentCallIdRef : option jsstring
}.

Definition setIsCallActive (v : bool) (s : State) : State :=
  {| isCallActive := v; isLoading := isLoading s; status := status s;
     errorMessage := errorMessage s; volumeLevel := volumeLevel s;
     isMuted := isMuted s; assistantId := assistantId s;
     interviewScore := interviewScore s; isScoring := isScoring s;
     vapiRef := vapiRef s; currentCallIdRef := currentCallIdRef s |}.
Definition setIsLoading (v : bool) (s : State) : State :=
  {| isCallActive := isCallActive s; isLoading := v; status := status s;
     errorMessage := errorMessage s; volumeLevel := volumeLevel s;
     isMuted := isMuted s; assistantId := assistantId s;
     interviewScore := interviewScore s; isScoring := isScoring s;
     vapiRef := vapiRef s; currentCallIdRef := currentCallIdRef s |}.
Definition setStatus (v : jsstring) (s : State) : State :=
  {| isCallActive := isCallActive s; isLoading := isLoading s; status := v;
     errorMessage := errorMessage s; volumeLevel := volumeLevel s;
     isMuted := isMuted s; assistantId := assistantId s;
     interviewScore := interviewScore s; isScoring := isScoring s;
     vapiRef := vapiRef s; currentCallIdRef := currentCallIdRef s |}.
Definition setErrorMessage (v : option jsstring) (s : State) : State :=
  {| isCallActive := isCallActive s; isLoading := isLoading s; status := status s;
     errorMessage := v; volumeLevel := volumeLevel s;
     isMuted := isMuted s; assistantId := assistantId s;
     interviewScore := interviewScore s; isScoring := isScoring s;
     vapiRef := vapiRef s; currentCallIdRef := currentCallIdRef s |}.
Definition setVolumeLevel (v : number) (s : State) : State :=
  {| isCallActive := isCallActive s; isLoading := isLoading s; status := status s;
     errorMessage := errorMessage s; volumeLevel := v;
     isMuted := isMuted s; assistantId := assistantId s;
     interviewScore := interviewScore s; isScoring := isScoring s;
     vapiRef := vapiRef s; currentCallIdRef := currentCallIdRef s |}.
Definition setIsMuted (v : bool) (s : State) : State :=
  {| isCallActive := isCallActive s; isLoading := isLoading s; status := status s;
     errorMessage := errorMessage s; volumeLevel := volumeLevel s;
     isMuted := v; assistantId := assistantId s;
     interviewScore := interviewScore s; isScoring := isScoring s;
     vapiRef := vapiRef s; currentCallIdRef := currentCallIdRef s |}.
Definition setAssistantId (v : jsstring) (s : State) : State :=
  {| isCallActive := isCallActive s; isLoading := isLoading s; status := status s;
     errorMessage := errorMessage s; volumeLevel := volumeLevel s;
     isMuted := isMuted s; assistantId := v;
     interviewScore := interviewScore s; isScoring := isScoring s;
     vapiRef := vapiRef s; currentCallIdRef := currentCallIdRef s |}.
Definition setInterviewScore (v : option jsstring) (s : State) : State :=
  {| isCallActive := isCallActive s; isLoading := isLoading s; status := status s;
     errorMessage := errorMessage s; volumeLevel := volumeLevel s;
     isMuted := isMuted s; assistantId := assistantId s;
     interviewScore := v; isScoring := isScoring s;
     vapiRef := vapiRef s; currentCallIdRef := currentCallIdRef s |}.
Definition setIsScoring (v : bool) (s : State) : State :=
  {| isCallActive := isCallActive s; isLoading := isLoading s; status := status s;
     errorMessage := errorMessage s; volumeLevel := volumeLevel s;
     isMuted := isMuted s; assistantId := assistantId s;
     interviewScore := interviewScore s; isScoring := v;
     vapiRef := vapiRef s; currentCallIdRef := currentCallIdRef s |}.
(** A write to the handle behind [vapiRef.current]. *)
Definition setVapi (v : option Vapi) (s : State) : State :=
  {| isCallActive := isCallActive s; isLoading := isLoading s; status := status s;
     errorMessage := errorMessage s; volumeLevel := volumeLevel s;
     isMuted := isMuted s; assistantId := assistantId s;
     interviewScore := interviewScore s; isScoring := isScoring s;
     vapiRef := v; currentCallIdRef := currentCallIdRef s |}.
(** [currentCallIdRef.current = v] *)
Definition setCurrentCallIdRef (v : option jsstring) (s : State) : State :=
  {| isCallActive := isCallActive s; isLoading := isLoading s; status := status s;
     errorMessage := errorMessage s; volumeLevel := volumeLevel s;
     isMuted := isMuted s; assistantId := assistantId s;
     interviewScore := interviewScore s; isScoring := isScoring s;
     vapiRef := vapiRef s; currentCallIdRef := v |}.

(** The component as first rendered; [vapiRef] is filled by the mount
    effect when the public key is set. *)
Definition initial (vapi : option Vapi) : State :=
  {| isCallActive := false; isLoading := false;
     status := lit "Ready for Interview"; errorMessage := None;
     volumeLevel := 0%float; isMuted := false; assistantId := [];
     interviewScore := None; isScoring := false;
     vapiRef := vapi; currentCallIdRef := None |}.

(** *** [scoreInterviewTranscript(callId)] *)

(** Up to the [await fetch(...)]. *)
Definition scoreInterviewTranscript (callId : jsstring) (s : State)
  : State * list Effect :=
  (s |> setIsScoring true
     |> setInterviewScore (Some (lit "Generating score...")),
   [FetchScoreInterview
      {| Route.callId := JStr callId; Route.transcript := JUndefined |}]).

(** The fetch resolved with [response]. *)
Definition scoreInterviewTranscript_resolved (response : Route.Response)
  (s : State) : State :=
  if negb (responseOk response) then
    s |> setInterviewScore
           (Some (lit "Failed to generate score: " ++ responseErrorMessage response))
      |> setIsScoring false
  else
    s |> setInterviewScore
           (match Route.body response with
            | Route.ScoreBody score => Some score
            | Route.ErrorBody _ => None
            end)
      |> setIsScoring false.

(** The fetch rejected with [error]. *)
Definition scoreInterviewTranscript_rejected (error : ErrorValue) (s : State)
  : State :=
  s |> setInterviewScore
         (Some (lit "Failed to generate score: " ++ toString (message error)))
    |> setIsScoring false.

(** *** The listeners attached to the SDK handle *)

Definition handleCallEnd (s : State) : State * list Effect :=
  let s := s |> setIsCallActive false
             |> setIsLoading false
             |> setStatus (lit "Interview Ended")
             |> setErrorMessage None in
  match currentCallIdRef s with
  | Some (c :: callId) =>
      let (s, effects) := scoreInterviewTranscript (c :: callId) s in
      (s |> setCurrentCallIdRef None, effects)
  | Some [] | None =>
      (s |> setInterviewScore
              (Some (lit "No call ID available to score. (Ref was null at call end)"))
         |> setIsScoring false,
       [])
  end.

Definition handleCallStart (s : State) : State :=
  s |> setIsCallActive true
    |> setIsLoading false
    |> setStatus (lit "Interview Started")
    |> setErrorMessage None
    |> setCurrentCallIdRef None
    |> setInterviewScore None.

Definition handleSpeechStart (s : State) : State :=
  s |> setStatus (lit "Interviewer Speaking").

Definition handleSpeechEnd (s : State) : State :=
  if isCallActive s then s |> setStatus (lit "Listening to Candidate...")
  else s.

Definition handleVolumeLevel (volume : number) (s : State) : State :=
  s |> setVolumeLevel volume.

Definition handleError (e : ErrorValue) (s : State) : State :=
  s |> setIsLoading false
    |> setErrorMessage
         (Some (lit "Vapi Error: "
                ++ toString (orElse (message e) (JStr (stringified e)))))
    |> setStatus (lit "Error During Interview").

(** *** The handlers of the user's actions *)

(** The [catch (error)] block around the start. *)
Definition handleStartCall_catch (error : jsval) (s : State) : State :=
  s |> setIsLoading false
    |> setStatus (lit "Ready for Interview")
    |> setErrorMessage
         (Some (lit "Failed to start interview: "
                ++ toString (orElse error (JStr (lit "An unknown error occurred."))))).

(** [await vapiRef.current.start(callConfig)], up to the [await]. *)
Definition startWith (callConfig : CallConfig) (s : State)
  : State * list Effect :=
  match vapiRef s with
  | Some _ => (s, [VapiStart callConfig])
  | None => (handleStartCall_catch (JStr nullStartMessage) s, [])
  end.

(** [handleStartCall], up to its first [await]: the microphone request
    with the inline configuration, the start itself with an assistant id. *)
Definition handleStartCall (s : State) : State * list Effect :=
  match vapiRef s with
  | None =>
      (s |> setErrorMessage
              (Some (lit "Vapi not initialized. Please refresh or check public key.")),
       [])
  | Some _ =>
      let s := s |> setIsLoading true
                 |> setErrorMessage None
                 |> setStatus (lit "Initiating Interview...")
                 |> setCurrentCallIdRef None
                 |> setInterviewScore None in
      match assistantId s with
      | _ :: _ => startWith (AssistantId (assistantId s)) s
      | [] => (s, [GetUserMedia])
      end
  end.

(** [getUserMedia] resolved: the start goes on with the inline
    configuration. *)
Definition handleStartCall_micGranted (s : State) : State * list Effect :=
  startWith InlineConfig s.

(** [getUserMedia] rejected with [micError]: the inner [catch]. *)
Definition handleStartCall_micDenied (micError : ErrorValue) (s : State)
  : State :=
  s |> setErrorMessage
         (Some (lit "Microphone access needed to start interview: "
                ++ toString (orElse (message micError)
                                    (JStr (lit "Permission denied.")))))
    |> setIsLoading false
    |> setStatus (lit "Permission Denied").

(** [vapi.start] resolved with [call] ([None] for [null]). *)
Definition handleStartCall_started (call : option Call) (s : State) : State :=
  match call with
  | Some call => s |> setCurrentCallIdRef (Some (id call))
  | None =>
      s |> setErrorMessage
             (Some (lit "Failed to start call: Vapi did not return a call object."))
        |> setIsLoading false
        |> setStatus (lit "Ready for Interview")
  end.

(** [vapi.start] rejected with [error]. *)
Definition handleStartCall_failed (error : ErrorValue) (s : State) : State :=
  handleStartCall_catch (message error) s.

Definition handleStopCall (s : State) : State * list Effect :=
  match vapiRef s with
  | None => (s, [])
  | Some _ =>
      (s |> setIsLoading true |> setStatus (lit "Ending Interview..."),
       [VapiStop])
  end.

Definition handleToggleMute (s : State) : State * list Effect :=
  match vapiRef s with
  | None => (s, [])
  | Some vapi =>
      let currentlyMuted := muted vapi in
      (s |> setVapi (Some {| muted := negb currentlyMuted |})
         |> setIsMuted (negb currentlyMuted)
         |> setStatus (lit "Microphone: "
                       ++ (if negb currentlyMuted
                           then lit "Muted" else lit "Unmuted")),
       [VapiIsMuted; VapiSetMuted (negb currentlyMuted)])
  end.

Definition handleSendBackgroundMessage (s : State) : State * list Effect :=
  match vapiRef s, isCallActive s with
  | Some _, true =>
      (s, [VapiSend (lit "Please ask the candidate about their biggest professional achievement.")])
  | _, _ =>
      (s |> setErrorMessage (Some (lit "Call not active to send message.")), [])
  end.

Definition handleSayGoodbye (s : State) : State * list Effect :=
  match vapiRef s, isCallActive s with
  | Some _, true =>
      (s, [VapiSay (lit "Thank you for your time. We will be in touch shortly. Goodbye!") true])
  | _, _ =>
      (s |> setErrorMessage (Some (lit "Call not active to say goodbye.")), [])
  end.

(** *** The component as a transition system *)

(** What can happen to the component: a user action, the settlement of a
    promise one of its handlers awaits, an event of the SDK, or the SDK
    changing the microphone flag on its own. *)
Inductive Event : Type :=
| ClickStart
| ClickStop
| ClickToggleMute
| ClickSendBackgroundMessage
| ClickSayGoodbye
| ChangeAssistantId (value : jsstring)
| MicGranted
| MicDenied (micError : ErrorValue)
| StartResolved (call : option Call)
| StartRejected (error : ErrorValue)
| ScoreResolved (response : Route.Response)
| ScoreRejected (error : ErrorValue)
| CallStart
| CallEnd
| SpeechStart
| SpeechEnd
| VolumeLevel (volume : number)
| VapiError (e : ErrorValue)
| MutedOutOfBand (mute : bool).

Definition isCallEnd (e : Event) : bool :=
  match e with CallEnd => true | _ => false end.

Definition step (s : State) (e : Event) : State * list Effect :=
  match e with
  | ClickStart => handleStartCall s
  | ClickStop => handleStopCall s
  | ClickToggleMute => handleToggleMute s
  | ClickSendBackgroundMessage => handleSendBackgroundMessage s
  | ClickSayGoodbye => handleSayGoodbye s
  | ChangeAssistantId value => (setAssistantId value s, [])
  | MicGranted => handleStartCall_micGranted s
  | MicDenied micError => (handleStartCall_micDenied micError s, [])
  | StartResolved call => (handleStartCall_started call s, [])
  | StartRejected error => (handleStartCall_failed error s, [])
  | ScoreResolved response => (scoreInterviewTranscript_resolved response s, [])
  | ScoreRejected error => (scoreInterviewTranscript_rejected error s, [])
  | CallStart => (handleCallStart s, [])
  | CallEnd => handleCallEnd s
  | SpeechStart => (handleSpeechStart s, [])
  | SpeechEnd => (handleSpeechEnd s, [])
  | VolumeLevel volume => (handleVolumeLevel volume s, [])
  | VapiError e => (handleError e s, [])
  | MutedOutOfBand mute =>
      (match vapiRef s with
       | Some _ => setVapi (Some {| muted := mute |}) s
       | None => s
       end, [])
  end.

Fixpoint run (s : State) (events : list Event) : State * list Effect :=
  match events with
  | [] => (s, [])
  | e :: events' =>
      let (s1, effects1) := step s e in
      let (s2, effects2) := run s1 events' in
      (s2, effects1 ++ effects2)
  end.

(** The speech and volume events of a call in progress. *)
Definition isSpeechEvent (e : Event) : bool :=
  match e with
  | SpeechStart | SpeechEnd | VolumeLevel _ => true
  | _ => false
  end.

End CallIdBot.

(* ================================================================== *)
(** ** The interview bot that scores the transcript it captured *)
(* ================================================================== *)

Module TranscriptBot.

(** The [message] of a [VapiMessage], typed [any]: the fields the
    component reads. *)
Record MessagePayload : Type := {
  sender : jsval;
  text : jsval;
  name : jsval
}.

(** [VapiMessage]: [{ type: string; message?: any }]. *)
Record VapiMessage : Type := {
  type : jsstring;
  message : option MessagePayload
}.

(** [msg.message?.field] *)
Definition field (f : MessagePayload -> jsval) (msg : VapiMessage) : jsval :=
  match message msg with Some m => f m | None => JUndefined end.

(** The [useState] cells and the [useRef] cell of the component. *)
Record State : Type := {
  isCallActive : bool;
  isLoading : bool;
  status : jsstring;
  errorMessage : option jsstring;
  volumeLevel : number;
  messages : list VapiMessage;
  isMuted : bool;
  assistantId : jsstring;
  interviewScore : option jsstring;
  isScoring : bool;
  vapiRef : option Vapi
}.

Definition setIsCallActive (v : bool) (s : State) : State :=
  {| isCallActive := v; isLoading := isLoading s; status := status s;
     errorMessage := errorMessage s; volumeLevel := volumeLevel s;
     messages := messages s; isMuted := isMuted s;
     assistantId := assistantId s; interviewScore := interviewScore s;
     isScoring := isScoring s; vapiRef := vapiRef s |}.
Definition setIsLoading (v : bool) (s : State) : State :=
  {| isCallActive := isCallActive s; isLoading := v; status := status s;
     errorMessage := errorMessage s; volumeLevel := volumeLevel s;
     messages := messages s; isMuted := isMuted s;
     assistantId := assistantId s; interviewScore := interviewScore s;
     isScoring := isScoring s; vapiRef := vapiRef s |}.
Definition setStatus (v : jsstring) (s : State) : State :=
  {| isCallActive := isCallActive s; isLoading := isLoading s; status := v;
     errorMessage := errorMessage s; volumeLevel := volumeLevel s;
     messages := messages s; isMuted := isMuted s;
     assistantId := assistantId s; interviewScore := interviewScore s;
     isScoring := isScoring s; vapiRef := vapiRef s |}.
Definition setErrorMessage (v : option jsstring) (s : State) : State :=
  {| isCallActive := isCallActive s; isLoading := isLoading s;
     status := status s; errorMessage := v; volumeLevel := volumeLevel s;
     messages := messages s; isMuted := isMuted s;
     assistantId := assistantId s; interviewScore := interviewScore s;
     isScoring := isScoring s; vapiRef := vapiRef s |}.
Definition setVolumeLevel (v : number) (s : State) : State :=
  {| isCallActive := isCallActive s; isLoading := isLoading s;
     status := status s; errorMessage := errorMessage s; volumeLevel := v;
     messages := messages s; isMuted := isMuted s;
     assistantId := assistantId s; interviewScore := interviewScore s;
     isScoring := isScoring s; vapiRef := vapiRef s |}.
Definition setMessages (v : list VapiMessage) (s : State) : State :=
  {| isCallActive := isCallActive s; isLoading := isLoading s;
     status := status s; errorMessage := errorMessage s;
     volumeLevel := volumeLevel s; messages := v; isMuted := isMuted s;
     assistantId := assistantId s; interviewScore := interviewScore s;
     isScoring := isScoring s; vapiRef := vapiRef s |}.
Definition setIsMuted (v : bool) (s : State) : State :=
  {| isCallActive := isCallActive s; isLoading := isLoading s;
     status := status s; errorMessage := errorMessage s;
     volumeLevel := volumeLevel s; messages := messages s; isMuted := v;
     assistantId := assistantId s; interviewScore := interviewScore s;
     isScoring := isScoring s; vapiRef := vapiRef s |}.
Definition setAssistantId (v : jsstring) (s : State) : State :=
  {| isCallActive := isCallActive s; isLoading := isLoading s;
     status := status s; errorMessage := errorMessage s;
     volumeLevel := volumeLevel s; messages := messages s;
     isMuted := isMuted s; assistantId := v;
     interviewScore := interviewScore s; isScoring := isScoring s;
     vapiRef := vapiRef s |}.
Definition setInterviewScore (v : option jsstring) (s : State) : State :=
  {| isCallActive := isCallActive s; isLoading := isLoading s;
     status := status s; errorMessage := errorMessage s;
     volumeLevel := volumeLevel s; messages := messages s;
     isMuted := isMuted s; assistantId := assistantId s; interviewScore := v;
     isScoring := isScoring s; vapiRef := vapiRef s |}.
Definition setIsScoring (v : bool) (s : State) : State :=
  {| isCallActive := isCallActive s; isLoading := isLoading s;
     status := status s; errorMessage := errorMessage s;
     volumeLevel := volumeLevel s; messages := messages s;
     isMuted := isMuted s; assistantId := assistantId s;
     interviewScore := interviewScore s; isScoring := v;
     vapiRef := vapiRef s |}.
(** A write to the handle behind [vapiRef.current]. *)
Definition setVapi (v : option Vapi) (s : State) : State :=
  {| isCallActive := isCallActive s; isLoading := isLoading s;
     status := status s; errorMessage := errorMessage s;
     volumeLevel := volumeLevel s; messages := messages s;
     isMuted := isMuted s; assistantId := assistantId s;
     interviewScore := interviewScore s; isScoring := isScoring s;
     vapiRef := v |}.

Definition initial (vapi : option Vapi) : State :=
  {| isCallActive := false; isLoading := false;
     status := lit "Ready for Interview"; errorMessage := None;
     volumeLevel := 0%float; messages := []; isMuted := false;
     assistantId := []; interviewScore := None; isScoring := false;
     vapiRef := vapi |}.

(** *** [scoreInterviewTranscript()] *)

(** The predicate of [messages.filter(...)]:
    [msg.type === "transcript" && typeof msg.message?.text === 'string'
     && msg.message.text.trim().length > 0]. *)
Definition isTranscriptMessage (msg : VapiMessage) : bool :=
  jsstring_eqb (type msg) (lit "transcript")
  && isString (field text msg)
  && match field text msg with
     | JStr t => (0 <? List.length (trim t))%nat
     | _ => false
     end.

(** The function of [.map(...)]:
    [`${msg.message.sender === 'user' ? 'Candidate' : 'Interviewer'}: ${msg.message.text}`]. *)
Definition formatMessage (msg : VapiMessage) : jsstring :=
  (if strictEq (field sender msg) (lit "user")
   then lit "Candidate" else lit "Interviewer")
  ++ lit ": " ++ toString (field text msg).

Definition filteredTranscript (messages : list VapiMessage) : list jsstring :=
  map formatMessage (filter isTranscriptMessage messages).

(** Up to the [await fetch(...)], or to the early [return].  This is the
    function as the render of [s] defines it: the [messages] it closes
    over are those of [s].  The function of an earlier render is
    [TranscriptRender.scoreInterviewTranscript]. *)
Definition scoreInterviewTranscript (s : State) : State * list Effect :=
  let s := s |> setIsScoring true
             |> setInterviewScore (Some (lit "Generating score...")) in
  match filteredTranscript (messages s) with
  | [] =>
      (s |> setInterviewScore
              (Some (lit "No valid transcript to score. (Possible short call or no speech detected.)"))
         |> setIsScoring false,
       [])
  | lines =>
      (s, [FetchScoreInterview
             {| Route.callId := JUndefined;
                Route.transcript := JStr (join LF lines) |}])
  end.

(** The fetch resolved with [response]. *)
Definition scoreInterviewTranscript_resolved (response : Route.Response)
  (s : State) : State :=
  if negb (responseOk response) then
    s |> setInterviewScore
           (Some (lit "Failed to generate score: " ++ responseErrorMessage response))
      |> setIsScoring false
  else
    s |> setInterviewScore
           (match Route.body response with
            | Route.ScoreBody score => Some score
            | Route.ErrorBody _ => None
            end)
      |> setIsScoring false.

(** The fetch rejected with [error]. *)
Definition scoreInterviewTranscript_rejected (error : ErrorValue) (s : State)
  : State :=
  s |> setInterviewScore
         (Some (lit "Failed to generate score: " ++ toString (Sdk.message error)))
    |> setIsScoring false.

(** *** The listeners attached to the SDK handle *)

Definition handleCallStart (s : State) : State :=
  s |> setIsCallActive true
    |> setIsLoading false
    |> setStatus (lit "Interview Started")
    |> setErrorMessage None
    |> setMessages []
    |> setInterviewScore None.

(** The call-end listener of the effect that ran in the render of [s];
    that of an earlier render is [TranscriptRender.handleCallEnd]. *)
Definition handleCallEnd (s : State) : State * list Effect :=
  scoreInterviewTranscript
    (s |> setIsCallActive false
       |> setIsLoading false
       |> setStatus (lit "Interview Ended")
       |> setErrorMessage None).

Definition handleSpeechStart (s : State) : State :=
  s |> setStatus (lit "Interviewer Speaking").

Definition handleSpeechEnd (s : State) : State :=
  if isCallActive s then s |> setStatus (lit "Listening to Candidate...")
  else s.

Definition handleVolumeLevel (volume : number) (s : State) : State :=
  s |> setVolumeLevel volume.

Definition handleMessage (msg : VapiMessage) (s : State) : State :=
  let s := s |> setMessages (messages s ++ [msg]) in
  if jsstring_eqb (type msg) (lit "transcript") then
    let prevStatus := status s in
    s |> setStatus
           (if strictEq (field sender msg) (lit "user") then
              lit "Candidate Speaking..."
            else if strictEq (field sender msg) (lit "assistant")
                    && negb (jsstring_eqb prevStatus (lit "Interviewer Speaking"))
            then lit "Interviewer Thinking..."
            else prevStatus)
  else if jsstring_eqb (type msg) (lit "function-call") then
    s |> setStatus (lit "Function Call: " ++ toString (field name msg))
  else if jsstring_eqb (type msg) (lit "function-return") then
    s |> setStatus (lit "Function Returned: " ++ toString (field name msg))
  else s.

Definition handleError (e : ErrorValue) (s : State) : State :=
  s |> setIsLoading false
    |> setErrorMessage
         (Some (lit "Vapi Error: "
                ++ toString (orElse (Sdk.message e) (JStr (stringified e)))))
    |> setStatus (lit "Error During Interview").

(** *** The handlers of the user's actions *)

(** The [catch (error)] block around the start. *)
Definition handleStartCall_catch (error : jsval) (s : State) : State :=
  s |> setIsLoading false
    |> setStatus (lit "Ready for Interview")
    |> setErrorMessage
         (Some (lit "Failed to start interview: "
                ++ toString (orElse error (JStr (lit "An unknown error occurred."))))).

(** [await vapiRef.current.start(callConfig)], up to the [await]. *)
Definition startWith (callConfig : CallConfig) (s : State)
  : State * list Effect :=
  match vapiRef s with
  | Some _ => (s, [VapiStart callConfig])
  | None => (handleStartCall_catch (JStr nullStartMessage) s, [])
  end.

(** [handleStartCall], up to its first [await]. *)
Definition handleStartCall (s : State) : State * list Effect :=
  match vapiRef s with
  | None =>
      (s |> setErrorMessage
              (Some (lit "Vapi not initialized. Please refresh or check public key.")),
       [])
  | Some _ =>
      let s := s |> setIsLoading true
                 |> setErrorMessage None
                 |> setStatus (lit "Initiating Interview...")
                 |> setInterviewScore None
                 |> setMessages [] in
      match assistantId s with
      | _ :: _ => startWith (AssistantId (assistantId s)) s
      | [] => (s, [GetUserMedia])
      end
  end.

(** [getUserMedia] resolved. *)
Definition handleStartCall_micGranted (s : State) : State * list Effect :=
  startWith InlineConfig s.

(** [getUserMedia] rejected with [micError]: the inner [catch]. *)
Definition handleStartCall_micDenied (micError : ErrorValue) (s : State)
  : State :=
  s |> setErrorMessage
         (Some (lit "Microphone access needed to start interview: "
                ++ toString (orElse (Sdk.message micError)
                                    (JStr (lit "Permission denied.")))))
    |> setIsLoading false
    |> setStatus (lit "Permission Denied").

(** [vapi.start] resolved: the call object is only logged. *)
Definition handleStartCall_started (call : option Call) (s : State) : State :=
  s.

(** [vapi.start] rejected with [error]. *)
Definition handleStartCall_failed (error : ErrorValue) (s : State) : State :=
  handleStartCall_catch (Sdk.message error) s.

Definition handleStopCall (s : State) : State * list Effect :=
  match vapiRef s with
  | None => (s, [])
  | Some _ =>
      (s |> setIsLoading true |> setStatus (lit "Ending Interview..."),
       [VapiStop])
  end.

Definition handleToggleMute (s : State) : State * list Effect :=
  match vapiRef s with
  | None => (s, [])
  | Some vapi =>
      let currentlyMuted := muted vapi in
      (s |> setVapi (Some {| muted := negb currentlyMuted |})
         |> setIsMuted (negb currentlyMuted)
         |> setStatus (lit "Microphone: "
                       ++ (if negb currentlyMuted
                           then lit "Muted" else lit "Unmuted")),
       [VapiIsMuted; VapiSetMuted (negb currentlyMuted)])
  end.

Definition handleSendBackgroundMessage (s : State) : State * list Effect :=
  match vapiRef s, isCallActive s with
  | Some _, true =>
      (s, [VapiSend (lit "Please ask the candidate about their biggest professional achievement.")])
  | _, _ =>
      (s |> setErrorMessage (Some (lit "Call not active to send message.")), [])
  end.

Definition handleSayGoodbye (s : State) : State * list Effect :=
  match vapiRef s, isCallActive s with
  | Some _, true =>
      (s, [VapiSay (lit "Thank you for your time. We will be in touch shortly. Goodbye!") true])
  | _, _ =>
      (s |> setErrorMessage (Some (lit "Call not active to say goodbye.")), [])
  end.

(** *** The component as a transition system *)

Inductive Event : Type :=
| ClickStart
| ClickStop
| ClickToggleMute
| ClickSendBackgroundMessage
| ClickSayGoodbye
| ChangeAssistantId (value : jsstring)
| MicGranted
| MicDenied (micError : ErrorValue)
| StartResolved (call : option Call)
| StartRejected (error : ErrorValue)
| ScoreResolved (response : Route.Response)
| ScoreRejected (error : ErrorValue)
| CallStart
| CallEnd
| SpeechStart
| SpeechEnd
| VolumeLevel (volume : number)
| Message (msg : VapiMessage)
| VapiError (e : ErrorValue)
| MutedOutOfBand (mute : bool).

Definition isCallEnd (e : Event) : bool :=
  match e with CallEnd => true | _ => false end.

(** An event reaches the handlers of the render of [s]: the step of a
    component in which React has committed since its state last changed.
    Events that arrive before React commits, and what the commits
    themselves do to the SDK handle, are in [TranscriptRender]. *)
Definition step (s : State) (e : Event) : State * list Effect :=
  match e with
  | ClickStart => handleStartCall s
  | ClickStop => handleStopCall s
  | ClickToggleMute => handleToggleMute s
  | ClickSendBackgroundMessage => handleSendBackgroundMessage s
  | ClickSayGoodbye => handleSayGoodbye s
  | ChangeAssistantId value => (setAssistantId value s, [])
  | MicGranted => handleStartCall_micGranted s
  | MicDenied micError => (handleStartCall_micDenied micError s, [])
  | StartResolved call => (handleStartCall_started call s, [])
  | StartRejected error => (handleStartCall_failed error s, [])
  | ScoreResolved response => (scoreInterviewTranscript_resolved response s, [])
  | ScoreRejected error => (scoreInterviewTranscript_rejected error s, [])
  | CallStart => (handleCallStart s, [])
  | CallEnd => handleCallEnd s
  | SpeechStart => (handleSpeechStart s, [])
  | SpeechEnd => (handleSpeechEnd s, [])
  | VolumeLevel volume => (handleVolumeLevel volume s, [])
  | Message msg => (handleMessage msg s, [])
  | VapiError e => (handleError e s, [])
  | MutedOutOfBand mute =>
      (match vapiRef s with
       | Some _ => setVapi (Some {| muted := mute |}) s
       | None => s
       end, [])
  end.

Fixpoint run (s : State) (events : list Event) : State * list Effect :=
  match events with
  | [] => (s, [])
  | e :: events' =>
      let (s1, effects1) := step s e in
      let (s2, effects2) := run s1 events' in
      (s2, effects1 ++ effects2)
  end.

(** The speech, volume and content events of a call in progress. *)
Definition isSpeechOrContent (e : Event) : bool :=
  match e with
  | SpeechStart | SpeechEnd | VolumeLevel _ | Message _ => true
  | _ => false
  end.

(** The messages delivered by a sequence of events, in order. *)
Definition received (events : list Event) : list VapiMessage :=
  flat_map (fun e => match e with Message msg => [msg] | _ => [] end) events.

End TranscriptBot.

(* ================================================================== *)
(** ** The prototype page: [src/app/page.tsx] *)
(* ================================================================== *)

Module Integration.

(** The [useState] cells and the [useRef] cell of [VapiIntegration].  Of
    the component only the start, stop and mute handlers are needed
    below.  The mount effect of this page lists [isCallActive] and
    [status] among its dependencies and builds a new handle when they
    change; a handler acts on the handle that the ref holds when it
    runs. *)
Record State : Type := {
  isCallActive : bool;
  isLoading : bool;
  status : jsstring;
  errorMessage : option jsstring;
  volumeLevel : number;
  messages : list TranscriptBot.VapiMessage;
  isMuted : bool;
  assistantId : jsstring;
  vapiRef : option Vapi
}.

Definition setIsLoading (v : bool) (s : State) : State :=
  {| isCallActive := isCallActive s; isLoading := v; status := status s;
     errorMessage := errorMessage s; volumeLevel := volumeLevel s;
     messages := messages s; isMuted := isMuted s;
     assistantId := assistantId s; vapiRef := vapiRef s |}.
Definition setStatus (v : jsstring) (s : State) : State :=
  {| isCallActive := isCallActive s; isLoading := isLoading s; status := v;
     errorMessage := errorMessage s; volumeLevel := volumeLevel s;
     messages := messages s; isMuted := isMuted s;
     assistantId := assistantId s; vapiRef := vapiRef s |}.
Definition setErrorMessage (v : option jsstring) (s : State) : State :=
  {| isCallActive := isCallActive s; isLoading := isLoading s;
     status := status s; errorMessage := v; volumeLevel := volumeLevel s;
     messages := messages s; isMuted := isMuted s;
     assistantId := assistantId s; vapiRef := vapiRef s |}.
Definition setIsMuted (v : bool) (s : State) : State :=
  {| isCallActive := isCallActive s; isLoading := isLoading s;
     status := status s; errorMessage := errorMessage s;
     volumeLevel := volumeLevel s; messages := messages s; isMuted := v;
     assistantId := assistantId s; vapiRef := vapiRef s |}.
(** A write to the handle behind [vapiRef.current]. *)
Definition setVapi (v : option Vapi) (s : State) : State :=
  {| isCallActive := isCallActive s; isLoading := isLoading s;
     status := status s; errorMessage := errorMessage s;
     volumeLevel := volumeLevel s; messages := messages s;
     isMuted := isMuted s; assistantId := assistantId s; vapiRef := v |}.

(** The outer [catch (error)] block of [handleStartCall]. *)
Definition handleStartCall_catch (error : ErrorValue) (s : State) : State :=
  s |> setIsLoading false
    |> setStatus (lit "Idle")
    |> setErrorMessage
         (Some (lit "Failed to start call: "
                ++ toString (orElse (message error) (JStr (stringified error))))).

(** [await vapiRef.current.start(callConfig)], up to the [await]. *)
Definition startWith (callConfig : CallConfig) (s : State)
  : State * list Effect :=
  match vapiRef s with
  | Some _ => (s, [VapiStart callConfig])
  | None =>
      (handleStartCall_catch
         {| message := JStr nullStartMessage; stringified := lit "{}" |} s,
       [])
  end.

(** [handleStartCall], up to its first [await].  The inline configuration
    is an object literal, so the configuration check never fires. *)
Definition handleStartCall (s : State) : State * list Effect :=
  match vapiRef s with
  | None => (s |> setErrorMessage (Some (lit "Vapi not initialized.")), [])
  | Some _ =>
      let s := s |> setIsLoading true
                 |> setErrorMessage None
                 |> setStatus (lit "Connecting...") in
      match assistantId s with
      | _ :: _ => startWith (AssistantId (assistantId s)) s
      | [] => (s, [GetUserMedia])
      end
  end.

(** [getUserMedia] resolved. *)
Definition handleStartCall_micGranted (s : State) : State * list Effect :=
  startWith InlineConfig s.

(** [getUserMedia] rejected with [micError]: the inner [catch]. *)
Definition handleStartCall_micDenied (micError : ErrorValue) (s : State)
  : State :=
  s |> setErrorMessage
         (Some (lit "Microphone access needed to start call: "
                ++ toString (message micError)))
    |> setIsLoading false
    |> setStatus (lit "Permission Denied").

Definition handleStopCall (s : State) : State * list Effect :=
  match vapiRef s with
  | None => (s, [])
  | Some _ =>
      (s |> setIsLoading true |> setStatus (lit "Ending Call..."), [VapiStop])
  end.

Definition handleToggleMute (s : State) : State * list Effect :=
  match vapiRef s with
  | None => (s, [])
  | Some vapi =>
      let currentlyMuted := muted vapi in
      (s |> setVapi (Some {| muted := negb currentlyMuted |})
         |> setIsMuted (negb currentlyMuted)
         |> setStatus (lit "Microphone: "
                       ++ (if negb currentlyMuted
                           then lit "Muted" else lit "Unmuted")),
       [VapiIsMuted; VapiSetMuted (negb currentlyMuted)])
  end.

Definition setIsCallActive (v : bool) (s : State) : State :=
  {| isCallActive := v; isLoading := isLoading s; status := status s;
     errorMessage := errorMessage s; volumeLevel := volumeLevel s;
     messages := messages s; isMuted := isMuted s;
     assistantId := assistantId s; vapiRef := vapiRef s |}.
Definition setVolumeLevel (v : number) (s : State) : State :=
  {| isCallActive := isCallActive s; isLoading := isLoading s;
     status := status s; errorMessage := errorMessage s; volumeLevel := v;
     messages := messages s; isMuted := isMuted s;
     assistantId := assistantId s; vapiRef := vapiRef s |}.
Definition setMessages (v : list TranscriptBot.VapiMessage) (s : State)
  : State :=
  {| isCallActive := isCallActive s; isLoading := isLoading s;
     status := status s; errorMessage := errorMessage s;
     volumeLevel := volumeLevel s; messages := v; isMuted := isMuted s;
     assistantId := assistantId s; vapiRef := vapiRef s |}.
Definition setAssistantId (v : jsstring) (s : State) : State :=
  {| isCallActive := isCallActive s; isLoading := isLoading s;
     status := status s; errorMessage := errorMessage s;
     volumeLevel := volumeLevel s; messages := messages s;
     isMuted := isMuted s; assistantId := v; vapiRef := vapiRef s |}.

(** *** The listeners of the mount effect, named after their events *)

(** [vapi.on("call-start", ...)] *)
Definition onCallStart (s : State) : State :=
  s |> setIsCallActive true
    |> setIsLoading false
    |> setStatus (lit "Call Started")
    |> setErrorMessage None
    |> setMessages [].

(** [vapi.on("call-end", ...)] *)
Definition onCallEnd (s : State) : State :=
  s |> setIsCallActive false
    |> setIsLoading false
    |> setStatus (lit "Call Ended")
    |> setErrorMessage None.

(** [vapi.on("speech-start", ...)] *)
Definition onSpeechStart (s : State) : State :=
  s |> setStatus (lit "Assistant Speaking").

(** [vapi.on("speech-end", ...)] *)
Definition onSpeechEnd (s : State) : State :=
  if isCallActive s then s |> setStatus (lit "Listening...") else s.

(** [vapi.on("volume-level", ...)] *)
Definition onVolumeLevel (volume : number) (s : State) : State :=
  s |> setVolumeLevel volume.

(** [vapi.on("message", ...)].  The listener reads [message.message.sender]
    and [message.message.name] without a guard: on a message without a
    payload the read throws, after the message has been stored. *)
Definition onMessage (msg : TranscriptBot.VapiMessage) (s : State) : State :=
  let s := s |> setMessages (messages s ++ [msg]) in
  if jsstring_eqb (TranscriptBot.type msg) (lit "transcript") then
    match TranscriptBot.message msg with
    | None => s
    | Some m =>
        if strictEq (TranscriptBot.sender m) (lit "user") then
          s |> setStatus (lit "User Speaking...")
        else if strictEq (TranscriptBot.sender m) (lit "assistant")
                && negb (jsstring_eqb (status s) (lit "Assistant Speaking"))
        then s |> setStatus (lit "Assistant Thinking...")
        else s
    end
  else if jsstring_eqb (TranscriptBot.type msg) (lit "function-call") then
    match TranscriptBot.message msg with
    | None => s
    | Some m =>
        s |> setStatus (lit "Function Call: " ++ toString (TranscriptBot.name m))
    end
  else if jsstring_eqb (TranscriptBot.type msg) (lit "function-return") then
    match TranscriptBot.message msg with
    | None => s
    | Some m =>
        s |> setStatus (lit "Function Returned: " ++ toString (TranscriptBot.name m))
    end
  else s.

(** [vapi.on("error", ...)] *)
Definition onError (e : ErrorValue) (s : State) : State :=
  s |> setIsLoading false
    |> setErrorMessage
         (Some (lit "Vapi Error: "
                ++ toString (orElse (message e) (JStr (stringified e)))))
    |> setStatus (lit "Error Occurred").

(** *** The other handlers of the user's actions *)

(** [vapi.start] resolved: the call object is only logged. *)
Definition handleStartCall_started (call : option Call) (s : State) : State :=
  s.

Definition handleSendBackgroundMessage (s : State) : State * list Effect :=
  match vapiRef s, isCallActive s with
  | Some _, true =>
      (s, [VapiSend (lit "The user wants you to say 'Hello there!'.")])
  | _, _ => (s, [])
  end.

Definition handleSayGoodbye (s : State) : State * list Effect :=
  match vapiRef s, isCallActive s with
  | Some _, true => (s, [VapiSay (lit "Okay, goodbye!") true])
  | _, _ => (s, [])
  end.

(** *** The component as a transition system *)

Inductive Event : Type :=
| ClickStart
| ClickStop
| ClickToggleMute
| ClickSendBackgroundMessage
| ClickSayGoodbye
| ChangeAssistantId (value : jsstring)
| MicGranted
| MicDenied (micError : ErrorValue)
| StartResolved (call : option Call)
| StartRejected (error : ErrorValue)
| CallStart
| CallEnd
| SpeechStart
| SpeechEnd
| VolumeLevel (volume : number)
| Message (msg : TranscriptBot.VapiMessage)
| VapiError (e : ErrorValue).

(** An event reaches the handlers of the render of [s].  The mount effect
    lists [isCallActive] and [status] among its dependencies; what the
    commit after a change of either does to the SDK handle (listeners
    removed, the call stopped, the instance replaced) is
    [Lifecycle.integrationCommit]. *)
Definition step (s : State) (e : Event) : State * list Effect :=
  match e with
  | ClickStart => handleStartCall s
  | ClickStop => handleStopCall s
  | ClickToggleMute => handleToggleMute s
  | ClickSendBackgroundMessage => handleSendBackgroundMessage s
  | ClickSayGoodbye => handleSayGoodbye s
  | ChangeAssistantId value => (setAssistantId value s, [])
  | MicGranted => handleStartCall_micGranted s
  | MicDenied micError => (handleStartCall_micDenied micError s, [])
  | StartResolved call => (handleStartCall_started call s, [])
  | StartRejected error => (handleStartCall_catch error s, [])
  | CallStart => (onCallStart s, [])
  | CallEnd => (onCallEnd s, [])
  | SpeechStart => (onSpeechStart s, [])
  | SpeechEnd => (onSpeechEnd s, [])
  | VolumeLevel volume => (onVolumeLevel volume s, [])
  | Message msg => (onMessage msg s, [])
  | VapiError e => (onError e s, [])
  end.

Fixpoint run (s : State) (events : list Event) : State * list Effect :=
  match events with
  | [] => (s, [])
  | e :: events' =>
      let (s1, effects1) := step s e in
      let (s2, effects2) := run s1 events' in
      (s2, effects1 ++ effects2)
  end.

End Integration.

(* ================================================================== *)
(** ** Notions used in the statements *)
(* ================================================================== *)

(** The requests to the scoring route among the calls of a handler. *)
Definition scoringCalls (effects : list Effect) : list Effect :=
  filter isFetchScoreInterview effects.

(** The URL and the authorization header of the call-data request. *)
Definition callUrl (request : Route.RequestBody) : jsstring :=
  lit "https://api.vapi.ai/call/" ++ toString (Route.callId request).
Definition bearer (key : jsstring) : jsstring := lit "Bearer " ++ key.

(** [occurInOrder lines s]: the strings of [lines] occur in [s] verbatim,
    one after the other and without overlap. *)
Fixpoint occurInOrder (lines : list jsstring) (s : jsstring) : Prop :=
  match lines with
  | [] => True
  | l :: rest =>
      exists pre post, s = pre ++ l ++ post /\ occurInOrder rest post
  end.

(** [hasNonSpace s]: some code unit of [s] is not white space. *)
Definition hasNonSpace (s : jsstring) : Prop :=
  exists c, In c s /\ isWhiteSpace c = false.

Section Extraction.

(** Extraction of a transcript in the words of the specification, over
    any type of entries: [qualifies m t] says that entry [m] is kept and
    carries the text [t]; [fromUser m] that its sender is the user. *)
Variable Entry : Type.
Variable qualifies : Entry -> jsstring -> Prop.
Variable fromUser : Entry -> Prop.

Inductive roleLabel (m : Entry) : jsstring -> Prop :=
| role_candidate : fromUser m -> roleLabel m (lit "Candidate")
| role_interviewer : ~ fromUser m -> roleLabel m (lit "Interviewer").

(** [extracted entries lines]: [lines] holds, in the order of [entries],
    one line ["<Role>: <text>"] for each entry that qualifies and nothing
    for the others. *)
Inductive extracted : list Entry -> list jsstring -> Prop :=
| extracted_nil : extracted [] []
| extracted_keep m t r rest lines :
    qualifies m t -> roleLabel m r -> extracted rest lines ->
    extracted (m :: rest) ((r ++ lit ": " ++ t) :: lines)
| extracted_skip m rest lines :
    (forall t, ~ qualifies m t) -> extracted rest lines ->
    extracted (m :: rest) lines.

End Extraction.

Module Stated.

(** What qualifies an entry of a fetched call: it is of type
    ['transcript'] and its content is a string with a code unit that is not
    white space. *)
Definition routeQualifies (m : Route.RawMessage) (t : jsstring) : Prop :=
  Route.type m = JStr (lit "transcript")
  /\ Route.content m = JStr t /\ hasNonSpace t.

Definition routeFromUser (m : Route.RawMessage) : Prop :=
  Route.sender m = JStr (lit "user").

(** The same for a message captured by the client. *)
Definition clientQualifies (m : TranscriptBot.VapiMessage) (t : jsstring)
  : Prop :=
  TranscriptBot.type m = lit "transcript"
  /\ (exists p, TranscriptBot.message m = Some p /\ TranscriptBot.text p = JStr t)
  /\ hasNonSpace t.

Definition clientFromUser (m : TranscriptBot.VapiMessage) : Prop :=
  exists p, TranscriptBot.message m = Some p
            /\ TranscriptBot.sender p = JStr (lit "user").

(** The filter as the specification words it: the content is a non-empty
    text string. *)
Definition keptAsStated (m : Route.RawMessage) : bool :=
  match Route.content m with
  | JStr (_ :: _) => true
  | _ => false
  end.

Definition transcriptAsStated (rawMessages : list Route.RawMessage)
  : jsstring :=
  join LF (map Route.formatEntry (filter keptAsStated rawMessages)).

(** The validation as the specification words it: exactly one of the call
    id and the transcript is supplied and not empty. *)
Definition supplied (v : jsval) : bool :=
  match v with JUndefined => false | _ => true end.

Definition validAsStated (request : Route.RequestBody) : bool :=
  xorb (supplied (Route.callId request)) (supplied (Route.transcript request))
  && (if supplied (Route.callId request)
      then truthy (Route.callId request)
      else truthy (Route.transcript request)).

End Stated.

(* ================================================================== *)
(** ** Concrete inputs *)
(* ================================================================== *)

Module Sample.

Definition entry (type sender content : jsstring) : Route.RawMessage :=
  {| Route.type := JStr type; Route.sender := JStr sender;
     Route.content := JStr content |}.

(** A call with two utterances, a blank transcript entry and an entry of
    another type. *)
Definition rawMessages : list Route.RawMessage :=
  [ entry (lit "transcript") (lit "assistant") (lit "Tell me about yourself");
    entry (lit "transcript") (lit "user") (lit "   ");
    entry (lit "function-call") (lit "assistant") (lit "lookup");
    entry (lit "transcript") (lit "user") (lit "I am an engineer") ].

(** A transcript entry whose content is blank, and an entry of another
    type that carries text. *)
Definition blankEntry : Route.RawMessage :=
  entry (lit "transcript") (lit "user") (lit "   ").
Definition functionCallEntry : Route.RawMessage :=
  entry (lit "function-call") (lit "assistant") (lit "lookup").

Definition okResponse (l : list Route.RawMessage) : Route.VapiResponse :=
  {| Route.ok := true; Route.statusText := lit "OK";
     Route.json := {| Route.message := JUndefined; Route.messages := Some l |} |}.

Definition notFoundResponse : Route.VapiResponse :=
  {| Route.ok := false; Route.statusText := lit "Not Found";
     Route.json := {| Route.message := JStr (lit "Call not found");
                      Route.messages := None |} |}.

(** An environment in which the call-data API answers [r] and the
    completion API answers [c]. *)
Definition upstream (r : Route.FetchOutcome) (c : Route.CompletionOutcome)
  : Route.Upstream :=
  {| Route.VAPI_SECRET_KEY := Some (lit "sk-vapi");
     Route.fetchCall := fun _ _ => r;
     Route.createCompletion := fun _ => c |}.

Definition contentChoice (c : option jsstring) : Route.Choice :=
  {| Route.choice_message := Some c |}.

Definition byCallId (callId : jsstring) : Route.RequestBody :=
  {| Route.callId := JStr callId; Route.transcript := JUndefined |}.
Definition byTranscript (transcript : jsstring) : Route.RequestBody :=
  {| Route.callId := JUndefined; Route.transcript := JStr transcript |}.
Definition byBoth (callId transcript : jsstring) : Route.RequestBody :=
  {| Route.callId := JStr callId; Route.transcript := JStr transcript |}.

Definition micError : ErrorValue :=
  {| message := JStr (lit "Permission denied"); stringified := lit "{}" |}.
Definition sdkError : ErrorValue :=
  {| message := JStr (lit "Meeting has ended"); stringified := lit "{}" |}.

Definition handle : Vapi := {| muted := false |}.

Definition utterance (sender text : jsstring) : TranscriptBot.VapiMessage :=
  {| TranscriptBot.type := lit "transcript";
     TranscriptBot.message :=
       Some {| TranscriptBot.sender := JStr sender;
               TranscriptBot.text := JStr text;
               TranscriptBot.name := JUndefined |} |}.

(** A session of the call-id bot, and the start of the next one. *)
Definition callIdSession : list CallIdBot.Event :=
  [ CallIdBot.ClickStart; CallIdBot.MicGranted; CallIdBot.CallStart;
    CallIdBot.StartResolved (Some {| id := lit "call-1" |});
    CallIdBot.SpeechStart; CallIdBot.SpeechEnd;
    CallIdBot.VapiError sdkError ].
Definition callIdNextSession : list CallIdBot.Event :=
  [ CallIdBot.ClickStart; CallIdBot.MicGranted; CallIdBot.CallStart;
    CallIdBot.StartResolved (Some {| id := lit "call-2" |}) ].

(** A session of the transcript bot, and the start of the next one. *)
Definition transcriptSession : list TranscriptBot.Event :=
  [ TranscriptBot.ClickStart; TranscriptBot.MicGranted;
    TranscriptBot.CallStart;
    TranscriptBot.StartResolved (Some {| id := lit "call-1" |});
    TranscriptBot.SpeechStart;
    TranscriptBot.Message (utterance (lit "assistant") (lit "Tell me about yourself"));
    TranscriptBot.SpeechEnd;
    TranscriptBot.Message (utterance (lit "user") (lit "I am an engineer")) ].
Definition transcriptNextSession : list TranscriptBot.Event :=
  [ TranscriptBot.ClickStart; TranscriptBot.MicGranted;
    TranscriptBot.CallStart;
    TranscriptBot.Message (utterance (lit "user") (lit "Hello again")) ].


(** A gateway in front of the call-data API answers 502 with an HTML
    page: the response is not ok and its body is not JSON. *)
Definition badGateway : Route.FetchOutcome :=
  Route.FetchUnreadable false (lit "Bad Gateway")
    (lit "Unexpected token < in JSON at position 0").

End Sample.

(* ================================================================== *)
(** ** Mount effects, teardown and rendering *)
(* ================================================================== *)

Module Lifecycle.

(** What a mount effect and its cleanup do to the SDK. *)
Inductive HandleCall : Type :=
| NewVapi (publicKey : jsstring)
| On (event : jsstring)
| Off (event : jsstring)
| RemoveAllListeners
| StopCall.

Definition isStopCall (c : HandleCall) : bool :=
  match c with StopCall => true | _ => false end.

(** The events of the [On] calls, and of the [Off] calls, in order. *)
Definition attached (calls : list HandleCall) : list jsstring :=
  flat_map (fun c => match c with On e => [e] | _ => [] end) calls.
Definition detached (calls : list HandleCall) : list jsstring :=
  flat_map (fun c => match c with Off e => [e] | _ => [] end) calls.

(** The main effect of the call-id bot, run with the public key of the
    environment; [fresh] is the instance that [new Vapi(publicKey)]
    returns. *)
Definition callIdEffect (publicKey : jsstring) (fresh : Vapi)
  (s : CallIdBot.State) : CallIdBot.State * list HandleCall :=
  match publicKey with
  | [] =>
      (s |> CallIdBot.setErrorMessage
              (Some (lit "Vapi Public Key not set in environment variables.")),
       [])
  | _ :: _ =>
      let (s, created) :=
        match CallIdBot.vapiRef s with
        | None => (s |> CallIdBot.setVapi (Some fresh), [NewVapi publicKey])
        | Some _ => (s, [])
        end in
      (s, created
          ++ [On (lit "call-start"); On (lit "call-end");
              On (lit "speech-start"); On (lit "speech-end");
              On (lit "volume-level"); On (lit "error")])
  end.

(** Its cleanup.  It reads [isCallActiveRef.current], which a second
    effect sets to [isCallActive] after each commit that changes the flag:
    the value of the ref when the cleanup runs is an argument. *)
Definition callIdCleanup (isCallActiveRef : bool) (s : CallIdBot.State)
  : list HandleCall :=
  match CallIdBot.vapiRef s with
  | None => []
  | Some _ =>
      [Off (lit "call-start"); Off (lit "call-end");
       Off (lit "speech-start"); Off (lit "speech-end");
       Off (lit "volume-level"); Off (lit "error")]
      ++ (if isCallActiveRef then [StopCall] else [])
  end.

(** The main effect of the transcript bot and its cleanup. *)
Definition transcriptEffect (publicKey : jsstring) (fresh : Vapi)
  (s : TranscriptBot.State) : TranscriptBot.State * list HandleCall :=
  match publicKey with
  | [] =>
      (s |> TranscriptBot.setErrorMessage
              (Some (lit "Vapi Public Key not set in environment variables.")),
       [])
  | _ :: _ =>
      let (s, created) :=
        match TranscriptBot.vapiRef s with
        | None => (s |> TranscriptBot.setVapi (Some fresh), [NewVapi publicKey])
        | Some _ => (s, [])
        end in
      (s, created
          ++ [On (lit "call-start"); On (lit "call-end");
              On (lit "speech-start"); On (lit "speech-end");
              On (lit "volume-level"); On (lit "message");
              On (lit "error")])
  end.

Definition transcriptCleanup (isCallActiveRef : bool)
  (s : TranscriptBot.State) : list HandleCall :=
  match TranscriptBot.vapiRef s with
  | None => []
  | Some _ =>
      [Off (lit "call-start"); Off (lit "call-end");
       Off (lit "speech-start"); Off (lit "speech-end");
       Off (lit "volume-level"); Off (lit "message");
       Off (lit "error")]
      ++ (if isCallActiveRef then [StopCall] else [])
  end.

(** The effect of the prototype page builds a new instance each time it
    runs; its cleanup removes every listener and clears the ref.  The
    cleanup reads the [isCallActive] of the render in which the effect
    ran: that value is an argument. *)
Definition integrationEffect (publicKey : jsstring) (fresh : Vapi)
  (s : Integration.State) : Integration.State * list HandleCall :=
  match publicKey with
  | [] =>
      (s |> Integration.setErrorMessage
              (Some (lit "Vapi Public Key not set in environment variables.")),
       [])
  | _ :: _ =>
      (s |> Integration.setVapi (Some fresh),
       [NewVapi publicKey;
        On (lit "call-start"); On (lit "call-end");
        On (lit "speech-start"); On (lit "speech-end");
        On (lit "volume-level"); On (lit "message"); On (lit "error")])
  end.

Definition integrationCleanup (isCallActive : bool) (s : Integration.State)
  : Integration.State * list HandleCall :=
  (s |> Integration.setVapi None,
   match Integration.vapiRef s with
   | None => []
   | Some _ =>
       RemoveAllListeners
       :: (if isCallActive then [StopCall] else [])
   end).

(** A commit of the prototype page.  The effect lists [isCallActive],
    [publicKey] and [status] as its dependencies: when the state to commit
    differs in one of them from the state of the last commit, the cleanup
    of that last commit runs and then the effect runs again; otherwise
    nothing happens.  [fresh] is the instance that [new Vapi(publicKey)]
    returns. *)
Definition integrationCommit (publicKey : jsstring) (fresh : Vapi)
  (rendered s : Integration.State) : Integration.State * list HandleCall :=
  if Bool.eqb (Integration.isCallActive s) (Integration.isCallActive rendered)
     && jsstring_eqb (Integration.status s) (Integration.status rendered)
  then (s, [])
  else
    let (s, cleaned) :=
      match publicKey with
      | [] => (s, [])
      | _ :: _ => integrationCleanup (Integration.isCallActive rendered) s
      end in
    let (s, attached) := integrationEffect publicKey fresh s in
    (s, cleaned ++ attached).

End Lifecycle.

(* ================================================================== *)
(** ** The transcript bot across renders *)
(* ================================================================== *)

Module TranscriptRender.

Import TranscriptBot.

(** The component between two commits of React.  The setters act on
    [cells] at once (a functional update sees the latest value), and the
    refs are read and written in place.  What a function of the component
    body reads of the state is the value of the render that defined it:
    the click handlers are those of the last render ([rendered]), and the
    call-end listener calls the [scoreInterviewTranscript] of the render
    in which the main effect last ran, whose [messages] is
    [listenerMessages]. *)
Record Render : Type := {
  cells : State;
  rendered : State;
  listenerMessages : list VapiMessage;
  isCallActiveRef : bool;
  (** [setMessages] has stored a new array since the last commit:
      [useCallback(..., [messages])] then returns a new function, and the
      main effect, which depends on it, runs again. *)
  messagesSet : bool
}.

(** [scoreInterviewTranscript], up to the [await fetch(...)] or to the
    early [return]; [messages] is the array the function closes over. *)
Definition scoreInterviewTranscript (messages : list VapiMessage) (s : State)
  : State * list Effect :=
  let s := s |> setIsScoring true
             |> setInterviewScore (Some (lit "Generating score...")) in
  match filteredTranscript messages with
  | [] =>
      (s |> setInterviewScore
              (Some (lit "No valid transcript to score. (Possible short call or no speech detected.)"))
         |> setIsScoring false,
       [])
  | lines =>
      (s, [FetchScoreInterview
             {| Route.callId := JUndefined;
                Route.transcript := JStr (join LF lines) |}])
  end.

(** The call-end listener of the effect that closes over [messages]. *)
Definition handleCallEnd (messages : list VapiMessage) (s : State)
  : State * list Effect :=
  scoreInterviewTranscript messages
    (s |> setIsCallActive false
       |> setIsLoading false
       |> setStatus (lit "Interview Ended")
       |> setErrorMessage None).

(** [handleStartCall] up to its first [await]; [assistantId] is the value
    of the render that defined the handler. *)
Definition handleStartCall (assistantId : jsstring) (s : State)
  : State * list Effect :=
  match vapiRef s with
  | None =>
      (s |> setErrorMessage
              (Some (lit "Vapi not initialized. Please refresh or check public key.")),
       [])
  | Some _ =>
      let s := s |> setIsLoading true
                 |> setErrorMessage None
                 |> setStatus (lit "Initiating Interview...")
                 |> setInterviewScore None
                 |> setMessages [] in
      match assistantId with
      | _ :: _ => startWith (AssistantId assistantId) s
      | [] => (s, [GetUserMedia])
      end
  end.

(** The two steering handlers; [isCallActive] is the value of the render
    that defined them. *)
Definition handleSendBackgroundMessage (isCallActive : bool) (s : State)
  : State * list Effect :=
  match vapiRef s, isCallActive with
  | Some _, true =>
      (s, [VapiSend (lit "Please ask the candidate about their biggest professional achievement.")])
  | _, _ =>
      (s |> setErrorMessage (Some (lit "Call not active to send message.")), [])
  end.

Definition handleSayGoodbye (isCallActive : bool) (s : State)
  : State * list Effect :=
  match vapiRef s, isCallActive with
  | Some _, true =>
      (s, [VapiSay (lit "Thank you for your time. We will be in touch shortly. Goodbye!") true])
  | _, _ =>
      (s |> setErrorMessage (Some (lit "Call not active to say goodbye.")), [])
  end.

(** The events whose handler calls [setMessages]: each call stores an
    array that did not exist before. *)
Definition storesMessages (s : State) (e : Event) : bool :=
  match e with
  | ClickStart => match vapiRef s with Some _ => true | None => false end
  | CallStart | Message _ => true
  | _ => false
  end.

(** An event reaches the handler that is attached for it. *)
Definition deliver (r : Render) (e : Event) : Render * list Effect :=
  let (s, effects) :=
    match e with
    | CallEnd => handleCallEnd (listenerMessages r) (cells r)
    | ClickStart => handleStartCall (assistantId (rendered r)) (cells r)
    | ClickSendBackgroundMessage =>
        handleSendBackgroundMessage (isCallActive (rendered r)) (cells r)
    | ClickSayGoodbye =>
        handleSayGoodbye (isCallActive (rendered r)) (cells r)
    | _ => TranscriptBot.step (cells r) e
    end in
  ({| cells := s; rendered := rendered r;
      listenerMessages := listenerMessages r;
      isCallActiveRef := isCallActiveRef r;
      messagesSet := messagesSet r || storesMessages (cells r) e |},
   effects).

(** A commit: React renders the component from the cells as they stand
    and runs the effects whose dependencies have changed, all cleanups
    first.  The main effect depends on [publicKey], a constant, and on
    [scoreInterviewTranscript]; its cleanup exists when the public key is
    set, and reads [isCallActiveRef.current] before the effect that
    copies [isCallActive] into that ref has run.  [fresh] is the instance
    that [new Vapi(publicKey)] would return. *)
Definition commit (publicKey : jsstring) (fresh : Vapi) (r : Render)
  : Render * list Lifecycle.HandleCall :=
  let synced :=
    if Bool.eqb (isCallActive (cells r)) (isCallActive (rendered r))
    then isCallActiveRef r
    else isCallActive (cells r) in
  if messagesSet r then
    let cleaned :=
      match publicKey with
      | [] => []
      | _ :: _ => Lifecycle.transcriptCleanup (isCallActiveRef r) (cells r)
      end in
    let (s, attached) := Lifecycle.transcriptEffect publicKey fresh (cells r) in
    ({| cells := s; rendered := cells r;
        listenerMessages :=
          match publicKey with
          | [] => listenerMessages r
          | _ :: _ => messages (cells r)
          end;
        isCallActiveRef := synced;
        messagesSet := false |},
     cleaned ++ attached)
  else
    ({| cells := cells r; rendered := cells r;
        listenerMessages := listenerMessages r;
        isCallActiveRef := synced;
        messagesSet := false |},
     []).

(** The first commit: every effect runs, no cleanup does. *)
Definition mount (publicKey : jsstring) (fresh : Vapi)
  : Render * list Lifecycle.HandleCall :=
  let (s, attached) :=
    Lifecycle.transcriptEffect publicKey fresh (initial None) in
  ({| cells := s; rendered := initial None;
      listenerMessages := [];
      isCallActiveRef := false;
      messagesSet := false |},
   attached).

(** What the component receives: events, with commits of React in
    between wherever React gets to make one.  Two events with no commit
    between them reach the same listeners. *)
Inductive Input : Type :=
| Deliver (e : Event)
| Commit (fresh : Vapi).

(** What the component does: calls to the outside made by handlers, and
    calls on the SDK handle made by effects and cleanups. *)
Inductive Output : Type :=
| External (e : Effect)
| Handle (c : Lifecycle.HandleCall).

Definition step (publicKey : jsstring) (r : Render) (i : Input)
  : Render * list Output :=
  match i with
  | Deliver e => let (r, effects) := deliver r e in (r, map External effects)
  | Commit fresh =>
      let (r, calls) := commit publicKey fresh r in (r, map Handle calls)
  end.

Fixpoint run (publicKey : jsstring) (r : Render) (inputs : list Input)
  : Render * list Output :=
  match inputs with
  | [] => (r, [])
  | i :: inputs' =>
      let (r1, outputs1) := step publicKey r i in
      let (r2, outputs2) := run publicKey r1 inputs' in
      (r2, outputs1 ++ outputs2)
  end.

Definition externals (outputs : list Output) : list Effect :=
  flat_map (fun o => match o with External e => [e] | Handle _ => [] end)
           outputs.
Definition handleCalls (outputs : list Output) : list Lifecycle.HandleCall :=
  flat_map (fun o => match o with Handle c => [c] | External _ => [] end)
           outputs.

Definition isDeliverCallEnd (i : Input) : bool :=
  match i with Deliver CallEnd => true | _ => false end.

(** The speech, volume and content events of a call in progress, and the
    commits among them. *)
Definition isContent (i : Input) : bool :=
  match i with
  | Deliver e => isSpeechOrContent e
  | Commit _ => true
  end.

(** The messages delivered by a sequence of inputs, in order. *)
Definition received (inputs : list Input) : list VapiMessage :=
  flat_map (fun i => match i with
                     | Deliver (Message msg) => [msg]
                     | _ => []
                     end) inputs.

(** A render in which nothing is pending: the cells are those rendered,
    the listener's [messages] and the ref are those of the cells. *)
Definition committed (s : State) : Render :=
  {| cells := s; rendered := s; listenerMessages := messages s;
     isCallActiveRef := isCallActive s; messagesSet := false |}.

End TranscriptRender.

Module View.

(** [!v] on a string. *)
Definition isEmpty (v : jsstring) : bool :=
  match v with [] => true | _ :: _ => false end.

(** [!interviewAssistantConfig]: the configuration is an object literal. *)
Definition configMissing : bool := false.

(** The start button of the two bots is rendered when no call is active,
    with [disabled={isLoading || !publicKey ||
    (!assistantId && !interviewAssistantConfig)}]. *)
Definition callIdStartEnabled (publicKey : jsstring) (s : CallIdBot.State)
  : bool :=
  negb (CallIdBot.isCallActive s)
  && negb (CallIdBot.isLoading s || isEmpty publicKey
           || (isEmpty (CallIdBot.assistantId s) && configMissing)).

Definition transcriptStartEnabled (publicKey : jsstring)
  (s : TranscriptBot.State) : bool :=
  negb (TranscriptBot.isCallActive s)
  && negb (TranscriptBot.isLoading s || isEmpty publicKey
           || (isEmpty (TranscriptBot.assistantId s) && configMissing)).

(** The score panel: rendered when
    [!isCallActive && (interviewScore || isScoring)], showing
    ["Generating score..."] while scoring and the score otherwise.  [None]
    when it is not rendered. *)
Definition panel (isCallActive isScoring : bool)
  (interviewScore : option jsstring) : option jsstring :=
  if negb isCallActive
     && (match interviewScore with
         | Some (_ :: _) => true
         | _ => false
         end || isScoring)
  then Some (if isScoring then lit "Generating score..."
             else match interviewScore with Some t => t | None => [] end)
  else None.

Definition callIdScorePanel (s : CallIdBot.State) : option jsstring :=
  panel (CallIdBot.isCallActive s) (CallIdBot.isScoring s)
        (CallIdBot.interviewScore s).

Definition transcriptScorePanel (s : TranscriptBot.State) : option jsstring :=
  panel (TranscriptBot.isCallActive s) (TranscriptBot.isScoring s)
        (TranscriptBot.interviewScore s).

End View.

(* ================================================================== *)
(** ** Further notions used in the statements *)
(* ================================================================== *)

(** A message captured by the client, as the entry the call-data API
    would return for it. *)
Definition toRaw (m : TranscriptBot.VapiMessage) : Route.RawMessage :=
  {| Route.type := JStr (TranscriptBot.type m);
     Route.content := TranscriptBot.field TranscriptBot.text m;
     Route.sender := TranscriptBot.field TranscriptBot.sender m |}.

(** The number of line feeds in a string. *)
Definition countLF (s : jsstring) : nat := count_occ N.eq_dec s 10%N.

(** The calls that steer a call in progress. *)
Definition isAuxEffect (e : Effect) : bool :=
  match e with VapiSend _ | VapiSay _ _ => true | _ => false end.

(** The events that switch the call-active flag. *)
Definition callIdSwitches (e : CallIdBot.Event) : bool :=
  match e with CallIdBot.CallStart | CallIdBot.CallEnd => true | _ => false end.
Definition transcriptSwitches (e : TranscriptBot.Event) : bool :=
  match e with
  | TranscriptBot.CallStart | TranscriptBot.CallEnd => true
  | _ => false
  end.
Definition integrationSwitches (e : Integration.Event) : bool :=
  match e with
  | Integration.CallStart | Integration.CallEnd => true
  | _ => false
  end.

(** The event that opens a call. *)
Definition callIdStarts (e : CallIdBot.Event) : bool :=
  match e with CallIdBot.CallStart => true | _ => false end.
Definition transcriptStarts (e : TranscriptBot.Event) : bool :=
  match e with TranscriptBot.CallStart => true | _ => false end.
Definition integrationStarts (e : Integration.Event) : bool :=
  match e with Integration.CallStart => true | _ => false end.

(** The events at which the transcript bot empties its buffer. *)
Definition clearsBuffer (e : TranscriptBot.Event) : bool :=
  match e with
  | TranscriptBot.ClickStart | TranscriptBot.CallStart => true
  | _ => false
  end.

(** The failures after which a start is over. *)
Definition callIdStartFailure (e : CallIdBot.Event) : bool :=
  match e with
  | CallIdBot.MicDenied _ | CallIdBot.StartRejected _
  | CallIdBot.StartResolved None | CallIdBot.VapiError _ => true
  | _ => false
  end.
Definition transcriptStartFailure (e : TranscriptBot.Event) : bool :=
  match e with
  | TranscriptBot.MicDenied _ | TranscriptBot.StartRejected _
  | TranscriptBot.VapiError _ => true
  | _ => false
  end.

Module Inputs.

Definition activeCallIdBot : CallIdBot.State :=
  CallIdBot.setCurrentCallIdRef (Some (lit "call-1"))
    (CallIdBot.handleCallStart (CallIdBot.initial (Some Sample.handle))).

Definition activeTranscriptBot : TranscriptBot.State :=
  TranscriptBot.handleMessage
    (Sample.utterance (lit "user") (lit "I am an engineer"))
    (TranscriptBot.handleCallStart
       (TranscriptBot.initial (Some Sample.handle))).

Definition page (vapi : option Vapi) : Integration.State :=
  {| Integration.isCallActive := false; Integration.isLoading := false;
     Integration.status := lit "Idle"; Integration.errorMessage := None;
     Integration.volumeLevel := 0%float; Integration.messages := [];
     Integration.isMuted := false; Integration.assistantId := [];
     Integration.vapiRef := vapi |}.

(** An environment whose completion API returns a score. *)
Definition scoringUpstream : Route.Upstream :=
  Sample.upstream
    (Route.FetchResolved (Sample.okResponse Sample.rawMessages))
    (Route.CompletionResolved
       [Sample.contentChoice (Some (lit "Accuracy Score (1-10): 7"))]).

(** An environment without the server-side secret. *)
Definition noSecret : Route.Upstream :=
  {| Route.VAPI_SECRET_KEY := None;
     Route.fetchCall := fun _ _ => Route.FetchRejected [];
     Route.createCompletion := fun _ => Route.CompletionRejected [] |}.

(** The prototype page during a call, the microphone open. *)
Definition activePage : Integration.State :=
  {| Integration.isCallActive := true; Integration.isLoading := false;
     Integration.status := lit "Call Started";
     Integration.errorMessage := None;
     Integration.volumeLevel := 0%float; Integration.messages := [];
     Integration.isMuted := false; Integration.assistantId := [];
     Integration.vapiRef := Some Sample.handle |}.

(** The transcript bot once mounted with a public key. *)
Definition mountedTranscriptBot : TranscriptRender.Render :=
  fst (TranscriptRender.mount (lit "pk") Sample.handle).

(** An interview of the transcript bot in which React commits after each
    change of the buffer, and the start of a second one. *)
Definition renderSession : list TranscriptRender.Input :=
  [ TranscriptRender.Deliver TranscriptBot.ClickStart;
    TranscriptRender.Commit Sample.handle;
    TranscriptRender.Deliver TranscriptBot.MicGranted;
    TranscriptRender.Deliver TranscriptBot.CallStart;
    TranscriptRender.Commit Sample.handle;
    TranscriptRender.Deliver
      (TranscriptBot.Message
         (Sample.utterance (lit "assistant") (lit "Tell me about yourself")));
    TranscriptRender.Commit Sample.handle;
    TranscriptRender.Deliver TranscriptBot.SpeechEnd;
    TranscriptRender.Deliver
      (TranscriptBot.Message
         (Sample.utterance (lit "user") (lit "I am an engineer")));
    TranscriptRender.Commit Sample.handle ].
Definition renderNextSession : list TranscriptRender.Input :=
  [ TranscriptRender.Deliver TranscriptBot.ClickStart;
    TranscriptRender.Commit Sample.handle;
    TranscriptRender.Deliver TranscriptBot.MicGranted;
    TranscriptRender.Deliver TranscriptBot.CallStart;
    TranscriptRender.Commit Sample.handle;
    TranscriptRender.Deliver
      (TranscriptBot.Message
         (Sample.utterance (lit "user") (lit "Hello again"))) ].

End Inputs.

(* ================================================================== *)
(** ** Strings *)
(* ================================================================== *)

Lemma jsstring_eqb_eq (a b : jsstring) : jsstring_eqb a b = true <-> a = b.
Proof.
  revert b; induction a as [|x a IH]; intros [|y b]; simpl;
    try (split; [discriminate | intros H; inversion H]); [tauto|].
  rewrite andb_true_iff, N.eqb_eq, IH.
  split; [intros [-> ->]; reflexivity | intros H; inversion H; auto].
Qed.

Lemma jsstring_eqb_refl (a : jsstring) : jsstring_eqb a a = true.
Proof. apply jsstring_eqb_eq; reflexivity. Qed.

Lemma strictEq_true (v : jsval) (s : jsstring) :
  strictEq v s = true <-> v = JStr s.
Proof.
  destruct v; simpl; try (split; [discriminate | intros H; inversion H]).
  rewrite jsstring_eqb_eq.
  split; [intros ->; reflexivity | intros H; inversion H; reflexivity].
Qed.

Lemma dropWhile_nil (p : N -> bool) (s : jsstring) :
  dropWhile p s = [] <-> forallb p s = true.
Proof.
  induction s as [|c s IH]; simpl; [tauto|].
  destruct (p c); simpl; [exact IH | split; discriminate].
Qed.

Lemma existsb_dropWhile (p : N -> bool) (s : jsstring) :
  existsb (fun c => negb (p c)) (dropWhile p s)
  = existsb (fun c => negb (p c)) s.
Proof.
  induction s as [|c s IH]; simpl; [reflexivity|].
  destruct (p c) eqn:E; simpl; [exact IH | rewrite E; reflexivity].
Qed.

Lemma forallb_negb_existsb (p : N -> bool) (s : jsstring) :
  forallb p s = negb (existsb (fun c => negb (p c)) s).
Proof.
  induction s as [|c s IH]; simpl; [reflexivity|].
  rewrite IH; destruct (p c); reflexivity.
Qed.

Lemma existsb_rev_eq (f : N -> bool) (s : jsstring) :
  existsb f (rev s) = existsb f s.
Proof.
  induction s as [|c s IH]; simpl; [reflexivity|].
  rewrite existsb_app, IH; simpl.
  rewrite orb_false_r; apply orb_comm.
Qed.

(** [s.trim().length > 0] holds exactly when [s] has a code unit that is
    not white space. *)
Lemma trim_length_positive (s : jsstring) :
  (0 <? List.length (trim s))%nat = true <-> hasNonSpace s.
Proof.
  unfold trim, trimEnd, trimStart, hasNonSpace.
  rewrite length_rev.
  set (d := dropWhile isWhiteSpace (rev (dropWhile isWhiteSpace s))).
  assert (E : (0 <? List.length d)%nat
              = existsb (fun c => negb (isWhiteSpace c)) s).
  { rewrite <- (existsb_dropWhile isWhiteSpace s).
    rewrite <- (existsb_rev_eq _ (dropWhile isWhiteSpace s)).
    pose proof (dropWhile_nil isWhiteSpace
                  (rev (dropWhile isWhiteSpace s))) as H.
    rewrite forallb_negb_existsb in H. fold d in H.
    destruct d as [|c d']; simpl.
    - destruct (existsb _ _); [|reflexivity].
      destruct H as [H _]. specialize (H eq_refl). discriminate.
    - destruct (existsb _ _); [reflexivity|].
      destruct H as [_ H]. specialize (H eq_refl). discriminate. }
  rewrite E, existsb_exists.
  split; intros [c [Hin Hc]]; exists c; split; auto.
  - now apply negb_true_iff.
  - now apply negb_true_iff.
Qed.

Lemma includes_startsWith_app (sub rest : jsstring) :
  startsWith (sub ++ rest) sub = true.
Proof.
  induction sub as [|c sub IH]; simpl; [reflexivity|].
  now rewrite N.eqb_refl.
Qed.

(** [s.includes(sub)] holds exactly when [sub] occurs in [s]. *)
Lemma includes_occurs (s sub : jsstring) :
  (exists pre post, s = pre ++ sub ++ post) -> includes s sub = true.
Proof.
  intros [pre [post ->]].
  induction pre as [|c pre IH]; simpl.
  - destruct (sub ++ post) as [|c r] eqn:E.
    + destruct sub; [reflexivity | discriminate].
    + simpl. rewrite <- E, includes_startsWith_app. reflexivity.
  - rewrite IH. apply orb_true_r.
Qed.

Lemma occurInOrder_prefix (lines : list jsstring) (pre s : jsstring) :
  occurInOrder lines s -> occurInOrder lines (pre ++ s).
Proof.
  destruct lines as [|l rest]; simpl; [trivial|].
  intros [a [b [-> H]]]. exists (pre ++ a), b.
  now rewrite <- app_assoc.
Qed.

Lemma occurInOrder_join (lines : list jsstring) (post : jsstring) :
  occurInOrder lines (join LF lines ++ post).
Proof.
  induction lines as [|l rest IH]; simpl; [trivial|].
  destruct rest as [|l' rest'].
  - exists [], post. simpl. split; [reflexivity | exact I].
  - exists [], (LF ++ join LF (l' :: rest') ++ post). split.
    + simpl. now rewrite <- !app_assoc.
    + apply occurInOrder_prefix. exact IH.
Qed.

(* ================================================================== *)
(** ** Extraction of the transcript *)
(* ================================================================== *)

Section ExtractionFacts.

Variable Entry : Type.
Variable qualifies : Entry -> jsstring -> Prop.
Variable fromUser : Entry -> Prop.
Variable keep : Entry -> bool.
Variable format : Entry -> jsstring.

Hypothesis keep_true :
  forall m, keep m = true ->
    exists t r, qualifies m t /\ roleLabel fromUser m r
                /\ format m = r ++ lit ": " ++ t.
Hypothesis keep_false :
  forall m, keep m = false -> forall t, ~ qualifies m t.

(** A [filter] followed by a [map] extracts the lines. *)
Lemma filter_map_extracted (entries : list Entry) :
  extracted qualifies fromUser entries (map format (filter keep entries)).
Proof.
  induction entries as [|m rest IH]; simpl; [constructor|].
  destruct (keep m) eqn:K; simpl.
  - destruct (keep_true K) as [t [r [Hq [Hr ->]]]].
    now apply extracted_keep.
  - apply extracted_skip; [now apply keep_false | exact IH].
Qed.

Hypothesis qualifies_functional :
  forall m t t', qualifies m t -> qualifies m t' -> t = t'.

(** The extracted lines are determined by the entries. *)
Lemma extracted_functional (entries : list Entry) (a b : list jsstring) :
  extracted qualifies fromUser entries a ->
  extracted qualifies fromUser entries b -> a = b.
Proof.
  intros Ha; revert b.
  induction Ha as [|m t r rest lines Hq Hr Ha IH|m rest lines Hn Ha IH];
    intros b Hb; inversion Hb; subst; auto.
  - f_equal; [|now apply IH].
    assert (t = t0) by eauto; subst.
    f_equal.
    match goal with
    | H1 : roleLabel _ _ r, H2 : roleLabel _ _ ?r' |- r = ?r' =>
        destruct H1; destruct H2; tauto
    end.
  - exfalso; eapply H1; eauto.
  - exfalso; eapply Hn; eauto.
Qed.

End ExtractionFacts.

(** The filter of the route keeps an entry exactly when it qualifies. *)
Lemma isTranscriptEntry_true (m : Route.RawMessage) :
  Route.isTranscriptEntry m = true <-> exists t, Stated.routeQualifies m t.
Proof.
  unfold Route.isTranscriptEntry, Stated.routeQualifies.
  rewrite !andb_true_iff, strictEq_true. split.
  - intros [[[Ht _] _] Hc].
    destruct (Route.content m) as [| | | |t|]; try discriminate.
    exists t. repeat split; auto. now apply trim_length_positive.
  - intros [t [Ht [Hc Hs]]]. rewrite Hc. simpl.
    apply trim_length_positive in Hs.
    repeat split; auto.
    destruct t; [discriminate Hs | reflexivity].
Qed.

Lemma route_roleLabel (m : Route.RawMessage) :
  roleLabel Stated.routeFromUser m
    (if strictEq (Route.sender m) (lit "user")
     then lit "Candidate" else lit "Interviewer").
Proof.
  destruct (strictEq (Route.sender m) (lit "user")) eqn:E.
  - constructor. now apply strictEq_true.
  - constructor. intros H. apply strictEq_true in H. congruence.
Qed.

Lemma route_extracted (rawMessages : list Route.RawMessage) :
  extracted Stated.routeQualifies Stated.routeFromUser rawMessages
    (Route.transcriptMessages rawMessages).
Proof.
  apply filter_map_extracted.
  - intros m K. apply isTranscriptEntry_true in K. destruct K as [t Hq].
    exists t. eexists. split; [exact Hq|]. split; [apply route_roleLabel|].
    unfold Route.formatEntry. destruct Hq as [_ [-> _]]. reflexivity.
  - intros m K t Hq.
    assert (Route.isTranscriptEntry m = true)
      by (apply isTranscriptEntry_true; eauto).
    congruence.
Qed.

(** The filter of the client keeps a message exactly when it qualifies. *)
Lemma isTranscriptMessage_true (m : TranscriptBot.VapiMessage) :
  TranscriptBot.isTranscriptMessage m = true
  <-> exists t, Stated.clientQualifies m t.
Proof.
  unfold TranscriptBot.isTranscriptMessage, Stated.clientQualifies,
    TranscriptBot.field.
  rewrite !andb_true_iff, jsstring_eqb_eq. split.
  - intros [[Ht _] Hc].
    destruct (TranscriptBot.message m) as [p|]; [|discriminate].
    destruct (TranscriptBot.text p) as [| | | |t|] eqn:E; try discriminate.
    exists t. repeat split; eauto. now apply trim_length_positive.
  - intros [t [Ht [[p [Hm Hp]] Hs]]]. rewrite Hm, Hp. simpl.
    apply trim_length_positive in Hs. auto.
Qed.

Lemma client_roleLabel (m : TranscriptBot.VapiMessage) :
  roleLabel Stated.clientFromUser m
    (if strictEq (TranscriptBot.field TranscriptBot.sender m) (lit "user")
     then lit "Candidate" else lit "Interviewer").
Proof.
  unfold TranscriptBot.field.
  destruct (TranscriptBot.message m) as [p|] eqn:Hm.
  - destruct (strictEq (TranscriptBot.sender p) (lit "user")) eqn:E.
    + constructor. exists p. split; auto. now apply strictEq_true.
    + constructor. intros [p' [Hp' Hs]].
      rewrite Hm in Hp'. inversion Hp'; subst.
      apply strictEq_true in Hs. congruence.
  - simpl. constructor. intros [p' [Hp' _]]. congruence.
Qed.

Lemma client_extracted (messages : list TranscriptBot.VapiMessage) :
  extracted Stated.clientQualifies Stated.clientFromUser messages
    (TranscriptBot.filteredTranscript messages).
Proof.
  apply filter_map_extracted.
  - intros m K. apply isTranscriptMessage_true in K. destruct K as [t Hq].
    exists t. eexists. split; [exact Hq|]. split; [apply client_roleLabel|].
    unfold TranscriptBot.formatMessage.
    destruct Hq as [_ [[p [Hm Hp]] _]].
    unfold TranscriptBot.field at 2. rewrite Hm, Hp. reflexivity.
  - intros m K t Hq.
    assert (TranscriptBot.isTranscriptMessage m = true)
      by (apply isTranscriptMessage_true; eauto).
    congruence.
Qed.

(** C2, as amended.  For every list of fetched call messages the route
    keeps exactly the entries of type ['transcript'] whose content is a
    string with a code unit that is not white space, tags each ["Candidate"]
    when its sender is ['user'] and ["Interviewer"] otherwise, and joins the
    lines ["<Role>: <text>"] in their original order with line feeds; the
    client of the transcript variant extracts its captured messages in the
    same way. *)
Theorem C2_transcript_extraction :
  (forall rawMessages : list Route.RawMessage,
      exists lines,
        extracted Stated.routeQualifies Stated.routeFromUser rawMessages lines
        /\ Route.fullTranscript rawMessages = join LF lines
        /\ forall lines',
            extracted Stated.routeQualifies Stated.routeFromUser
              rawMessages lines' -> lines' = lines)
  /\ (forall messages : list TranscriptBot.VapiMessage,
         extracted Stated.clientQualifies Stated.clientFromUser messages
           (TranscriptBot.filteredTranscript messages)).
Proof.
  split.
  - intros rawMessages. exists (Route.transcriptMessages rawMessages).
    split; [apply route_extracted|]. split; [reflexivity|].
    intros lines' H.
    eapply extracted_functional; [|exact H|apply route_extracted].
    intros m t t' [_ [H1 _]] [_ [H2 _]]. congruence.
  - apply client_extracted.
Qed.

(** C2 as stated fails: a transcript entry whose content is blank and an
    entry of another type both carry a non-empty text string, and the route
    drops both. *)
Lemma C2_blank_and_foreign_entries_dropped :
  Stated.keptAsStated Sample.blankEntry = true
  /\ Stated.keptAsStated Sample.functionCallEntry = true
  /\ Route.fullTranscript [Sample.blankEntry; Sample.functionCallEntry] = []
  /\ Route.fullTranscript [Sample.blankEntry; Sample.functionCallEntry]
     <> Stated.transcriptAsStated [Sample.blankEntry; Sample.functionCallEntry].
Proof.
  repeat split; try reflexivity.
  vm_compute. discriminate.
Qed.

Example fullTranscript_sample :
  Route.fullTranscript Sample.rawMessages
  = lit "Interviewer: Tell me about yourself" ++ LF
    ++ lit "Candidate: I am an engineer".
Proof. reflexivity. Qed.

(* ================================================================== *)
(** ** The scoring route *)
(* ================================================================== *)

Lemma join_nil_iff (lines : list jsstring) :
  (forall l, In l lines -> l <> []) ->
  join LF lines = [] <-> lines = [].
Proof.
  intros H. destruct lines as [|l rest]; simpl; [tauto|].
  split; [|discriminate].
  assert (l <> []) by (apply H; now left).
  destruct rest; destruct l; simpl; congruence.
Qed.

Lemma formatEntry_not_empty (m : Route.RawMessage) : Route.formatEntry m <> [].
Proof.
  unfold Route.formatEntry.
  destruct (strictEq _ _); discriminate.
Qed.

(** The joined transcript is empty exactly when no entry is kept. *)
Lemma fullTranscript_empty (rawMessages : list Route.RawMessage) :
  Route.fullTranscript rawMessages = []
  <-> filter Route.isTranscriptEntry rawMessages = [].
Proof.
  unfold Route.fullTranscript, Route.transcriptMessages.
  rewrite join_nil_iff.
  - split; [apply map_eq_nil | intros ->; reflexivity].
  - intros l Hl. apply in_map_iff in Hl. destruct Hl as [m [<- _]].
    apply formatEntry_not_empty.
Qed.

Lemma filter_nil_iff (A : Type) (p : A -> bool) (l : list A) :
  filter p l = [] <-> forall x, In x l -> p x = false.
Proof.
  induction l as [|a l IH]; simpl; [tauto|].
  destruct (p a) eqn:E.
  - split; [discriminate|]. intros H.
    specialize (H a (or_introl eq_refl)). congruence.
  - rewrite IH. split.
    + intros H x [<-|Hx]; auto.
    + intros H x Hx. apply H. now right.
Qed.

(** Both branches of the [catch] block answer 500 with the message of the
    error, or with the fixed text when the message is empty. *)
Lemma catchError_eq (e : jsstring) :
  Route.catchError e
  = {| Route.status := 500;
       Route.body := Route.ErrorBody
                       (strOr e (lit "Internal server error during scoring.")) |}.
Proof.
  unfold Route.catchError.
  destruct (includes e _) eqn:E; [|reflexivity].
  destruct e; [discriminate E | reflexivity].
Qed.

Lemma catchError_fetch_failure (detail : jsstring) :
  Route.catchError (lit "Failed to fetch call details from Vapi: " ++ detail)
  = {| Route.status := 500;
       Route.body := Route.ErrorBody
         (lit "Failed to fetch call details from Vapi: " ++ detail) |}.
Proof.
  rewrite catchError_eq. reflexivity.
Qed.

(** The handler once the request is valid and the secret is set. *)
Lemma POST_fetches (up : Route.Upstream) (request : Route.RequestBody)
  (key : jsstring) :
  truthy (Route.callId request) = true ->
  Route.VAPI_SECRET_KEY up = Some key -> key <> [] ->
  Route.POST up request
  = match Route.fetchCall up (callUrl request) (bearer key) with
    | Route.FetchRejected e =>
        (Route.catchError e, [Route.CallDataFetch (callUrl request) (bearer key)])
    | Route.FetchUnreadable _ _ e =>
        (Route.catchError e, [Route.CallDataFetch (callUrl request) (bearer key)])
    | Route.FetchResolved vapiResponse =>
        if negb (Route.ok vapiResponse) then
          (Route.catchError
             (lit "Failed to fetch call details from Vapi: "
              ++ toString (orElse (Route.message (Route.json vapiResponse))
                                  (JStr (Route.statusText vapiResponse)))),
           [Route.CallDataFetch (callUrl request) (bearer key)])
        else
          let rawMessages :=
            match Route.messages (Route.json vapiResponse) with
            | Some l => l | None => [] end in
          match Route.fullTranscript rawMessages with
          | [] =>
              ({| Route.status := 200;
                  Route.body := Route.ScoreBody
                    (lit "No valid transcript available from Vapi for scoring.") |},
               [Route.CallDataFetch (callUrl request) (bearer key)])
          | _ :: _ =>
              let creq := Route.completionRequest
                            (Route.scoringPrompt (Route.fullTranscript rawMessages)) in
              let called := [Route.CallDataFetch (callUrl request) (bearer key);
                             Route.CompletionCall creq] in
              match Route.createCompletion up creq with
              | Route.CompletionRejected e => (Route.catchError e, called)
              | Route.CompletionResolved [] =>
                  (Route.catchError Route.typeErrorMessage, called)
              | Route.CompletionResolved (choice :: _) =>
                  ({| Route.status := 200;
                      Route.body := Route.ScoreBody (Route.scoreResult choice) |},
                   called)
              end
          end
    end.
Proof.
  intros Hc Hk Hne. unfold Route.POST. rewrite Hc, Hk. simpl negb. cbv iota.
  destruct key as [|k key']; [contradiction|].
  fold (callUrl request). fold (bearer (k :: key')).
  destruct (Route.fetchCall up (callUrl request) (bearer (k :: key')));
    [reflexivity| |reflexivity].
  destruct (negb (Route.ok vapiResponse)); [reflexivity|].
  cbv zeta.
  destruct (Route.fullTranscript _); reflexivity.
Qed.

(** C3, as amended.  When the call fetched for a valid request has no
    qualifying entry, the route answers 200 with the score text saying that
    no transcript was available, and the only upstream call is the fetch:
    the completion API is not called.  When the messages captured by the
    client hold no qualifying entry, [scoreInterviewTranscript] sets the
    score text saying that there is no transcript to score, clears the
    scoring flag and sends no request at all. *)
Theorem C3_empty_transcript_short_circuits
  (up : Route.Upstream) (request : Route.RequestBody) (key : jsstring)
  (vapiResponse : Route.VapiResponse) (s : TranscriptBot.State) :
  truthy (Route.callId request) = true ->
  Route.VAPI_SECRET_KEY up = Some key -> key <> [] ->
  Route.fetchCall up (callUrl request) (bearer key)
  = Route.FetchResolved vapiResponse ->
  Route.ok vapiResponse = true ->
  filter Route.isTranscriptEntry
    (match Route.messages (Route.json vapiResponse) with
     | Some l => l | None => [] end) = [] ->
  filter TranscriptBot.isTranscriptMessage (TranscriptBot.messages s) = [] ->
  Route.POST up request
  = ({| Route.status := 200;
        Route.body := Route.ScoreBody
          (lit "No valid transcript available from Vapi for scoring.") |},
     [Route.CallDataFetch (callUrl request) (bearer key)])
  /\ filter Route.isCompletionCall (snd (Route.POST up request)) = []
  /\ snd (TranscriptBot.scoreInterviewTranscript s) = []
  /\ TranscriptBot.interviewScore (fst (TranscriptBot.scoreInterviewTranscript s))
     = Some (lit "No valid transcript to score. (Possible short call or no speech detected.)")
  /\ TranscriptBot.isScoring (fst (TranscriptBot.scoreInterviewTranscript s))
     = false.
Proof.
  intros Hc Hk Hne Hf Hok Hraw Hs.
  assert (E : Route.POST up request
              = ({| Route.status := 200;
                    Route.body := Route.ScoreBody
                      (lit "No valid transcript available from Vapi for scoring.") |},
                 [Route.CallDataFetch (callUrl request) (bearer key)])).
  { rewrite (POST_fetches up request Hc Hk Hne), Hf, Hok. simpl negb.
    cbv iota zeta. apply fullTranscript_empty in Hraw. now rewrite Hraw. }
  split; [exact E|]. split; [rewrite E; reflexivity|].
  unfold TranscriptBot.scoreInterviewTranscript,
    TranscriptBot.filteredTranscript.
  simpl TranscriptBot.messages. rewrite Hs. simpl. auto.
Qed.

Lemma C3_witness :
  Route.POST
    (Sample.upstream
       (Route.FetchResolved
          (Sample.okResponse [Sample.blankEntry; Sample.functionCallEntry]))
       (Route.CompletionRejected []))
    (Sample.byCallId (lit "x"))
  = ({| Route.status := 200;
        Route.body := Route.ScoreBody
          (lit "No valid transcript available from Vapi for scoring.") |},
     [Route.CallDataFetch (callUrl (Sample.byCallId (lit "x")))
        (bearer (lit "sk-vapi"))])
  /\ snd (TranscriptBot.scoreInterviewTranscript
            (TranscriptBot.setMessages
               [Sample.utterance (lit "user") (lit "  ")]
               (TranscriptBot.initial (Some Sample.handle)))) = [].
Proof.
  pose proof
    (@C3_empty_transcript_short_circuits
       (Sample.upstream
          (Route.FetchResolved
             (Sample.okResponse [Sample.blankEntry; Sample.functionCallEntry]))
          (Route.CompletionRejected []))
       (Sample.byCallId (lit "x")) (lit "sk-vapi")
       (Sample.okResponse [Sample.blankEntry; Sample.functionCallEntry])
       (TranscriptBot.setMessages
          [Sample.utterance (lit "user") (lit "  ")]
          (TranscriptBot.initial (Some Sample.handle)))
       eq_refl eq_refl ltac:(discriminate) eq_refl eq_refl eq_refl eq_refl)
    as H.
  destruct H as [H1 [_ [H2 _]]]. split; [exact H1 | exact H2].
Defined.

(** C3 as stated fails on a request that carries an empty transcript: the
    route reads [callId] only and answers 400 with an error body. *)
Lemma C3_empty_transcript_input_rejected :
  Route.POST
    (Sample.upstream (Route.FetchResolved (Sample.okResponse []))
                     (Route.CompletionRejected []))
    (Sample.byTranscript [])
  = ({| Route.status := 400;
        Route.body := Route.ErrorBody (lit "Call ID is required") |}, []).
Proof. reflexivity. Qed.

(** C4.  The handler reads the body of a response that is not ok as JSON
    before it builds its error.  When that reading throws (the body is
    empty or is not JSON), the route still answers 500 and still makes no
    call but the fetch, but the error body is the message of the exception
    (or the fixed text when that is empty): the upstream status text is
    not read, and the prefix ["Failed to fetch call details from Vapi: "]
    is not added. *)
Theorem C4_unreadable_error_body
  (up : Route.Upstream) (request : Route.RequestBody) (key : jsstring)
  (statusText thrown : jsstring) :
  truthy (Route.callId request) = true ->
  Route.VAPI_SECRET_KEY up = Some key -> key <> [] ->
  Route.fetchCall up (callUrl request) (bearer key)
  = Route.FetchUnreadable false statusText thrown ->
  Route.POST_request up (Route.BodyParsed request)
  = ({| Route.status := 500;
        Route.body := Route.ErrorBody
          (strOr thrown (lit "Internal server error during scoring.")) |},
     [Route.CallDataFetch (callUrl request) (bearer key)]).
Proof.
  intros Hc Hk Hne Hf. cbn [Route.POST_request].
  rewrite (POST_fetches up request Hc Hk Hne), Hf.
  now rewrite catchError_eq.
Qed.

Lemma C4_witness :
  Route.POST_request
    (Sample.upstream Sample.badGateway (Route.CompletionRejected []))
    (Route.BodyParsed (Sample.byCallId (lit "missing")))
  = ({| Route.status := 500;
        Route.body := Route.ErrorBody
          (lit "Unexpected token < in JSON at position 0") |},
     [Route.CallDataFetch (lit "https://api.vapi.ai/call/missing")
        (lit "Bearer sk-vapi")])
  /\ includes (lit "Unexpected token < in JSON at position 0")
              (lit "Bad Gateway") = false
  /\ includes (lit "Unexpected token < in JSON at position 0")
              (lit "Failed to fetch call details from Vapi") = false.
Proof.
  split; [|split; reflexivity].
  exact (@C4_unreadable_error_body
           (Sample.upstream Sample.badGateway (Route.CompletionRejected []))
           (Sample.byCallId (lit "missing")) (lit "sk-vapi")
           (lit "Bad Gateway")
           (lit "Unexpected token < in JSON at position 0")
           eq_refl eq_refl ltac:(discriminate) eq_refl).
Defined.

(** C5, as amended.  Once the route has a transcript that is not empty it
    calls the completion API once.  If the call throws, the route answers
    500 with the message of the error (a fixed text when that is empty);
    if the completion has no choice at all, reading the first one throws
    and the route answers 500 likewise.  If the first choice has no
    content ([message] missing, [content] null or empty), the route answers
    200 with the score ["Could not generate score."]: a success, not an
    error.  Otherwise it answers 200 with the content of the first choice,
    unchanged, as the score. *)
Theorem C5_completion_outcomes
  (up : Route.Upstream) (request : Route.RequestBody) (key : jsstring)
  (vapiResponse : Route.VapiResponse) (rawMessages : list Route.RawMessage) :
  truthy (Route.callId request) = true ->
  Route.VAPI_SECRET_KEY up = Some key -> key <> [] ->
  Route.fetchCall up (callUrl request) (bearer key)
  = Route.FetchResolved vapiResponse ->
  Route.ok vapiResponse = true ->
  Route.messages (Route.json vapiResponse) = Some rawMessages ->
  Route.fullTranscript rawMessages <> [] ->
  let creq := Route.completionRequest
                (Route.scoringPrompt (Route.fullTranscript rawMessages)) in
  snd (Route.POST up request)
  = [Route.CallDataFetch (callUrl request) (bearer key);
     Route.CompletionCall creq]
  /\ fst (Route.POST up request)
     = match Route.createCompletion up creq with
       | Route.CompletionRejected e =>
           {| Route.status := 500;
              Route.body := Route.ErrorBody
                (strOr e (lit "Internal server error during scoring.")) |}
       | Route.CompletionResolved [] =>
           {| Route.status := 500;
              Route.body := Route.ErrorBody Route.typeErrorMessage |}
       | Route.CompletionResolved (choice :: _) =>
           {| Route.status := 200;
              Route.body := Route.ScoreBody
                (match Route.choice_message choice with
                 | Some (Some (c :: content)) => c :: content
                 | _ => lit "Could not generate score."
                 end) |}
       end.
Proof.
  intros Hc Hk Hne Hf Hok Hm Hft creq.
  rewrite (POST_fetches up request Hc Hk Hne), Hf, Hok, Hm. simpl negb.
  cbv iota zeta. subst creq.
  destruct (Route.fullTranscript rawMessages) as [|c ft];
    [contradiction|].
  destruct (Route.createCompletion up _) as [e|[|choice rest]]; simpl.
  - split; [reflexivity | apply catchError_eq].
  - split; [reflexivity | apply catchError_eq].
  - split; [reflexivity|]. unfold Route.scoreResult.
    destruct (Route.choice_message choice) as [[[|c' content]|]|]; reflexivity.
Qed.

Lemma C5_witness :
  fst (Route.POST
         (Sample.upstream
            (Route.FetchResolved (Sample.okResponse Sample.rawMessages))
            (Route.CompletionResolved
               [Sample.contentChoice (Some (lit "Accuracy Score (1-10): 7"))]))
         (Sample.byCallId (lit "call-1")))
  = {| Route.status := 200;
       Route.body := Route.ScoreBody (lit "Accuracy Score (1-10): 7") |}.
Proof.
  exact (proj2
    (@C5_completion_outcomes
       (Sample.upstream
          (Route.FetchResolved (Sample.okResponse Sample.rawMessages))
          (Route.CompletionResolved
             [Sample.contentChoice (Some (lit "Accuracy Score (1-10): 7"))]))
       (Sample.byCallId (lit "call-1")) (lit "sk-vapi")
       (Sample.okResponse Sample.rawMessages) Sample.rawMessages
       eq_refl eq_refl ltac:(discriminate) eq_refl eq_refl eq_refl
       ltac:(discriminate))).
Defined.

(** C5 as stated fails on a completion without content: the route answers
    200 with a score, not an error. *)
Lemma C5_no_content_is_a_success :
  fst (Route.POST
         (Sample.upstream
            (Route.FetchResolved (Sample.okResponse Sample.rawMessages))
            (Route.CompletionResolved [Sample.contentChoice None]))
         (Sample.byCallId (lit "call-1")))
  = {| Route.status := 200;
       Route.body := Route.ScoreBody (lit "Could not generate score.") |}.
Proof. reflexivity. Qed.

(** The words the template uses for the two dimensions, the scale and the
    overall feedback. *)
Lemma prompt_labels :
  Forall (fun label => includes Route.promptBefore label = true)
    [ lit "**Accuracy:**"; lit "**Confidentiality:**";
      lit "score from 1 to 10 (10 being excellent) for each criterion";
      lit "overall recommendation or qualitative feedback" ]
  /\ Forall (fun label => includes Route.promptAfter label = true)
       [ lit "Accuracy Score (1-10):"; lit "Confidentiality Score (1-10):";
         lit "Overall Feedback:" ].
Proof.
  split; repeat constructor; vm_compute; reflexivity.
Qed.

Lemma includes_app_l (a b sub : jsstring) :
  includes a sub = true -> includes (a ++ b) sub = true.
Proof.
  revert sub.
  assert (S : forall p s t, startsWith s p = true -> startsWith (s ++ t) p = true).
  { induction p as [|c p IH]; intros [|d s] t; simpl; auto; try discriminate.
    rewrite !andb_true_iff. intros [H1 H2]. auto. }
  induction a as [|c a IH]; intros sub H; simpl in *.
  - destruct sub; [|discriminate]. destruct b; reflexivity.
  - apply orb_true_iff in H. apply orb_true_iff.
    destruct H as [H|H]; [left | right; auto].
    apply (S sub (c :: a) b H).
Qed.

Lemma includes_app_r (a b sub : jsstring) :
  includes b sub = true -> includes (a ++ b) sub = true.
Proof.
  intros H. induction a as [|c a IH]; simpl; [exact H|].
  rewrite IH. apply orb_true_r.
Qed.

(** C6.  The prompt is the fixed text [promptBefore], the joined
    transcript and the fixed text [promptAfter]: every line of the
    transcript occurs in it verbatim and in order, and it names both
    dimensions (accuracy and confidentiality), asks for a score from 1 to
    10 for each and for overall feedback, whatever the transcript. *)
Theorem C6_prompt_contains_transcript_and_labels (lines : list jsstring) :
  let prompt := Route.scoringPrompt (join LF lines) in
  occurInOrder lines prompt
  /\ Forall (fun label => includes prompt label = true)
       [ lit "**Accuracy:**"; lit "**Confidentiality:**";
         lit "score from 1 to 10 (10 being excellent) for each criterion";
         lit "overall recommendation or qualitative feedback";
         lit "Accuracy Score (1-10):"; lit "Confidentiality Score (1-10):";
         lit "Overall Feedback:" ]
  /\ (exists before after,
        forall transcript,
          Route.scoringPrompt transcript = before ++ transcript ++ after).
Proof.
  intros prompt. unfold prompt, Route.scoringPrompt. split; [|split].
  - apply occurInOrder_prefix, occurInOrder_join.
  - destruct prompt_labels as [Hb Ha].
    repeat match goal with
           | H : Forall _ (_ :: _) |- _ => inversion H; subst; clear H
           end.
    repeat constructor;
      solve [ now apply includes_app_l
            | now apply includes_app_r, includes_app_r ].
  - exists Route.promptBefore, Route.promptAfter. reflexivity.
Qed.

(** The prompt sent to the completion API is built from the transcript of
    the fetched call. *)
Lemma POST_completion_prompt (up : Route.Upstream) (request : Route.RequestBody)
  (creq : Route.CompletionRequest) :
  In (Route.CompletionCall creq) (snd (Route.POST up request)) ->
  exists rawMessages,
    Route.fullTranscript rawMessages <> []
    /\ creq = Route.completionRequest
                (Route.scoringPrompt (Route.fullTranscript rawMessages)).
Proof.
  unfold Route.POST.
  destruct (negb (truthy (Route.callId request))); [intros []|].
  destruct (Route.VAPI_SECRET_KEY up) as [[|k key]|]; try (intros []).
  destruct (Route.fetchCall up _ _) as [e|r|o st e];
    [| |simpl; intros [H|[]]; discriminate].
  - simpl. intros [H|[]]. discriminate.
  - destruct (negb (Route.ok r)).
    + simpl. intros [H|[]]. discriminate.
    + cbv zeta.
      set (raw := match Route.messages (Route.json r) with
                  | Some l => l | None => [] end).
      destruct (Route.fullTranscript raw) as [|c ft] eqn:E.
      * simpl. intros [H|[]]. discriminate.
      * rewrite <- E. intros H. exists raw. split; [congruence|].
        destruct (Route.createCompletion up _) as [e|[|choice rest]];
          simpl in H; destruct H as [H|[H|[]]]; try discriminate;
          inversion H; reflexivity.
Qed.

(** C7, as amended.  For a body that parses to a value other than [null],
    the route validates [callId] alone.  When [callId] is missing or falsy
    it answers 400 with ["Call ID is required"] and makes no upstream
    call; when [callId] is truthy it never answers 400.  The [transcript]
    field plays no part: a request answers the same whatever it holds
    there. *)
Theorem C7_call_id_required (up : Route.Upstream) (request : Route.RequestBody) :
  (if truthy (Route.callId request)
   then Route.status (fst (Route.POST_request up (Route.BodyParsed request)))
        <> 400%Z
   else Route.POST_request up (Route.BodyParsed request)
        = ({| Route.status := 400;
              Route.body := Route.ErrorBody (lit "Call ID is required") |}, []))
  /\ (forall transcript,
         Route.POST_request up
           (Route.BodyParsed {| Route.callId := Route.callId request;
                                Route.transcript := transcript |})
         = Route.POST_request up (Route.BodyParsed request)).
Proof.
  split; [|reflexivity].
  cbn [Route.POST_request]. unfold Route.POST.
  destruct (truthy (Route.callId request)); [|reflexivity].
  simpl negb. cbv iota.
  destruct (Route.VAPI_SECRET_KEY up) as [[|k key]|]; try (simpl; discriminate).
  destruct (Route.fetchCall up _ _) as [e|r|o st e];
    [| |cbn [fst]; rewrite catchError_eq; simpl; discriminate].
  - cbn [fst]. rewrite catchError_eq. simpl. discriminate.
  - destruct (negb (Route.ok r)).
    + cbn [fst]. rewrite catchError_eq. simpl. discriminate.
    + cbv zeta.
      destruct (Route.fullTranscript _); [simpl; discriminate|].
      destruct (Route.createCompletion up _) as [e|[|choice rest]]; cbn [fst];
        rewrite ?catchError_eq; simpl; discriminate.
Qed.

(** C7 as stated fails both ways: a request with both fields is not
    rejected and reaches the call-data API, and a request whose only field is
    a transcript that is not empty is rejected. *)
Lemma C7_both_accepted_transcript_alone_rejected :
  let up := Sample.upstream
              (Route.FetchResolved (Sample.okResponse []))
              (Route.CompletionRejected []) in
  Stated.validAsStated (Sample.byBoth (lit "abc") (lit "Candidate: hi")) = false
  /\ Route.POST up (Sample.byBoth (lit "abc") (lit "Candidate: hi"))
     = ({| Route.status := 200;
           Route.body := Route.ScoreBody
             (lit "No valid transcript available from Vapi for scoring.") |},
        [Route.CallDataFetch (lit "https://api.vapi.ai/call/abc")
           (lit "Bearer sk-vapi")])
  /\ Stated.validAsStated (Sample.byTranscript (lit "Candidate: hi")) = true
  /\ Route.status (fst (Route.POST up (Sample.byTranscript (lit "Candidate: hi"))))
     = 400%Z.
Proof. repeat split. Qed.

(* ================================================================== *)
(** ** The session controllers *)
(* ================================================================== *)

Lemma scoringCalls_app (a b : list Effect) :
  scoringCalls (a ++ b) = scoringCalls a ++ scoringCalls b.
Proof. apply filter_app. Qed.

(** Case analysis on whatever a handler tests, once the state is a
    literal record. *)
Ltac handler_cases :=
  simpl;
  repeat match goal with
         | |- context [match ?x with _ => _ end] => destruct x; simpl
         end;
  try reflexivity.

Module CallIdFacts.
Import CallIdBot.

Lemma callId_run_app (s : State) (a b : list Event) :
  run s (a ++ b)
  = (fst (run (fst (run s a)) b),
     snd (run s a) ++ snd (run (fst (run s a)) b)).
Proof.
  revert s; induction a as [|e a IH]; intros s; simpl.
  - now destruct (run s b).
  - destruct (step s e) as [s1 e1]. rewrite IH.
    destruct (run s1 a) as [s2 e2]. simpl.
    now rewrite app_assoc.
Qed.

(** Only the end of the call sends a scoring request. *)
Lemma callId_step_no_scoring (s : State) (e : Event) :
  isCallEnd e = false -> scoringCalls (snd (step s e)) = [].
Proof.
  destruct e; simpl; try discriminate; intros _; try reflexivity;
    destruct s;
    unfold handleStartCall, handleStopCall, handleToggleMute,
      handleSendBackgroundMessage, handleSayGoodbye,
      handleStartCall_micGranted, startWith;
    handler_cases.
Qed.

Lemma callId_run_no_scoring (s : State) (events : list Event) :
  forallb (fun e => negb (isCallEnd e)) events = true ->
  scoringCalls (snd (run s events)) = [].
Proof.
  revert s; induction events as [|e events IH]; intros s; simpl;
    [reflexivity|].
  rewrite andb_true_iff, negb_true_iff. intros [He Hrest].
  pose proof (callId_step_no_scoring s e He) as H1.
  destruct (step s e) as [s1 e1]. specialize (IH s1 Hrest).
  destruct (run s1 events) as [s2 e2]. simpl in *.
  now rewrite scoringCalls_app, H1, IH.
Qed.

(** The request sent at the end of a call carries the id held by the ref
    at that moment, and the ref is cleared once it has been used. *)
Lemma callId_handleCallEnd_scoring (s : State) :
  scoringCalls (snd (handleCallEnd s))
  = match currentCallIdRef s with
    | Some (c :: callId) =>
        [FetchScoreInterview
           {| Route.callId := JStr (c :: callId);
              Route.transcript := JUndefined |}]
    | _ => []
    end
  /\ scoringCalls (snd (handleCallEnd (fst (handleCallEnd s)))) = [].
Proof.
  unfold handleCallEnd. simpl.
  destruct (currentCallIdRef s) as [[|c callId]|] eqn:R; simpl;
    rewrite ?R; split; reflexivity.
Qed.

Lemma callId_run_single (s : State) (e : Event) : run s [e] = step s e.
Proof. simpl. destruct (step s e). now rewrite app_nil_r. Qed.

(** The scoring requests of a session are those of its last event. *)
Lemma callId_session_scoring (s : State) (events : list Event) :
  forallb (fun e => negb (isCallEnd e)) events = true ->
  scoringCalls (snd (run s (events ++ [CallEnd])))
  = scoringCalls (snd (handleCallEnd (fst (run s events)))).
Proof.
  intros H. rewrite callId_run_app, callId_run_single. cbn [snd step].
  now rewrite scoringCalls_app, (callId_run_no_scoring s events H).
Qed.

End CallIdFacts.

Module TranscriptFacts.
Import TranscriptBot.

Lemma transcript_run_app (s : State) (a b : list Event) :
  run s (a ++ b)
  = (fst (run (fst (run s a)) b),
     snd (run s a) ++ snd (run (fst (run s a)) b)).
Proof.
  revert s; induction a as [|e a IH]; intros s; simpl.
  - now destruct (run s b).
  - destruct (step s e) as [s1 e1]. rewrite IH.
    destruct (run s1 a) as [s2 e2]. simpl.
    now rewrite app_assoc.
Qed.

(** Only the end of the call sends a scoring request. *)
Lemma transcript_step_no_scoring (s : State) (e : Event) :
  isCallEnd e = false -> scoringCalls (snd (step s e)) = [].
Proof.
  destruct e; simpl; try discriminate; intros _; try reflexivity;
    destruct s;
    unfold handleStartCall, handleStopCall, handleToggleMute,
      handleSendBackgroundMessage, handleSayGoodbye,
      handleStartCall_micGranted, startWith;
    handler_cases.
Qed.

Lemma transcript_run_no_scoring (s : State) (events : list Event) :
  forallb (fun e => negb (isCallEnd e)) events = true ->
  scoringCalls (snd (run s events)) = [].
Proof.
  revert s; induction events as [|e events IH]; intros s; simpl;
    [reflexivity|].
  rewrite andb_true_iff, negb_true_iff. intros [He Hrest].
  pose proof (transcript_step_no_scoring s e He) as H1.
  destruct (step s e) as [s1 e1]. specialize (IH s1 Hrest).
  destruct (run s1 events) as [s2 e2]. simpl in *.
  now rewrite scoringCalls_app, H1, IH.
Qed.

Lemma transcript_run_single (s : State) (e : Event) : run s [e] = step s e.
Proof. simpl. destruct (step s e). now rewrite app_nil_r. Qed.

End TranscriptFacts.

Module SessionFacts.

(** During a call of the call-id bot the speech and volume events leave the
    ref alone. *)
Lemma callId_kept (s : CallIdBot.State) (contents : list CallIdBot.Event) :
  forallb CallIdBot.isSpeechEvent contents = true ->
  CallIdBot.currentCallIdRef (fst (CallIdBot.run s contents))
  = CallIdBot.currentCallIdRef s.
Proof.
  revert s; induction contents as [|e contents IH]; intros s; simpl;
    [reflexivity|].
  rewrite andb_true_iff. intros [He Hrest].
  destruct (CallIdBot.step s e) as [s1 e1] eqn:E.
  specialize (IH s1 Hrest).
  destruct (CallIdBot.run s1 contents) as [s2 e2]. simpl in *.
  rewrite IH.
  destruct e; try discriminate; simpl in E; inversion E; subst; try reflexivity.
  unfold CallIdBot.handleSpeechEnd. destruct (CallIdBot.isCallActive s);
    reflexivity.
Qed.

(** Speech and volume events are not the end of the call. *)
Lemma speech_not_end (contents : list CallIdBot.Event) :
  forallb CallIdBot.isSpeechEvent contents = true ->
  forallb (fun e => negb (CallIdBot.isCallEnd e)) contents = true.
Proof.
  induction contents as [|e l IH]; simpl; [reflexivity|].
  rewrite !andb_true_iff. intros [He Hl]. split; [|now apply IH].
  destruct e; try discriminate; reflexivity.
Qed.

(** A session of the call-id bot in which the SDK reports the start before
    the start call resolves: the one scoring request carries the id of that
    call. *)
Lemma callId_session (s : CallIdBot.State) (call : Call)
  (contents : list CallIdBot.Event) :
  forallb CallIdBot.isSpeechEvent contents = true ->
  scoringCalls
    (snd (CallIdBot.run s
            ((CallIdBot.CallStart :: CallIdBot.StartResolved (Some call)
              :: contents) ++ [CallIdBot.CallEnd])))
  = match id call with
    | [] => []
    | callId =>
        [FetchScoreInterview
           {| Route.callId := JStr callId; Route.transcript := JUndefined |}]
    end.
Proof.
  intros Hc.
  rewrite CallIdFacts.callId_session_scoring
    by (simpl; now apply speech_not_end).
  destruct (CallIdFacts.callId_handleCallEnd_scoring
              (fst (CallIdBot.run s
                      (CallIdBot.CallStart
                       :: CallIdBot.StartResolved (Some call) :: contents))))
    as [H _].
  rewrite H. clear H.
  change (CallIdBot.CallStart :: CallIdBot.StartResolved (Some call)
          :: contents)
    with ([CallIdBot.CallStart; CallIdBot.StartResolved (Some call)]
          ++ contents).
  rewrite CallIdFacts.callId_run_app. cbn [fst].
  rewrite callId_kept by exact Hc.
  simpl. destruct (id call); reflexivity.
Qed.

(** When the start call resolves before the SDK reports the start, the
    start listener clears the ref and the session ends without a scoring
    request. *)
Lemma callId_cleared_by_late_start (s : CallIdBot.State) (call : Call)
  (contents : list CallIdBot.Event) :
  forallb CallIdBot.isSpeechEvent contents = true ->
  scoringCalls
    (snd (CallIdBot.run s
            ((CallIdBot.StartResolved (Some call) :: CallIdBot.CallStart
              :: contents) ++ [CallIdBot.CallEnd])))
  = [].
Proof.
  intros Hc.
  rewrite CallIdFacts.callId_session_scoring
    by (simpl; now apply speech_not_end).
  destruct (CallIdFacts.callId_handleCallEnd_scoring
              (fst (CallIdBot.run s
                      (CallIdBot.StartResolved (Some call)
                       :: CallIdBot.CallStart :: contents))))
    as [H _].
  rewrite H. clear H.
  change (CallIdBot.StartResolved (Some call) :: CallIdBot.CallStart
          :: contents)
    with ([CallIdBot.StartResolved (Some call); CallIdBot.CallStart]
          ++ contents).
  rewrite CallIdFacts.callId_run_app. cbn [fst].
  rewrite callId_kept by exact Hc.
  reflexivity.
Qed.

(** During a call of the transcript bot the buffer grows by the messages
    received, in order. *)
Lemma buffer_grows (s : TranscriptBot.State)
  (contents : list TranscriptBot.Event) :
  forallb TranscriptBot.isSpeechOrContent contents = true ->
  TranscriptBot.messages (fst (TranscriptBot.run s contents))
  = TranscriptBot.messages s ++ TranscriptBot.received contents.
Proof.
  revert s; induction contents as [|e contents IH]; intros s; simpl.
  - now rewrite app_nil_r.
  - rewrite andb_true_iff. intros [He Hrest].
    destruct (TranscriptBot.step s e) as [s1 e1] eqn:E.
    specialize (IH s1 Hrest).
    destruct (TranscriptBot.run s1 contents) as [s2 e2]. simpl in *.
    rewrite IH.
    destruct e; try discriminate; simpl in E; inversion E; subst;
      try reflexivity.
    + unfold TranscriptBot.handleSpeechEnd.
      destruct (TranscriptBot.isCallActive s); reflexivity.
    + unfold TranscriptBot.handleMessage. simpl.
      repeat match goal with
             | |- context [if ?b then _ else _] => destruct b
             end; simpl; now rewrite <- app_assoc.
Qed.

End SessionFacts.

(** C9.  With a session handle in place and no assistant id typed (the
    inline configuration), the start handler asks for the microphone and
    nothing else; when the permission is denied it sets the error message,
    clears the loading flag, sets the status ["Permission Denied"] and
    returns: [vapi.start] is not called and the call-active flag is as it
    was.  This holds for the call-id bot and for the prototype page. *)
Theorem C9_permission_denied_aborts_start
  (s : CallIdBot.State) (p : Integration.State) (micError : ErrorValue) :
  CallIdBot.vapiRef s <> None -> CallIdBot.assistantId s = [] ->
  Integration.vapiRef p <> None -> Integration.assistantId p = [] ->
  let denied :=
    CallIdBot.run s [CallIdBot.ClickStart; CallIdBot.MicDenied micError] in
  let asked := Integration.handleStartCall p in
  let denied' := Integration.handleStartCall_micDenied micError (fst asked) in
  (snd denied = [GetUserMedia]
   /\ filter isVapiStart (snd denied) = []
   /\ CallIdBot.isLoading (fst denied) = false
   /\ CallIdBot.errorMessage (fst denied)
      = Some (lit "Microphone access needed to start interview: "
              ++ toString (orElse (message micError)
                                  (JStr (lit "Permission denied."))))
   /\ CallIdBot.status (fst denied) = lit "Permission Denied"
   /\ CallIdBot.isCallActive (fst denied) = CallIdBot.isCallActive s
   /\ CallIdBot.currentCallIdRef (fst denied) = None)
  /\ (snd asked = [GetUserMedia]
      /\ filter isVapiStart (snd asked) = []
      /\ Integration.isLoading denied' = false
      /\ Integration.errorMessage denied'
         = Some (lit "Microphone access needed to start call: "
                 ++ toString (message micError))
      /\ Integration.status denied' = lit "Permission Denied"
      /\ Integration.isCallActive denied' = Integration.isCallActive p).
Proof.
  intros Hv Ha Hv' Ha' denied asked denied'.
  subst denied asked denied'. split.
  - simpl. unfold CallIdBot.handleStartCall.
    destruct (CallIdBot.vapiRef s) eqn:V; [|contradiction].
    simpl. rewrite Ha. simpl. repeat split; reflexivity.
  - unfold Integration.handleStartCall.
    destruct (Integration.vapiRef p) eqn:V; [|contradiction].
    simpl. rewrite Ha'. simpl. repeat split; reflexivity.
Qed.

Lemma C9_witness :
  snd (CallIdBot.run (CallIdBot.initial (Some Sample.handle))
         [CallIdBot.ClickStart; CallIdBot.MicDenied Sample.micError])
  = [GetUserMedia]
  /\ CallIdBot.errorMessage
       (fst (CallIdBot.run (CallIdBot.initial (Some Sample.handle))
               [CallIdBot.ClickStart; CallIdBot.MicDenied Sample.micError]))
     = Some (lit "Microphone access needed to start interview: Permission denied").
Proof.
  pose proof
    (@C9_permission_denied_aborts_start
       (CallIdBot.initial (Some Sample.handle))
       {| Integration.isCallActive := false; Integration.isLoading := false;
          Integration.status := lit "Idle";
          Integration.errorMessage := None;
          Integration.volumeLevel := 0%float; Integration.messages := [];
          Integration.isMuted := false; Integration.assistantId := [];
          Integration.vapiRef := Some Sample.handle |}
       Sample.micError
       ltac:(discriminate) eq_refl ltac:(discriminate) eq_refl) as H.
  cbv zeta in H. destruct H as [[H1 [_ [_ [H2 _]]]] _].
  split; [exact H1 | exact H2].
Defined.

(** C10, as amended.  From every state of either bot, the error listener
    clears the loading flag, sets the error message to ["Vapi Error: "]
    followed by the message of the error (or by its JSON text when it has no
    message) and the status to ["Error During Interview"].  Every other
    cell and ref is as it was: in particular the call-active flag, so the
    session is shown as ended only if it was not active before. *)
Theorem C10_error_event (e : ErrorValue)
  (s : CallIdBot.State) (t : TranscriptBot.State) :
  let text :=
    lit "Vapi Error: "
    ++ (if truthy (message e) then toString (message e) else stringified e) in
  CallIdBot.handleError e s
  = {| CallIdBot.isCallActive := CallIdBot.isCallActive s;
       CallIdBot.isLoading := false;
       CallIdBot.status := lit "Error During Interview";
       CallIdBot.errorMessage := Some text;
       CallIdBot.volumeLevel := CallIdBot.volumeLevel s;
       CallIdBot.isMuted := CallIdBot.isMuted s;
       CallIdBot.assistantId := CallIdBot.assistantId s;
       CallIdBot.interviewScore := CallIdBot.interviewScore s;
       CallIdBot.isScoring := CallIdBot.isScoring s;
       CallIdBot.vapiRef := CallIdBot.vapiRef s;
       CallIdBot.currentCallIdRef := CallIdBot.currentCallIdRef s |}
  /\ TranscriptBot.handleError e t
     = {| TranscriptBot.isCallActive := TranscriptBot.isCallActive t;
          TranscriptBot.isLoading := false;
          TranscriptBot.status := lit "Error During Interview";
          TranscriptBot.errorMessage := Some text;
          TranscriptBot.volumeLevel := TranscriptBot.volumeLevel t;
          TranscriptBot.messages := TranscriptBot.messages t;
          TranscriptBot.isMuted := TranscriptBot.isMuted t;
          TranscriptBot.assistantId := TranscriptBot.assistantId t;
          TranscriptBot.interviewScore := TranscriptBot.interviewScore t;
          TranscriptBot.isScoring := TranscriptBot.isScoring t;
          TranscriptBot.vapiRef := TranscriptBot.vapiRef t |}.
Proof.
  unfold CallIdBot.handleError, TranscriptBot.handleError, orElse. simpl.
  destruct (truthy (message e)); split; reflexivity.
Qed.

(** C10 as stated fails from an active call: after the error event the
    call-active flag is still set, in both bots. *)
Lemma C10_error_leaves_call_active :
  CallIdBot.isCallActive
    (fst (CallIdBot.run (CallIdBot.initial (Some Sample.handle))
            [CallIdBot.CallStart; CallIdBot.VapiError Sample.sdkError]))
  = true
  /\ TranscriptBot.isCallActive
       (fst (TranscriptBot.run (TranscriptBot.initial (Some Sample.handle))
               [TranscriptBot.CallStart; TranscriptBot.VapiError Sample.sdkError]))
     = true.
Proof. split; reflexivity. Qed.

(* ================================================================== *)
(** ** Further properties of the scoring route *)
(* ================================================================== *)

Lemma strOr_not_empty (e d : jsstring) : d <> [] -> strOr e d <> [].
Proof. destruct e; simpl; [auto | discriminate]. Qed.

Lemma scoreResult_not_empty (choice : Route.Choice) :
  Route.scoreResult choice <> [].
Proof.
  unfold Route.scoreResult.
  destruct (Route.choice_message choice) as [[c|]|]; try discriminate.
  apply strOr_not_empty. discriminate.
Qed.

(** X1.  With a call id but without the server-side secret (unset or
    empty), the route answers 500 with a fixed message and makes no
    upstream call. *)
Theorem X1_missing_secret
  (up : Route.Upstream) (request : Route.RequestBody) :
  truthy (Route.callId request) = true ->
  Route.VAPI_SECRET_KEY up = None \/ Route.VAPI_SECRET_KEY up = Some [] ->
  Route.POST up request
  = ({| Route.status := 500;
        Route.body := Route.ErrorBody
          (lit "VAPI_SECRET_KEY is not set in environment variables.") |},
     []).
Proof.
  intros Hc [Hk|Hk]; unfold Route.POST; rewrite Hc, Hk; reflexivity.
Qed.

Lemma X1_witness :
  Route.POST Inputs.noSecret (Sample.byCallId (lit "call-1"))
  = ({| Route.status := 500;
        Route.body := Route.ErrorBody
          (lit "VAPI_SECRET_KEY is not set in environment variables.") |},
     []).
Proof.
  exact (@X1_missing_secret Inputs.noSecret (Sample.byCallId (lit "call-1"))
           eq_refl (or_introl eq_refl)).
Defined.

(** X2.  When the request to the call-data API itself fails (the fetch
    rejects), the route answers 500 with the message of the error, or with
    ["Internal server error during scoring."] when that is empty; the
    completion API is not called and the fetch is not tried again. *)
Theorem X2_fetch_rejected
  (up : Route.Upstream) (request : Route.RequestBody) (key e : jsstring) :
  truthy (Route.callId request) = true ->
  Route.VAPI_SECRET_KEY up = Some key -> key <> [] ->
  Route.fetchCall up (callUrl request) (bearer key) = Route.FetchRejected e ->
  Route.POST up request
  = ({| Route.status := 500;
        Route.body := Route.ErrorBody
          (strOr e (lit "Internal server error during scoring.")) |},
     [Route.CallDataFetch (callUrl request) (bearer key)]).
Proof.
  intros Hc Hk Hne Hf.
  rewrite (POST_fetches up request Hc Hk Hne), Hf, catchError_eq.
  reflexivity.
Qed.

Lemma X2_witness :
  Route.POST
    (Sample.upstream (Route.FetchRejected (lit "fetch failed"))
                     (Route.CompletionRejected []))
    (Sample.byCallId (lit "call-1"))
  = ({| Route.status := 500;
        Route.body := Route.ErrorBody (lit "fetch failed") |},
     [Route.CallDataFetch (lit "https://api.vapi.ai/call/call-1")
        (lit "Bearer sk-vapi")]).
Proof.
  exact (@X2_fetch_rejected
           (Sample.upstream (Route.FetchRejected (lit "fetch failed"))
                            (Route.CompletionRejected []))
           (Sample.byCallId (lit "call-1")) (lit "sk-vapi")
           (lit "fetch failed")
           eq_refl eq_refl ltac:(discriminate) eq_refl).
Defined.

(** X3.  Whatever the request and the upstream services do, the response
    of the route is either a score with status 200 or an error with status
    400 or 500, and the score or error text is never empty. *)
Theorem X3_response_shape (up : Route.Upstream) (request : Route.RequestBody) :
  match Route.body (fst (Route.POST up request)) with
  | Route.ScoreBody score =>
      Route.status (fst (Route.POST up request)) = 200%Z /\ score <> []
  | Route.ErrorBody error =>
      (Route.status (fst (Route.POST up request)) = 400%Z
       \/ Route.status (fst (Route.POST up request)) = 500%Z)
      /\ error <> []
  end.
Proof.
  assert (C : forall e,
             match Route.body (Route.catchError e) with
             | Route.ScoreBody score =>
                 Route.status (Route.catchError e) = 200%Z /\ score <> []
             | Route.ErrorBody error =>
                 (Route.status (Route.catchError e) = 400%Z
                  \/ Route.status (Route.catchError e) = 500%Z)
                 /\ error <> []
             end).
  { intros e. rewrite catchError_eq. simpl. split; [now right|].
    apply strOr_not_empty. discriminate. }
  unfold Route.POST.
  destruct (negb (truthy (Route.callId request)));
    [simpl; split; [now left | discriminate]|].
  destruct (Route.VAPI_SECRET_KEY up) as [[|k key]|];
    try (simpl; split; [now right | discriminate]).
  destruct (Route.fetchCall up _ _) as [e|r|o st e]; [apply C| |apply C].
  destruct (negb (Route.ok r)); [apply C|].
  cbv zeta.
  destruct (Route.fullTranscript _); [simpl; split; [reflexivity|discriminate]|].
  destruct (Route.createCompletion up _) as [e|[|choice rest]];
    [apply C | apply C |].
  simpl. split; [reflexivity | apply scoreResult_not_empty].
Qed.


Lemma countLF_app (a b : jsstring) : countLF (a ++ b) = (countLF a + countLF b)%nat.
Proof. apply count_occ_app. Qed.

Lemma countLF_join (lines : list jsstring) :
  lines <> [] ->
  S (countLF (join LF lines))
  = (List.length lines + list_sum (map countLF lines))%nat.
Proof.
  induction lines as [|l rest IH]; [congruence|]. intros _.
  destruct rest as [|l' rest'].
  - simpl. lia.
  - change (join LF (l :: l' :: rest'))
      with (l ++ LF ++ join LF (l' :: rest')).
    rewrite !countLF_app.
    assert (H : S (countLF (join LF (l' :: rest')))
                = (List.length (l' :: rest')
                   + list_sum (map countLF (l' :: rest')))%nat)
      by (apply IH; discriminate).
    change (countLF LF) with 1%nat.
    simpl List.length in *. simpl map in *. simpl list_sum in *. lia.
Qed.

Lemma formatEntry_countLF (m : Route.RawMessage) :
  Route.isTranscriptEntry m = true ->
  countLF (Route.formatEntry m)
  = match Route.content m with JStr t => countLF t | _ => 0%nat end.
Proof.
  intros K. apply isTranscriptEntry_true in K.
  destruct K as [t [_ [Hc _]]].
  unfold Route.formatEntry. rewrite Hc. simpl toString.
  destruct (strictEq _ _); rewrite !countLF_app; reflexivity.
Qed.

(** X5.  The joined transcript has one line per kept utterance only as far
    as the utterances hold no line feed of their own: the content is
    copied as it is, so the number of lines of a transcript that is not
    empty is the number of kept entries plus the number of line feeds
    inside their contents. *)
Theorem X5_transcript_line_count (rawMessages : list Route.RawMessage) :
  filter Route.isTranscriptEntry rawMessages <> [] ->
  S (countLF (Route.fullTranscript rawMessages))
  = (List.length (filter Route.isTranscriptEntry rawMessages)
     + list_sum
         (map (fun m => match Route.content m with
                        | JStr t => countLF t
                        | _ => 0%nat
                        end)
              (filter Route.isTranscriptEntry rawMessages)))%nat.
Proof.
  intros Hne. unfold Route.fullTranscript, Route.transcriptMessages.
  rewrite countLF_join.
  - rewrite length_map, map_map. f_equal.
    f_equal. apply map_ext_in. intros m Hm.
    apply filter_In in Hm. now apply formatEntry_countLF.
  - intros H. apply map_eq_nil in H. contradiction.
Qed.

Lemma X5_witness :
  S (countLF (Route.fullTranscript
                (Sample.rawMessages
                 ++ [Sample.entry (lit "transcript") (lit "user")
                       (lit "first" ++ LF ++ lit "second")])))
  = 4%nat.
Proof.
  rewrite (@X5_transcript_line_count
             (Sample.rawMessages
              ++ [Sample.entry (lit "transcript") (lit "user")
                    (lit "first" ++ LF ++ lit "second")])
             ltac:(discriminate)).
  reflexivity.
Defined.

Lemma join_app (a b : list jsstring) :
  join LF (a ++ b)
  = match a, b with
    | [], _ => join LF b
    | _, [] => join LF a
    | _, _ => join LF a ++ LF ++ join LF b
    end.
Proof.
  induction a as [|x a IH]; [reflexivity|].
  destruct b as [|y b]; [now rewrite app_nil_r|].
  destruct a as [|x' a'].
  - reflexivity.
  - change (join LF ((x :: x' :: a') ++ y :: b))
      with (x ++ LF ++ join LF ((x' :: a') ++ y :: b)).
    rewrite IH. simpl. now rewrite <- !app_assoc.
Qed.

Lemma join_app_text (a b : list jsstring) :
  (forall l, In l (a ++ b) -> l <> []) ->
  join LF (a ++ b)
  = match join LF a, join LF b with
    | [], tb => tb
    | ta, [] => ta
    | ta, tb => ta ++ LF ++ tb
    end.
Proof.
  intros H. rewrite join_app.
  assert (Ha : join LF a = [] <-> a = [])
    by (apply join_nil_iff; intros l Hl; apply H, in_or_app; now left).
  assert (Hb : join LF b = [] <-> b = [])
    by (apply join_nil_iff; intros l Hl; apply H, in_or_app; now right).
  destruct a as [|x a']; [reflexivity|].
  destruct (join LF (x :: a')) as [|c ta] eqn:Ja;
    [destruct Ha as [Ha _]; specialize (Ha eq_refl); discriminate|].
  destruct b as [|y b']; [reflexivity|].
  destruct (join LF (y :: b')) as [|d tb] eqn:Jb;
    [destruct Hb as [Hb _]; specialize (Hb eq_refl); discriminate|].
  reflexivity.
Qed.

(** X6.  Extraction goes through concatenation: the transcript of two
    lists of entries put end to end is the transcript of the first, a line
    feed and the transcript of the second, and just the other one when
    either is empty. *)
Theorem X6_transcript_of_concatenation (a b : list Route.RawMessage) :
  Route.fullTranscript (a ++ b)
  = match Route.fullTranscript a, Route.fullTranscript b with
    | [], tb => tb
    | ta, [] => ta
    | ta, tb => ta ++ LF ++ tb
    end.
Proof.
  unfold Route.fullTranscript, Route.transcriptMessages.
  rewrite filter_app, map_app.
  apply join_app_text.
  intros l Hl. rewrite <- map_app in Hl.
  apply in_map_iff in Hl. destruct Hl as [m [<- _]].
  apply formatEntry_not_empty.
Qed.

(** X7.  The two variants extract alike: the lines that the client builds
    from the messages it captured are the lines that the route builds from
    the same messages given as entries [{type, content, sender}]. *)
Theorem X7_client_and_route_extract_alike
  (messages : list TranscriptBot.VapiMessage) :
  TranscriptBot.filteredTranscript messages
  = Route.transcriptMessages (map toRaw messages).
Proof.
  unfold TranscriptBot.filteredTranscript, Route.transcriptMessages.
  induction messages as [|m rest IH]; [reflexivity|].
  simpl.
  assert (K : TranscriptBot.isTranscriptMessage m
              = Route.isTranscriptEntry (toRaw m)).
  { unfold TranscriptBot.isTranscriptMessage, Route.isTranscriptEntry, toRaw.
    simpl.
    destruct (TranscriptBot.field TranscriptBot.text m) as [| | | |t|];
      simpl; rewrite ?andb_false_r; try reflexivity.
    destruct t as [|c t]; simpl; rewrite ?andb_false_r, ?andb_true_r;
      reflexivity. }
  rewrite <- K.
  destruct (TranscriptBot.isTranscriptMessage m); simpl; [|exact IH].
  f_equal. exact IH.
Qed.

(** X21.  When the call-data API answers a valid request with a response
    that is not ok and whose body is a JSON object, the route answers 500
    with an error body made of ["Failed to fetch call details from Vapi: "]
    and the upstream message (when it is truthy) or the upstream status
    text (otherwise); the only upstream call is the fetch, so the
    completion API is not called. *)
Theorem X21_fetch_error_with_json_body
  (up : Route.Upstream) (request : Route.RequestBody) (key : jsstring)
  (vapiResponse : Route.VapiResponse) :
  truthy (Route.callId request) = true ->
  Route.VAPI_SECRET_KEY up = Some key -> key <> [] ->
  Route.fetchCall up (callUrl request) (bearer key)
  = Route.FetchResolved vapiResponse ->
  Route.ok vapiResponse = false ->
  let upstreamMessage := Route.message (Route.json vapiResponse) in
  let detail :=
    if truthy upstreamMessage then toString upstreamMessage
    else Route.statusText vapiResponse in
  Route.POST up request
  = ({| Route.status := 500;
        Route.body := Route.ErrorBody
          (lit "Failed to fetch call details from Vapi: " ++ detail) |},
     [Route.CallDataFetch (callUrl request) (bearer key)])
  /\ filter Route.isCompletionCall (snd (Route.POST up request)) = []
  /\ (forall m, upstreamMessage = JStr m -> m <> [] -> detail = m).
Proof.
  intros Hc Hk Hne Hf Hok upstreamMessage detail.
  assert (E : Route.POST up request
              = ({| Route.status := 500;
                    Route.body := Route.ErrorBody
                      (lit "Failed to fetch call details from Vapi: " ++ detail) |},
                 [Route.CallDataFetch (callUrl request) (bearer key)])).
  { rewrite (POST_fetches up request Hc Hk Hne), Hf, Hok. simpl negb.
    cbv iota. rewrite catchError_fetch_failure.
    unfold detail, upstreamMessage, orElse.
    destruct (truthy (Route.message (Route.json vapiResponse))); reflexivity. }
  split; [exact E|]. split; [rewrite E; reflexivity|].
  intros m Hm Hnm. unfold detail. rewrite Hm. simpl.
  destruct m; [contradiction | reflexivity].
Qed.

Lemma X21_witness :
  Route.POST
    (Sample.upstream (Route.FetchResolved Sample.notFoundResponse)
                     (Route.CompletionRejected []))
    (Sample.byCallId (lit "missing"))
  = ({| Route.status := 500;
        Route.body := Route.ErrorBody
          (lit "Failed to fetch call details from Vapi: Call not found") |},
     [Route.CallDataFetch (lit "https://api.vapi.ai/call/missing")
        (lit "Bearer sk-vapi")]).
Proof.
  exact (proj1
    (@X21_fetch_error_with_json_body
       (Sample.upstream (Route.FetchResolved Sample.notFoundResponse)
                        (Route.CompletionRejected []))
       (Sample.byCallId (lit "missing")) (lit "sk-vapi")
       Sample.notFoundResponse
       eq_refl eq_refl ltac:(discriminate) eq_refl eq_refl)).
Defined.

(** X22.  A request is answered 400 only when its body was read: when the
    first statement of the handler throws (the body does not parse as
    JSON, or parses to [null]), the answer is 500 with the message of the
    exception, or with the fixed text when that message is empty, and no
    upstream call is made, whatever the environment holds; a body that was
    read and has no [callId] is answered 400 in the same environment. *)
Theorem X22_unreadable_request_body (up : Route.Upstream) (thrown : jsstring) :
  Route.POST_request up (Route.BodyThrows thrown)
  = ({| Route.status := 500;
        Route.body := Route.ErrorBody
          (strOr thrown (lit "Internal server error during scoring.")) |},
     [])
  /\ Route.status (fst (Route.POST_request up (Route.BodyThrows thrown)))
     <> Route.status
          (fst (Route.POST_request up
                  (Route.BodyParsed {| Route.callId := JUndefined;
                                       Route.transcript := JUndefined |}))).
Proof.
  cbn [Route.POST_request]. rewrite catchError_eq. split; [reflexivity|].
  simpl. discriminate.
Qed.

(* ================================================================== *)
(** ** The clients against the route *)
(* ================================================================== *)

(** A request with a truthy call id is answered by a score with status
    200 or by an error, not empty, with status 500. *)
Lemma POST_with_call_id (up : Route.Upstream) (request : Route.RequestBody) :
  truthy (Route.callId request) = true ->
  (exists score,
      fst (Route.POST up request)
      = {| Route.status := 200; Route.body := Route.ScoreBody score |})
  \/ (exists error,
         error <> []
         /\ fst (Route.POST up request)
            = {| Route.status := 500; Route.body := Route.ErrorBody error |}).
Proof.
  intros Hc.
  assert (C : forall (e : jsstring) (calls : list Route.UpstreamCall),
             exists error,
               error <> []
               /\ fst (Route.catchError e, calls)
                  = {| Route.status := 500;
                       Route.body := Route.ErrorBody error |}).
  { intros e calls. eexists. split; [|cbn [fst]; apply catchError_eq].
    apply strOr_not_empty. discriminate. }
  unfold Route.POST. rewrite Hc. simpl negb. cbv iota.
  destruct (Route.VAPI_SECRET_KEY up) as [[|k key]|];
    try (right; eexists; split; [|reflexivity]; discriminate).
  destruct (Route.fetchCall up _ _) as [e|r|o st e];
    [right; apply C| |right; apply C].
  destruct (negb (Route.ok r)); [right; apply C|].
  cbv zeta.
  destruct (Route.fullTranscript _); [left; eexists; reflexivity|].
  destruct (Route.createCompletion up _) as [e|[|choice rest]];
    [right; apply C | right; apply C | left; eexists; reflexivity].
Qed.

(** X8.  The request of the transcript bot never gets a score from the
    route of the repository: it carries [transcript] and no [callId], so
    whatever the transcript and the upstream services, the route answers
    400 without any upstream call and the bot ends with the score text
    ["Failed to generate score: Call ID is required"], scoring flag
    cleared. *)
Theorem X8_transcript_request_rejected
  (up : Route.Upstream) (s : TranscriptBot.State) :
  TranscriptBot.filteredTranscript (TranscriptBot.messages s) <> [] ->
  let request :=
    {| Route.callId := JUndefined;
       Route.transcript :=
         JStr (join LF (TranscriptBot.filteredTranscript
                          (TranscriptBot.messages s))) |} in
  let ended := TranscriptBot.handleCallEnd s in
  let settled :=
    TranscriptBot.scoreInterviewTranscript_resolved
      (fst (Route.POST up request)) (fst ended) in
  snd ended = [FetchScoreInterview request]
  /\ Route.POST up request
     = ({| Route.status := 400;
           Route.body := Route.ErrorBody (lit "Call ID is required") |}, [])
  /\ TranscriptBot.interviewScore settled
     = Some (lit "Failed to generate score: Call ID is required")
  /\ TranscriptBot.isScoring settled = false.
Proof.
  intros Hne request ended settled. subst request ended settled.
  unfold TranscriptBot.handleCallEnd, TranscriptBot.scoreInterviewTranscript.
  simpl TranscriptBot.messages.
  destruct (TranscriptBot.filteredTranscript (TranscriptBot.messages s))
    as [|l lines]; [contradiction|].
  repeat split.
Qed.

Lemma X8_witness :
  TranscriptBot.interviewScore
    (TranscriptBot.scoreInterviewTranscript_resolved
       (fst (Route.POST Inputs.scoringUpstream
               (Sample.byTranscript (lit "Candidate: I am an engineer"))))
       (fst (TranscriptBot.handleCallEnd Inputs.activeTranscriptBot)))
  = Some (lit "Failed to generate score: Call ID is required").
Proof.
  pose proof (@X8_transcript_request_rejected Inputs.scoringUpstream
                Inputs.activeTranscriptBot ltac:(discriminate)) as H.
  cbv zeta in H. destruct H as [_ [_ [H _]]]. exact H.
Defined.

(** X9.  The request of the call-id bot always passes the validation of
    the route.  When the call ends with a call id in the ref, the bot
    sends that id, the route never answers 400, and once the answer is in
    the bot shows the score of a 200 answer as it is, or ["Failed to
    generate score: "] followed by the error of a 500 answer; the scoring
    flag is cleared and the ref is empty. *)
Theorem X9_call_id_request_accepted
  (up : Route.Upstream) (s : CallIdBot.State) (callId : jsstring) :
  CallIdBot.currentCallIdRef s = Some callId -> callId <> [] ->
  let request :=
    {| Route.callId := JStr callId; Route.transcript := JUndefined |} in
  let ended := CallIdBot.handleCallEnd s in
  let response := fst (Route.POST up request) in
  let settled :=
    CallIdBot.scoreInterviewTranscript_resolved response (fst ended) in
  snd ended = [FetchScoreInterview request]
  /\ Route.status response <> 400%Z
  /\ CallIdBot.interviewScore settled
     = Some (match Route.body response with
             | Route.ScoreBody score => score
             | Route.ErrorBody error =>
                 lit "Failed to generate score: " ++ error
             end)
  /\ CallIdBot.isScoring settled = false
  /\ CallIdBot.currentCallIdRef settled = None.
Proof.
  intros Hr Hne request ended response settled.
  assert (E : ended
              = (CallIdBot.setCurrentCallIdRef None
                   (fst (CallIdBot.scoreInterviewTranscript callId
                           (CallIdBot.setErrorMessage None
                              (CallIdBot.setStatus (lit "Interview Ended")
                                 (CallIdBot.setIsLoading false
                                    (CallIdBot.setIsCallActive false s)))))),
                 [FetchScoreInterview request])).
  { subst ended. unfold CallIdBot.handleCallEnd. simpl CallIdBot.currentCallIdRef.
    rewrite Hr. destruct callId; [contradiction | reflexivity]. }
  assert (T : truthy (Route.callId request) = true)
    by (subst request; simpl; destruct callId; [contradiction | reflexivity]).
  destruct (POST_with_call_id up request T) as [[score H]|[error [He H]]];
    subst settled; fold response in H; rewrite H, E; simpl.
  - repeat split. discriminate.
  - repeat split; [discriminate|].
    destruct error; [contradiction | reflexivity].
Qed.

Lemma X9_witness :
  CallIdBot.interviewScore
    (CallIdBot.scoreInterviewTranscript_resolved
       (fst (Route.POST Inputs.scoringUpstream (Sample.byCallId (lit "call-1"))))
       (fst (CallIdBot.handleCallEnd Inputs.activeCallIdBot)))
  = Some (lit "Accuracy Score (1-10): 7").
Proof.
  pose proof (@X9_call_id_request_accepted Inputs.scoringUpstream
                Inputs.activeCallIdBot (lit "call-1")
                eq_refl ltac:(discriminate)) as H.
  cbv zeta in H. destruct H as [_ [_ [H _]]]. exact H.
Defined.

(* ================================================================== *)
(** ** Further properties of the session controllers *)
(* ================================================================== *)

(** Case analysis on an event and on whatever its handler tests. *)
Ltac step_cases e :=
  destruct e; simpl in *; try discriminate;
  repeat match goal with
         | |- context [match ?x with _ => _ end] => destruct x; simpl
         end;
  auto.

Section CallIdInvariant.

Variable P : CallIdBot.State -> Prop.
Variable allowed : CallIdBot.Event -> bool.
Variable Q : Effect -> bool.
Hypothesis step_keeps :
  forall s e, allowed e = true -> P s ->
    P (fst (CallIdBot.step s e)) /\ forallb Q (snd (CallIdBot.step s e)) = true.

(** What every allowed step keeps, every run of allowed events keeps. *)
Lemma callId_run_keeps (events : list CallIdBot.Event) (s : CallIdBot.State) :
  forallb allowed events = true -> P s ->
  P (fst (CallIdBot.run s events))
  /\ forallb Q (snd (CallIdBot.run s events)) = true.
Proof.
  revert s; induction events as [|e events IH]; intros s; simpl; [auto|].
  rewrite andb_true_iff. intros [He Hrest] Hs.
  destruct (step_keeps He Hs) as [H1 H2].
  destruct (CallIdBot.step s e) as [s1 e1]. simpl in *.
  destruct (IH s1 Hrest H1) as [H3 H4].
  destruct (CallIdBot.run s1 events) as [s2 e2]. simpl in *.
  split; [exact H3|]. rewrite forallb_app, H2, H4. reflexivity.
Qed.

End CallIdInvariant.

Section TranscriptInvariant.

Variable P : TranscriptBot.State -> Prop.
Variable allowed : TranscriptBot.Event -> bool.
Variable Q : Effect -> bool.
Hypothesis step_keeps :
  forall s e, allowed e = true -> P s ->
    P (fst (TranscriptBot.step s e))
    /\ forallb Q (snd (TranscriptBot.step s e)) = true.

Lemma transcript_run_keeps (events : list TranscriptBot.Event)
  (s : TranscriptBot.State) :
  forallb allowed events = true -> P s ->
  P (fst (TranscriptBot.run s events))
  /\ forallb Q (snd (TranscriptBot.run s events)) = true.
Proof.
  revert s; induction events as [|e events IH]; intros s; simpl; [auto|].
  rewrite andb_true_iff. intros [He Hrest] Hs.
  destruct (step_keeps He Hs) as [H1 H2].
  destruct (TranscriptBot.step s e) as [s1 e1]. simpl in *.
  destruct (IH s1 Hrest H1) as [H3 H4].
  destruct (TranscriptBot.run s1 events) as [s2 e2]. simpl in *.
  split; [exact H3|]. rewrite forallb_app, H2, H4. reflexivity.
Qed.

End TranscriptInvariant.

Section IntegrationInvariant.

Variable P : Integration.State -> Prop.
Variable allowed : Integration.Event -> bool.
Variable Q : Effect -> bool.
Hypothesis step_keeps :
  forall s e, allowed e = true -> P s ->
    P (fst (Integration.step s e))
    /\ forallb Q (snd (Integration.step s e)) = true.

Lemma integration_run_keeps (events : list Integration.Event)
  (s : Integration.State) :
  forallb allowed events = true -> P s ->
  P (fst (Integration.run s events))
  /\ forallb Q (snd (Integration.run s events)) = true.
Proof.
  revert s; induction events as [|e events IH]; intros s; simpl; [auto|].
  rewrite andb_true_iff. intros [He Hrest] Hs.
  destruct (step_keeps He Hs) as [H1 H2].
  destruct (Integration.step s e) as [s1 e1]. simpl in *.
  destruct (IH s1 Hrest H1) as [H3 H4].
  destruct (Integration.run s1 events) as [s2 e2]. simpl in *.
  split; [exact H3|]. rewrite forallb_app, H2, H4. reflexivity.
Qed.

End IntegrationInvariant.

Lemma forallb_true (A : Type) (l : list A) : forallb (fun _ => true) l = true.
Proof. induction l; simpl; auto. Qed.

(** Without a handle no step makes a call other than a scoring request,
    and no step brings a handle. *)
Lemma callId_no_handle_step (s : CallIdBot.State) (e : CallIdBot.Event) :
  CallIdBot.vapiRef s = None ->
  CallIdBot.vapiRef (fst (CallIdBot.step s e)) = None
  /\ forallb isFetchScoreInterview (snd (CallIdBot.step s e)) = true.
Proof.
  intros H. destruct s; simpl in H; subst.
  unfold CallIdBot.step, CallIdBot.handleStartCall, CallIdBot.handleStopCall,
    CallIdBot.handleToggleMute, CallIdBot.handleSendBackgroundMessage,
    CallIdBot.handleSayGoodbye, CallIdBot.handleStartCall_micGranted,
    CallIdBot.startWith, CallIdBot.handleCallEnd,
    CallIdBot.handleStartCall_started, CallIdBot.handleSpeechEnd,
    CallIdBot.scoreInterviewTranscript_resolved.
  step_cases e.
Qed.

Lemma transcript_no_handle_step (s : TranscriptBot.State)
  (e : TranscriptBot.Event) :
  TranscriptBot.vapiRef s = None ->
  TranscriptBot.vapiRef (fst (TranscriptBot.step s e)) = None
  /\ forallb isFetchScoreInterview (snd (TranscriptBot.step s e)) = true.
Proof.
  intros H. destruct s; simpl in H; subst.
  unfold TranscriptBot.step, TranscriptBot.handleStartCall,
    TranscriptBot.handleStopCall, TranscriptBot.handleToggleMute,
    TranscriptBot.handleSendBackgroundMessage, TranscriptBot.handleSayGoodbye,
    TranscriptBot.handleStartCall_micGranted, TranscriptBot.startWith,
    TranscriptBot.handleCallEnd, TranscriptBot.scoreInterviewTranscript,
    TranscriptBot.handleSpeechEnd, TranscriptBot.handleMessage,
    TranscriptBot.scoreInterviewTranscript_resolved.
  step_cases e.
Qed.

Lemma integration_no_handle_step (s : Integration.State)
  (e : Integration.Event) :
  Integration.vapiRef s = None ->
  Integration.vapiRef (fst (Integration.step s e)) = None
  /\ forallb (fun _ : Effect => false) (snd (Integration.step s e)) = true.
Proof.
  intros H. destruct s; simpl in H; subst.
  unfold Integration.step, Integration.handleStartCall,
    Integration.handleStopCall, Integration.handleToggleMute,
    Integration.handleSendBackgroundMessage, Integration.handleSayGoodbye,
    Integration.handleStartCall_micGranted, Integration.startWith,
    Integration.onSpeechEnd, Integration.onMessage.
  step_cases e.
Qed.

Lemma forallb_false_nil (A : Type) (l : list A) :
  forallb (fun _ => false) l = true -> l = [].
Proof. destruct l; simpl; [reflexivity | discriminate]. Qed.

(** X10.  Without the public key the mount effect of each component makes
    no SDK call, builds no handle and sets the error message about the
    key.  From then on, whatever the user does and whatever arrives, the
    two bots make no call to the SDK or to the microphone (at most a
    scoring request, at a call end), and the prototype page makes no
    external call at all. *)
Theorem X10_missing_public_key (fresh : Vapi)
  (s : CallIdBot.State) (events : list CallIdBot.Event)
  (t : TranscriptBot.State) (events' : list TranscriptBot.Event)
  (p : Integration.State) (events'' : list Integration.Event) :
  CallIdBot.vapiRef s = None ->
  TranscriptBot.vapiRef t = None ->
  Integration.vapiRef p = None ->
  let mounted := Lifecycle.callIdEffect [] fresh s in
  let mounted' := Lifecycle.transcriptEffect [] fresh t in
  let mounted'' := Lifecycle.integrationEffect [] fresh p in
  (snd mounted = []
   /\ CallIdBot.errorMessage (fst mounted)
      = Some (lit "Vapi Public Key not set in environment variables.")
   /\ CallIdBot.vapiRef (fst (CallIdBot.run (fst mounted) events)) = None
   /\ forallb isFetchScoreInterview (snd (CallIdBot.run (fst mounted) events))
      = true)
  /\ (snd mounted' = []
      /\ TranscriptBot.errorMessage (fst mounted')
         = Some (lit "Vapi Public Key not set in environment variables.")
      /\ TranscriptBot.vapiRef (fst (TranscriptBot.run (fst mounted') events'))
         = None
      /\ forallb isFetchScoreInterview
           (snd (TranscriptBot.run (fst mounted') events')) = true)
  /\ (snd mounted'' = []
      /\ Integration.errorMessage (fst mounted'')
         = Some (lit "Vapi Public Key not set in environment variables.")
      /\ Integration.vapiRef (fst (Integration.run (fst mounted'') events''))
         = None
      /\ snd (Integration.run (fst mounted'') events'') = []).
Proof.
  intros Hs Ht Hp mounted mounted' mounted''.
  subst mounted mounted' mounted''. simpl.
  split; [|split].
  - split; [reflexivity|]. split; [reflexivity|].
    apply (@callId_run_keeps (fun s => CallIdBot.vapiRef s = None)
             (fun _ => true) isFetchScoreInterview).
    + intros s0 e _ H. now apply callId_no_handle_step.
    + apply forallb_true.
    + exact Hs.
  - split; [reflexivity|]. split; [reflexivity|].
    apply (@transcript_run_keeps (fun s => TranscriptBot.vapiRef s = None)
             (fun _ => true) isFetchScoreInterview).
    + intros s0 e _ H. now apply transcript_no_handle_step.
    + apply forallb_true.
    + exact Ht.
  - split; [reflexivity|]. split; [reflexivity|].
    destruct (@integration_run_keeps
                (fun s => Integration.vapiRef s = None)
                (fun _ => true) (fun _ => false)
                (fun s0 e _ H => integration_no_handle_step s0 e H)
                events'' (Integration.setErrorMessage
                            (Some (lit "Vapi Public Key not set in environment variables."))
                            p)
                (forallb_true _) Hp) as [H1 H2].
    split; [exact H1 | now apply forallb_false_nil].
Qed.

Lemma X10_witness :
  snd (CallIdBot.run
         (fst (Lifecycle.callIdEffect [] Sample.handle (CallIdBot.initial None)))
         [CallIdBot.ClickStart; CallIdBot.ClickToggleMute;
          CallIdBot.ClickSayGoodbye; CallIdBot.ClickStop])
  = []
  /\ snd (Integration.run
            (fst (Lifecycle.integrationEffect [] Sample.handle
                    (Inputs.page None)))
            [Integration.ClickStart; Integration.MicGranted;
             Integration.ClickStop])
     = [].
Proof.
  pose proof
    (@X10_missing_public_key Sample.handle
       (CallIdBot.initial None)
       [CallIdBot.ClickStart; CallIdBot.ClickToggleMute;
        CallIdBot.ClickSayGoodbye; CallIdBot.ClickStop]
       (TranscriptBot.initial None) []
       (Inputs.page None)
       [Integration.ClickStart; Integration.MicGranted; Integration.ClickStop]
       eq_refl eq_refl eq_refl) as H.
  cbv zeta in H. destruct H as [_ [_ [_ [_ [_ H]]]]].
  split; [reflexivity | exact H].
Defined.

Lemma callId_inactive_step (s : CallIdBot.State) (e : CallIdBot.Event) :
  negb (callIdStarts e) = true -> CallIdBot.isCallActive s = false ->
  CallIdBot.isCallActive (fst (CallIdBot.step s e)) = false
  /\ forallb (fun eff => negb (isAuxEffect eff)) (snd (CallIdBot.step s e))
     = true.
Proof.
  intros He H. destruct s; simpl in H; subst.
  unfold CallIdBot.step, CallIdBot.handleStartCall, CallIdBot.handleStopCall,
    CallIdBot.handleToggleMute, CallIdBot.handleSendBackgroundMessage,
    CallIdBot.handleSayGoodbye, CallIdBot.handleStartCall_micGranted,
    CallIdBot.startWith, CallIdBot.handleCallEnd,
    CallIdBot.handleStartCall_started, CallIdBot.handleSpeechEnd,
    CallIdBot.scoreInterviewTranscript_resolved.
  step_cases e.
Qed.

Lemma transcript_inactive_step (s : TranscriptBot.State)
  (e : TranscriptBot.Event) :
  negb (transcriptStarts e) = true -> TranscriptBot.isCallActive s = false ->
  TranscriptBot.isCallActive (fst (TranscriptBot.step s e)) = false
  /\ forallb (fun eff => negb (isAuxEffect eff))
       (snd (TranscriptBot.step s e)) = true.
Proof.
  intros He H. destruct s; simpl in H; subst.
  unfold TranscriptBot.step, TranscriptBot.handleStartCall,
    TranscriptBot.handleStopCall, TranscriptBot.handleToggleMute,
    TranscriptBot.handleSendBackgroundMessage, TranscriptBot.handleSayGoodbye,
    TranscriptBot.handleStartCall_micGranted, TranscriptBot.startWith,
    TranscriptBot.handleCallEnd, TranscriptBot.scoreInterviewTranscript,
    TranscriptBot.handleSpeechEnd, TranscriptBot.handleMessage,
    TranscriptBot.scoreInterviewTranscript_resolved.
  step_cases e.
Qed.

Lemma integration_inactive_step (s : Integration.State)
  (e : Integration.Event) :
  negb (integrationStarts e) = true -> Integration.isCallActive s = false ->
  Integration.isCallActive (fst (Integration.step s e)) = false
  /\ forallb (fun eff => negb (isAuxEffect eff))
       (snd (Integration.step s e)) = true.
Proof.
  intros He H. destruct s; simpl in H; subst.
  unfold Integration.step, Integration.handleStartCall,
    Integration.handleStopCall, Integration.handleToggleMute,
    Integration.handleSendBackgroundMessage, Integration.handleSayGoodbye,
    Integration.handleStartCall_micGranted, Integration.startWith,
    Integration.onSpeechEnd, Integration.onMessage.
  step_cases e.
Qed.

(** X11.  The steering prompt and the closing remark are sent only during
    a call: from a state in which no call is active, and as long as no
    call-start event arrives, no component ever calls [vapi.send] or
    [vapi.say], whatever the user clicks.  Clicked then, the two bots set
    an error message and the prototype page does nothing. *)
Theorem X11_no_steering_outside_a_call
  (s : CallIdBot.State) (events : list CallIdBot.Event)
  (t : TranscriptBot.State) (events' : list TranscriptBot.Event)
  (p : Integration.State) (events'' : list Integration.Event) :
  CallIdBot.isCallActive s = false ->
  forallb (fun e => negb (callIdStarts e)) events = true ->
  TranscriptBot.isCallActive t = false ->
  forallb (fun e => negb (transcriptStarts e)) events' = true ->
  Integration.isCallActive p = false ->
  forallb (fun e => negb (integrationStarts e)) events'' = true ->
  (forallb (fun eff => negb (isAuxEffect eff)) (snd (CallIdBot.run s events))
   = true
   /\ CallIdBot.errorMessage (fst (CallIdBot.handleSendBackgroundMessage s))
      = Some (lit "Call not active to send message.")
   /\ CallIdBot.errorMessage (fst (CallIdBot.handleSayGoodbye s))
      = Some (lit "Call not active to say goodbye."))
  /\ (forallb (fun eff => negb (isAuxEffect eff))
        (snd (TranscriptBot.run t events')) = true
      /\ TranscriptBot.errorMessage
           (fst (TranscriptBot.handleSendBackgroundMessage t))
         = Some (lit "Call not active to send message.")
      /\ TranscriptBot.errorMessage (fst (TranscriptBot.handleSayGoodbye t))
         = Some (lit "Call not active to say goodbye."))
  /\ (forallb (fun eff => negb (isAuxEffect eff))
        (snd (Integration.run p events'')) = true
      /\ fst (Integration.handleSendBackgroundMessage p) = p
      /\ fst (Integration.handleSayGoodbye p) = p).
Proof.
  intros Hs He Ht He' Hp He''. split; [|split].
  - split.
    + apply (@callId_run_keeps (fun s => CallIdBot.isCallActive s = false)
               (fun e => negb (callIdStarts e))
               (fun eff => negb (isAuxEffect eff))
               callId_inactive_step events s He Hs).
    + unfold CallIdBot.handleSendBackgroundMessage, CallIdBot.handleSayGoodbye.
      rewrite Hs. destruct (CallIdBot.vapiRef s); split; reflexivity.
  - split.
    + apply (@transcript_run_keeps
               (fun s => TranscriptBot.isCallActive s = false)
               (fun e => negb (transcriptStarts e))
               (fun eff => negb (isAuxEffect eff))
               transcript_inactive_step events' t He' Ht).
    + unfold TranscriptBot.handleSendBackgroundMessage,
        TranscriptBot.handleSayGoodbye.
      rewrite Ht. destruct (TranscriptBot.vapiRef t); split; reflexivity.
  - split.
    + apply (@integration_run_keeps
               (fun s => Integration.isCallActive s = false)
               (fun e => negb (integrationStarts e))
               (fun eff => negb (isAuxEffect eff))
               integration_inactive_step events'' p He'' Hp).
    + unfold Integration.handleSendBackgroundMessage,
        Integration.handleSayGoodbye.
      rewrite Hp. destruct (Integration.vapiRef p); split; reflexivity.
Qed.

Lemma X11_witness :
  forallb (fun eff => negb (isAuxEffect eff))
    (snd (CallIdBot.run (CallIdBot.initial (Some Sample.handle))
            [CallIdBot.ClickSendBackgroundMessage; CallIdBot.ClickStart;
             CallIdBot.ClickSayGoodbye; CallIdBot.CallEnd;
             CallIdBot.ClickSayGoodbye]))
  = true.
Proof.
  pose proof
    (@X11_no_steering_outside_a_call
       (CallIdBot.initial (Some Sample.handle))
       [CallIdBot.ClickSendBackgroundMessage; CallIdBot.ClickStart;
        CallIdBot.ClickSayGoodbye; CallIdBot.CallEnd;
        CallIdBot.ClickSayGoodbye]
       (TranscriptBot.initial (Some Sample.handle))
       [TranscriptBot.ClickSayGoodbye]
       (Inputs.page (Some Sample.handle)) [Integration.ClickSayGoodbye]
       eq_refl eq_refl eq_refl eq_refl eq_refl eq_refl) as H.
  destruct H as [[H _] _]. exact H.
Defined.

Lemma callId_flag_step (b : bool) (s : CallIdBot.State) (e : CallIdBot.Event) :
  negb (callIdSwitches e) = true -> CallIdBot.isCallActive s = b ->
  CallIdBot.isCallActive (fst (CallIdBot.step s e)) = b
  /\ forallb (fun _ : Effect => true) (snd (CallIdBot.step s e)) = true.
Proof.
  intros He H. split; [|apply forallb_true]. destruct s; simpl in H; subst.
  unfold CallIdBot.step, CallIdBot.handleStartCall, CallIdBot.handleStopCall,
    CallIdBot.handleToggleMute, CallIdBot.handleSendBackgroundMessage,
    CallIdBot.handleSayGoodbye, CallIdBot.handleStartCall_micGranted,
    CallIdBot.startWith, CallIdBot.handleStartCall_started,
    CallIdBot.handleSpeechEnd, CallIdBot.scoreInterviewTranscript_resolved.
  step_cases e.
Qed.

Lemma transcript_flag_step (b : bool) (s : TranscriptBot.State)
  (e : TranscriptBot.Event) :
  negb (transcriptSwitches e) = true -> TranscriptBot.isCallActive s = b ->
  TranscriptBot.isCallActive (fst (TranscriptBot.step s e)) = b
  /\ forallb (fun _ : Effect => true) (snd (TranscriptBot.step s e)) = true.
Proof.
  intros He H. split; [|apply forallb_true]. destruct s; simpl in H; subst.
  unfold TranscriptBot.step, TranscriptBot.handleStartCall,
    TranscriptBot.handleStopCall, TranscriptBot.handleToggleMute,
    TranscriptBot.handleSendBackgroundMessage, TranscriptBot.handleSayGoodbye,
    TranscriptBot.handleStartCall_micGranted, TranscriptBot.startWith,
    TranscriptBot.handleSpeechEnd, TranscriptBot.handleMessage,
    TranscriptBot.scoreInterviewTranscript_resolved.
  step_cases e.
Qed.

Lemma integration_flag_step (b : bool) (s : Integration.State)
  (e : Integration.Event) :
  negb (integrationSwitches e) = true -> Integration.isCallActive s = b ->
  Integration.isCallActive (fst (Integration.step s e)) = b
  /\ forallb (fun _ : Effect => true) (snd (Integration.step s e)) = true.
Proof.
  intros He H. split; [|apply forallb_true]. destruct s; simpl in H; subst.
  unfold Integration.step, Integration.handleStartCall,
    Integration.handleStopCall, Integration.handleToggleMute,
    Integration.handleSendBackgroundMessage, Integration.handleSayGoodbye,
    Integration.handleStartCall_micGranted, Integration.startWith,
    Integration.onSpeechEnd, Integration.onMessage.
  step_cases e.
Qed.

(** X12.  In each component the call-active flag follows the SDK's
    call-start and call-end events and nothing else: over any events that
    hold neither (clicks, settled promises, speech, volume, messages,
    errors) the flag stays as it was. *)
Theorem X12_active_flag_follows_sdk
  (s : CallIdBot.State) (events : list CallIdBot.Event)
  (t : TranscriptBot.State) (events' : list TranscriptBot.Event)
  (p : Integration.State) (events'' : list Integration.Event) :
  forallb (fun e => negb (callIdSwitches e)) events = true ->
  forallb (fun e => negb (transcriptSwitches e)) events' = true ->
  forallb (fun e => negb (integrationSwitches e)) events'' = true ->
  CallIdBot.isCallActive (fst (CallIdBot.run s events))
  = CallIdBot.isCallActive s
  /\ TranscriptBot.isCallActive (fst (TranscriptBot.run t events'))
     = TranscriptBot.isCallActive t
  /\ Integration.isCallActive (fst (Integration.run p events''))
     = Integration.isCallActive p.
Proof.
  intros He He' He''. split; [|split].
  - apply (@callId_run_keeps
             (fun s0 => CallIdBot.isCallActive s0 = CallIdBot.isCallActive s)
             (fun e => negb (callIdSwitches e)) (fun _ => true)
             (@callId_flag_step (CallIdBot.isCallActive s))
             events s He eq_refl).
  - apply (@transcript_run_keeps
             (fun s0 => TranscriptBot.isCallActive s0
                        = TranscriptBot.isCallActive t)
             (fun e => negb (transcriptSwitches e)) (fun _ => true)
             (@transcript_flag_step (TranscriptBot.isCallActive t))
             events' t He' eq_refl).
  - apply (@integration_run_keeps
             (fun s0 => Integration.isCallActive s0
                        = Integration.isCallActive p)
             (fun e => negb (integrationSwitches e)) (fun _ => true)
             (@integration_flag_step (Integration.isCallActive p))
             events'' p He'' eq_refl).
Qed.

Lemma X12_witness :
  CallIdBot.isCallActive
    (fst (CallIdBot.run Inputs.activeCallIdBot
            [CallIdBot.VapiError Sample.sdkError; CallIdBot.ClickStop;
             CallIdBot.StartRejected Sample.sdkError]))
  = true.
Proof.
  exact (proj1
    (@X12_active_flag_follows_sdk
       Inputs.activeCallIdBot
       [CallIdBot.VapiError Sample.sdkError; CallIdBot.ClickStop;
        CallIdBot.StartRejected Sample.sdkError]
       Inputs.activeTranscriptBot [TranscriptBot.SpeechEnd]
       (Inputs.page (Some Sample.handle)) [Integration.ClickStart]
       eq_refl eq_refl eq_refl)).
Defined.

Lemma transcript_buffer_step (s : TranscriptBot.State)
  (e : TranscriptBot.Event) :
  clearsBuffer e = false ->
  TranscriptBot.messages (fst (TranscriptBot.step s e))
  = TranscriptBot.messages s ++ TranscriptBot.received [e].
Proof.
  intros He. destruct s.
  unfold TranscriptBot.step, TranscriptBot.handleStopCall,
    TranscriptBot.handleToggleMute, TranscriptBot.handleSendBackgroundMessage,
    TranscriptBot.handleSayGoodbye, TranscriptBot.handleStartCall_micGranted,
    TranscriptBot.startWith, TranscriptBot.handleCallEnd,
    TranscriptBot.scoreInterviewTranscript, TranscriptBot.handleSpeechEnd,
    TranscriptBot.handleMessage,
    TranscriptBot.scoreInterviewTranscript_resolved.
  destruct e; simpl in *; try discriminate;
    repeat match goal with
           | |- context [match ?x with _ => _ end] => destruct x; simpl
           end;
    rewrite ?app_nil_r; reflexivity.
Qed.

(** X13.  The buffer of the transcript bot only grows during a call: over
    any events other than a click on start and the call-start event (the
    two places that empty it), it ends as it was, followed by the messages
    received, in the order received. *)
Theorem X13_buffer_append_only (s : TranscriptBot.State)
  (events : list TranscriptBot.Event) :
  forallb (fun e => negb (clearsBuffer e)) events = true ->
  TranscriptBot.messages (fst (TranscriptBot.run s events))
  = TranscriptBot.messages s ++ TranscriptBot.received events.
Proof.
  revert s; induction events as [|e events IH]; intros s; simpl.
  - now rewrite app_nil_r.
  - rewrite andb_true_iff, negb_true_iff. intros [He Hrest].
    pose proof (transcript_buffer_step s e He) as H1.
    destruct (TranscriptBot.step s e) as [s1 e1].
    specialize (IH s1 Hrest).
    destruct (TranscriptBot.run s1 events) as [s2 e2]. simpl in *.
    rewrite IH, H1, app_nil_r, <- app_assoc. reflexivity.
Qed.

Lemma X13_witness :
  TranscriptBot.messages
    (fst (TranscriptBot.run Inputs.activeTranscriptBot
            [TranscriptBot.VapiError Sample.sdkError;
             TranscriptBot.Message (Sample.utterance (lit "assistant") (lit "Go on"));
             TranscriptBot.CallEnd;
             TranscriptBot.Message (Sample.utterance (lit "user") (lit "Bye"))]))
  = [Sample.utterance (lit "user") (lit "I am an engineer");
     Sample.utterance (lit "assistant") (lit "Go on");
     Sample.utterance (lit "user") (lit "Bye")].
Proof.
  exact (@X13_buffer_append_only Inputs.activeTranscriptBot
           [TranscriptBot.VapiError Sample.sdkError;
            TranscriptBot.Message (Sample.utterance (lit "assistant") (lit "Go on"));
            TranscriptBot.CallEnd;
            TranscriptBot.Message (Sample.utterance (lit "user") (lit "Bye"))]
           eq_refl).
Defined.

(** X15.  In the call-id bot the order of two things decides whether a
    session is scored.  When the SDK reports the start before the start
    call resolves, the session ends with one scoring request, carrying the
    id of that call (none if the id is empty).  When the start call
    resolves first, the start listener clears the ref and the session ends
    without any scoring request. *)
Theorem X15_start_order_decides_scoring (s : CallIdBot.State) (call : Call)
  (contents : list CallIdBot.Event) :
  forallb CallIdBot.isSpeechEvent contents = true ->
  scoringCalls
    (snd (CallIdBot.run s
            ((CallIdBot.CallStart :: CallIdBot.StartResolved (Some call)
              :: contents) ++ [CallIdBot.CallEnd])))
  = match id call with
    | [] => []
    | callId =>
        [FetchScoreInterview
           {| Route.callId := JStr callId; Route.transcript := JUndefined |}]
    end
  /\ scoringCalls
       (snd (CallIdBot.run s
               ((CallIdBot.StartResolved (Some call) :: CallIdBot.CallStart
                 :: contents) ++ [CallIdBot.CallEnd])))
     = [].
Proof.
  intros H. split.
  - now apply SessionFacts.callId_session.
  - now apply SessionFacts.callId_cleared_by_late_start.
Qed.

Lemma X15_witness :
  scoringCalls
    (snd (CallIdBot.run (CallIdBot.initial (Some Sample.handle))
            ((CallIdBot.StartResolved (Some {| id := lit "call-1" |})
              :: CallIdBot.CallStart :: [CallIdBot.SpeechStart])
             ++ [CallIdBot.CallEnd])))
  = [].
Proof.
  exact (proj2
    (@X15_start_order_decides_scoring
       (CallIdBot.initial (Some Sample.handle)) {| id := lit "call-1" |}
       [CallIdBot.SpeechStart] eq_refl)).
Defined.

(** X16.  After every call end the score panel of either bot is on
    screen: it reads ["Generating score..."] when a scoring request went
    out, and otherwise the text saying that there was no call id, or no
    transcript, to score.  After every call start it is off screen. *)
Theorem X16_score_panel (s : CallIdBot.State) (t : TranscriptBot.State) :
  View.callIdScorePanel (fst (CallIdBot.handleCallEnd s))
  = Some (match scoringCalls (snd (CallIdBot.handleCallEnd s)) with
          | [] => lit "No call ID available to score. (Ref was null at call end)"
          | _ :: _ => lit "Generating score..."
          end)
  /\ View.transcriptScorePanel (fst (TranscriptBot.handleCallEnd t))
     = Some (match scoringCalls (snd (TranscriptBot.handleCallEnd t)) with
             | [] => lit "No valid transcript to score. (Possible short call or no speech detected.)"
             | _ :: _ => lit "Generating score..."
             end)
  /\ View.callIdScorePanel (CallIdBot.handleCallStart s) = None
  /\ View.transcriptScorePanel (TranscriptBot.handleCallStart t) = None.
Proof.
  split; [|split; [|split; reflexivity]].
  - unfold CallIdBot.handleCallEnd. simpl CallIdBot.currentCallIdRef.
    destruct (CallIdBot.currentCallIdRef s) as [[|c i]|]; reflexivity.
  - unfold TranscriptBot.handleCallEnd, TranscriptBot.scoreInterviewTranscript.
    simpl TranscriptBot.messages.
    destruct (TranscriptBot.filteredTranscript (TranscriptBot.messages t));
      reflexivity.
Qed.

(** With the public key set, the start button is enabled exactly when no
    call is active and nothing is loading. *)
Lemma startEnabled_eq (k : N) (key : jsstring)
  (s : CallIdBot.State) (t : TranscriptBot.State) :
  View.callIdStartEnabled (k :: key) s
  = negb (CallIdBot.isCallActive s) && negb (CallIdBot.isLoading s)
  /\ View.transcriptStartEnabled (k :: key) t
     = negb (TranscriptBot.isCallActive t) && negb (TranscriptBot.isLoading t).
Proof.
  unfold View.callIdStartEnabled, View.transcriptStartEnabled,
    View.configMissing.
  simpl View.isEmpty. rewrite !andb_false_r, !orb_false_r. auto.
Qed.

(** X18.  A failed start leaves the bot ready for another one.  With the
    public key set and no call active, after the microphone is refused,
    after the start call fails (or, in the call-id bot, resolves without a
    call object) and after an SDK error, the start button is enabled; and
    it is enabled after every call end. *)
Theorem X18_start_again_after_failure (publicKey : jsstring)
  (s s0 : CallIdBot.State) (e : CallIdBot.Event)
  (t t0 : TranscriptBot.State) (e' : TranscriptBot.Event) :
  publicKey <> [] ->
  CallIdBot.isCallActive s = false -> callIdStartFailure e = true ->
  TranscriptBot.isCallActive t = false -> transcriptStartFailure e' = true ->
  View.callIdStartEnabled publicKey (fst (CallIdBot.step s e)) = true
  /\ View.callIdStartEnabled publicKey (fst (CallIdBot.step s0 CallIdBot.CallEnd))
     = true
  /\ View.transcriptStartEnabled publicKey (fst (TranscriptBot.step t e'))
     = true
  /\ View.transcriptStartEnabled publicKey
       (fst (TranscriptBot.step t0 TranscriptBot.CallEnd))
     = true.
Proof.
  intros Hk Hs He Ht He'.
  destruct publicKey as [|k key]; [contradiction|].
  split; [|split; [|split]].
  - rewrite (proj1 (startEnabled_eq k key _ t)).
    destruct s; simpl in Hs; subst.
    destruct e as [| | | | | | | |[c|]| | | | | | | | | |];
      try discriminate; reflexivity.
  - rewrite (proj1 (startEnabled_eq k key _ t)).
    unfold CallIdBot.step, CallIdBot.handleCallEnd.
    simpl CallIdBot.currentCallIdRef.
    destruct (CallIdBot.currentCallIdRef s0) as [[|c i]|]; reflexivity.
  - rewrite (proj2 (startEnabled_eq k key s _)).
    destruct t; simpl in Ht; subst.
    destruct e'; try discriminate; reflexivity.
  - rewrite (proj2 (startEnabled_eq k key s _)).
    unfold TranscriptBot.step, TranscriptBot.handleCallEnd,
      TranscriptBot.scoreInterviewTranscript.
    simpl TranscriptBot.messages.
    destruct (TranscriptBot.filteredTranscript (TranscriptBot.messages t0));
      reflexivity.
Qed.

Lemma X18_witness :
  View.callIdStartEnabled (lit "pk")
    (fst (CallIdBot.run (CallIdBot.initial (Some Sample.handle))
            [CallIdBot.ClickStart; CallIdBot.MicDenied Sample.micError]))
  = true.
Proof.
  pose proof
    (@X18_start_again_after_failure (lit "pk")
       (fst (CallIdBot.step (CallIdBot.initial (Some Sample.handle))
               CallIdBot.ClickStart))
       Inputs.activeCallIdBot (CallIdBot.MicDenied Sample.micError)
       (TranscriptBot.initial (Some Sample.handle))
       Inputs.activeTranscriptBot (TranscriptBot.VapiError Sample.sdkError)
       ltac:(discriminate) eq_refl eq_refl eq_refl eq_refl) as H.
  destruct H as [H _]. exact H.
Defined.

Lemma callId_handle_step (s : CallIdBot.State) (e : CallIdBot.Event) :
  true = true -> CallIdBot.vapiRef s <> None ->
  CallIdBot.vapiRef (fst (CallIdBot.step s e)) <> None
  /\ forallb (fun _ : Effect => true) (snd (CallIdBot.step s e)) = true.
Proof.
  intros _ H. split; [|apply forallb_true]. destruct s. simpl in H.
  destruct vapiRef as [v|]; [|contradiction].
  unfold CallIdBot.step, CallIdBot.handleStartCall, CallIdBot.handleStopCall,
    CallIdBot.handleToggleMute, CallIdBot.handleSendBackgroundMessage,
    CallIdBot.handleSayGoodbye, CallIdBot.handleStartCall_micGranted,
    CallIdBot.startWith, CallIdBot.handleCallEnd,
    CallIdBot.handleStartCall_started, CallIdBot.handleSpeechEnd,
    CallIdBot.scoreInterviewTranscript_resolved.
  destruct e; simpl;
    repeat match goal with
           | |- context [match ?x with _ => _ end] => destruct x; simpl
           end;
    discriminate.
Qed.

Lemma transcript_handle_step (s : TranscriptBot.State)
  (e : TranscriptBot.Event) :
  true = true -> TranscriptBot.vapiRef s <> None ->
  TranscriptBot.vapiRef (fst (TranscriptBot.step s e)) <> None
  /\ forallb (fun _ : Effect => true) (snd (TranscriptBot.step s e)) = true.
Proof.
  intros _ H. split; [|apply forallb_true]. destruct s. simpl in H.
  destruct vapiRef as [v|]; [|contradiction].
  unfold TranscriptBot.step, TranscriptBot.handleStartCall,
    TranscriptBot.handleStopCall, TranscriptBot.handleToggleMute,
    TranscriptBot.handleSendBackgroundMessage, TranscriptBot.handleSayGoodbye,
    TranscriptBot.handleStartCall_micGranted, TranscriptBot.startWith,
    TranscriptBot.handleCallEnd, TranscriptBot.scoreInterviewTranscript,
    TranscriptBot.handleSpeechEnd, TranscriptBot.handleMessage,
    TranscriptBot.scoreInterviewTranscript_resolved.
  destruct e; simpl;
    repeat match goal with
           | |- context [match ?x with _ => _ end] => destruct x; simpl
           end;
    discriminate.
Qed.

(** X19.  Right after a click on the mute button the flag shown by either
    bot is the flag of the handle, whatever came before: clicks, events,
    or the SDK changing the flag on its own.  A drift between the two
    lasts until the next click at most. *)
Theorem X19_mute_flag_in_step_after_toggle
  (s : CallIdBot.State) (events : list CallIdBot.Event)
  (t : TranscriptBot.State) (events' : list TranscriptBot.Event) :
  CallIdBot.vapiRef s <> None -> TranscriptBot.vapiRef t <> None ->
  let s' := fst (CallIdBot.run s (events ++ [CallIdBot.ClickToggleMute])) in
  let t' :=
    fst (TranscriptBot.run t (events' ++ [TranscriptBot.ClickToggleMute])) in
  option_map muted (CallIdBot.vapiRef s') = Some (CallIdBot.isMuted s')
  /\ option_map muted (TranscriptBot.vapiRef t')
     = Some (TranscriptBot.isMuted t').
Proof.
  intros Hs Ht s' t'. subst s' t'. split.
  - rewrite CallIdFacts.callId_run_app, CallIdFacts.callId_run_single.
    cbn [fst CallIdBot.step].
    destruct (@callId_run_keeps (fun s => CallIdBot.vapiRef s <> None)
                (fun _ => true) (fun _ => true)
                (fun s0 e => @callId_handle_step s0 e)
                events s (forallb_true _) Hs) as [H _].
    unfold CallIdBot.handleToggleMute.
    destruct (CallIdBot.vapiRef (fst (CallIdBot.run s events)));
      [reflexivity | contradiction].
  - rewrite TranscriptFacts.transcript_run_app,
      TranscriptFacts.transcript_run_single.
    cbn [fst TranscriptBot.step].
    destruct (@transcript_run_keeps
                (fun s => TranscriptBot.vapiRef s <> None)
                (fun _ => true) (fun _ => true)
                (fun s0 e => @transcript_handle_step s0 e)
                events' t (forallb_true _) Ht) as [H _].
    unfold TranscriptBot.handleToggleMute.
    destruct (TranscriptBot.vapiRef (fst (TranscriptBot.run t events')));
      [reflexivity | contradiction].
Qed.

Lemma X19_witness :
  option_map muted
    (CallIdBot.vapiRef
       (fst (CallIdBot.run Inputs.activeCallIdBot
               ([CallIdBot.ClickToggleMute; CallIdBot.MutedOutOfBand false]
                ++ [CallIdBot.ClickToggleMute]))))
  = Some (CallIdBot.isMuted
            (fst (CallIdBot.run Inputs.activeCallIdBot
                    ([CallIdBot.ClickToggleMute; CallIdBot.MutedOutOfBand false]
                     ++ [CallIdBot.ClickToggleMute])))).
Proof.
  exact (proj1
    (@X19_mute_flag_in_step_after_toggle
       Inputs.activeCallIdBot
       [CallIdBot.ClickToggleMute; CallIdBot.MutedOutOfBand false]
       Inputs.activeTranscriptBot []
       ltac:(discriminate) ltac:(discriminate))).
Defined.

(** X20.  A call is started in two ways only, in the three components.
    With the inline configuration, [vapi.start] is called when the
    microphone request has been granted; with an assistant id, it is called
    by the click on start itself, with the id typed at that moment.  No
    other click, settled promise or SDK event calls [vapi.start], and
    without a handle nothing does. *)
Theorem X20_how_a_call_is_started
  (s : CallIdBot.State) (e : CallIdBot.Event)
  (t : TranscriptBot.State) (e' : TranscriptBot.Event)
  (p : Integration.State) (e'' : Integration.Event) :
  filter isVapiStart (snd (CallIdBot.step s e))
  = match e with
    | CallIdBot.MicGranted =>
        match CallIdBot.vapiRef s with
        | Some _ => [VapiStart InlineConfig]
        | None => []
        end
    | CallIdBot.ClickStart =>
        match CallIdBot.vapiRef s, CallIdBot.assistantId s with
        | Some _, _ :: _ => [VapiStart (AssistantId (CallIdBot.assistantId s))]
        | _, _ => []
        end
    | _ => []
    end
  /\ filter isVapiStart (snd (TranscriptBot.step t e'))
     = match e' with
       | TranscriptBot.MicGranted =>
           match TranscriptBot.vapiRef t with
           | Some _ => [VapiStart InlineConfig]
           | None => []
           end
       | TranscriptBot.ClickStart =>
           match TranscriptBot.vapiRef t, TranscriptBot.assistantId t with
           | Some _, _ :: _ =>
               [VapiStart (AssistantId (TranscriptBot.assistantId t))]
           | _, _ => []
           end
       | _ => []
       end
  /\ filter isVapiStart (snd (Integration.step p e''))
     = match e'' with
       | Integration.MicGranted =>
           match Integration.vapiRef p with
           | Some _ => [VapiStart InlineConfig]
           | None => []
           end
       | Integration.ClickStart =>
           match Integration.vapiRef p, Integration.assistantId p with
           | Some _, _ :: _ =>
               [VapiStart (AssistantId (Integration.assistantId p))]
           | _, _ => []
           end
       | _ => []
       end.
Proof.
  split; [|split].
  - destruct s.
    unfold CallIdBot.step, CallIdBot.handleStartCall, CallIdBot.handleStopCall,
      CallIdBot.handleToggleMute, CallIdBot.handleSendBackgroundMessage,
      CallIdBot.handleSayGoodbye, CallIdBot.handleStartCall_micGranted,
      CallIdBot.startWith, CallIdBot.handleCallEnd.
    destruct e; simpl; try reflexivity;
      repeat match goal with
             | |- context [match ?x with _ => _ end] => destruct x; simpl
             end; reflexivity.
  - destruct t.
    unfold TranscriptBot.step, TranscriptBot.handleStartCall,
      TranscriptBot.handleStopCall, TranscriptBot.handleToggleMute,
      TranscriptBot.handleSendBackgroundMessage,
      TranscriptBot.handleSayGoodbye,
      TranscriptBot.handleStartCall_micGranted, TranscriptBot.startWith,
      TranscriptBot.handleCallEnd, TranscriptBot.scoreInterviewTranscript.
    destruct e'; simpl; try reflexivity;
      repeat match goal with
             | |- context [match ?x with _ => _ end] => destruct x; simpl
             end; reflexivity.
  - destruct p.
    unfold Integration.step, Integration.handleStartCall,
      Integration.handleStopCall, Integration.handleToggleMute,
      Integration.handleSendBackgroundMessage, Integration.handleSayGoodbye,
      Integration.handleStartCall_micGranted, Integration.startWith.
    destruct e''; simpl; try reflexivity;
      repeat match goal with
             | |- context [match ?x with _ => _ end] => destruct x; simpl
             end; reflexivity.
Qed.

(* ================================================================== *)
(** ** Commits of React: stale listeners, stopped and replaced handles *)
(* ================================================================== *)

Module RenderFacts.
Import TranscriptRender.

Lemma render_run_app (publicKey : jsstring) (r : Render) (a b : list Input) :
  run publicKey r (a ++ b)
  = (fst (run publicKey (fst (run publicKey r a)) b),
     snd (run publicKey r a)
     ++ snd (run publicKey (fst (run publicKey r a)) b)).
Proof.
  revert r; induction a as [|i a IH]; intros r; simpl.
  - now destruct (run publicKey r b).
  - destruct (step publicKey r i) as [r1 o1]. rewrite IH.
    destruct (run publicKey r1 a) as [r2 o2]. simpl.
    now rewrite app_assoc.
Qed.

Lemma render_run_single (publicKey : jsstring) (r : Render) (i : Input) :
  run publicKey r [i] = step publicKey r i.
Proof. simpl. destruct (step publicKey r i). now rewrite app_nil_r. Qed.

Lemma render_run_cons (publicKey : jsstring) (r : Render) (i : Input)
  (rest : list Input) :
  run publicKey r (i :: rest)
  = (fst (run publicKey (fst (step publicKey r i)) rest),
     snd (step publicKey r i)
     ++ snd (run publicKey (fst (step publicKey r i)) rest)).
Proof.
  cbn [run]. destruct (step publicKey r i) as [r1 o1]. cbn [fst snd].
  now destruct (run publicKey r1 rest).
Qed.

Lemma externals_app (a b : list Output) :
  externals (a ++ b) = externals a ++ externals b.
Proof. apply flat_map_app. Qed.

Lemma handleCalls_app (a b : list Output) :
  handleCalls (a ++ b) = handleCalls a ++ handleCalls b.
Proof. apply flat_map_app. Qed.

Lemma externals_External (l : list Effect) : externals (map External l) = l.
Proof. induction l as [|e l IH]; simpl; [|rewrite IH]; reflexivity. Qed.

Lemma externals_Handle (l : list Lifecycle.HandleCall) :
  externals (map Handle l) = [].
Proof. induction l as [|c l IH]; simpl; [reflexivity | exact IH]. Qed.

Lemma handleCalls_Handle (l : list Lifecycle.HandleCall) :
  handleCalls (map Handle l) = l.
Proof. induction l as [|c l IH]; simpl; [|rewrite IH]; reflexivity. Qed.

Lemma handleCalls_External (l : list Effect) :
  handleCalls (map External l) = [].
Proof. induction l as [|e l IH]; simpl; [reflexivity | exact IH]. Qed.

(** What a delivery and a commit leave of the render. *)
Lemma deliver_fst (r : Render) (e : TranscriptBot.Event) :
  rendered (fst (deliver r e)) = rendered r
  /\ listenerMessages (fst (deliver r e)) = listenerMessages r
  /\ isCallActiveRef (fst (deliver r e)) = isCallActiveRef r
  /\ messagesSet (fst (deliver r e))
     = messagesSet r || storesMessages (cells r) e.
Proof.
  unfold deliver.
  destruct (match e with
            | TranscriptBot.CallEnd => _ | _ => _ end) as [s effects].
  repeat split; reflexivity.
Qed.

Lemma externals_step_deliver (publicKey : jsstring) (r : Render)
  (e : TranscriptBot.Event) :
  externals (snd (step publicKey r (Deliver e))) = snd (deliver r e).
Proof.
  cbn [step]. destruct (deliver r e) as [r1 effects]. cbn [snd].
  apply externals_External.
Qed.

Lemma externals_step_commit (publicKey : jsstring) (r : Render)
  (fresh : Vapi) :
  externals (snd (step publicKey r (Commit fresh))) = [].
Proof.
  cbn [step]. destruct (commit publicKey fresh r) as [r1 calls]. cbn [snd].
  apply externals_Handle.
Qed.

Lemma fst_step_deliver (publicKey : jsstring) (r : Render)
  (e : TranscriptBot.Event) :
  fst (step publicKey r (Deliver e)) = fst (deliver r e).
Proof. cbn [step]. now destruct (deliver r e). Qed.

Lemma fst_step_commit (publicKey : jsstring) (r : Render) (fresh : Vapi) :
  fst (step publicKey r (Commit fresh)) = fst (commit publicKey fresh r).
Proof. cbn [step]. now destruct (commit publicKey fresh r). Qed.

Lemma handleCalls_step_commit (publicKey : jsstring) (r : Render)
  (fresh : Vapi) :
  handleCalls (snd (step publicKey r (Commit fresh)))
  = snd (commit publicKey fresh r).
Proof.
  cbn [step]. destruct (commit publicKey fresh r) as [r1 calls]. cbn [snd].
  apply handleCalls_Handle.
Qed.

Lemma handleCalls_step_deliver (publicKey : jsstring) (r : Render)
  (e : TranscriptBot.Event) :
  handleCalls (snd (step publicKey r (Deliver e))) = [].
Proof.
  cbn [step]. destruct (deliver r e) as [r1 effects]. cbn [snd].
  apply handleCalls_External.
Qed.

(** The request sent by the call-end listener carries the transcript of
    the messages its [scoreInterviewTranscript] closes over. *)
Lemma render_handleCallEnd_scoring (messages : list TranscriptBot.VapiMessage)
  (s : TranscriptBot.State) :
  scoringCalls (snd (handleCallEnd messages s))
  = match TranscriptBot.filteredTranscript messages with
    | [] => []
    | lines =>
        [FetchScoreInterview
           {| Route.callId := JUndefined;
              Route.transcript := JStr (join LF lines) |}]
    end.
Proof.
  unfold handleCallEnd, scoreInterviewTranscript.
  destruct (TranscriptBot.filteredTranscript messages); reflexivity.
Qed.

Lemma deliver_callEnd_scoring (r : Render) :
  scoringCalls (snd (deliver r TranscriptBot.CallEnd))
  = match TranscriptBot.filteredTranscript (listenerMessages r) with
    | [] => []
    | lines =>
        [FetchScoreInterview
           {| Route.callId := JUndefined;
              Route.transcript := JStr (join LF lines) |}]
    end.
Proof.
  unfold deliver.
  rewrite <- (render_handleCallEnd_scoring (listenerMessages r) (cells r)).
  now destruct (handleCallEnd (listenerMessages r) (cells r)).
Qed.

(** Only the end of the call sends a scoring request. *)
Lemma deliver_no_scoring (r : Render) (e : TranscriptBot.Event) :
  TranscriptBot.isCallEnd e = false -> scoringCalls (snd (deliver r e)) = [].
Proof.
  intros He. unfold deliver.
  destruct e; try discriminate He; cbv iota;
    match goal with
    | |- scoringCalls (snd (let (s, effects) := ?x in _)) = [] =>
        assert (H : scoringCalls (snd x) = []); [|destruct x; exact H]
    end;
    try (apply TranscriptFacts.transcript_step_no_scoring; reflexivity).
  - unfold handleStartCall, TranscriptBot.startWith.
    destruct (TranscriptBot.vapiRef (cells r)) eqn:V; [|reflexivity].
    destruct (TranscriptBot.assistantId (rendered r)); [reflexivity|].
    cbn. rewrite V. reflexivity.
  - unfold handleSendBackgroundMessage.
    destruct (TranscriptBot.vapiRef (cells r)),
      (TranscriptBot.isCallActive (rendered r)); reflexivity.
  - unfold handleSayGoodbye.
    destruct (TranscriptBot.vapiRef (cells r)),
      (TranscriptBot.isCallActive (rendered r)); reflexivity.
Qed.

Lemma render_step_no_scoring (publicKey : jsstring) (r : Render) (i : Input) :
  isDeliverCallEnd i = false ->
  scoringCalls (externals (snd (step publicKey r i))) = [].
Proof.
  destruct i as [e|fresh]; intros H.
  - rewrite externals_step_deliver. apply deliver_no_scoring.
    now destruct e.
  - now rewrite externals_step_commit.
Qed.

Lemma render_run_no_scoring (publicKey : jsstring) (r : Render)
  (inputs : list Input) :
  forallb (fun i => negb (isDeliverCallEnd i)) inputs = true ->
  scoringCalls (externals (snd (run publicKey r inputs))) = [].
Proof.
  revert r; induction inputs as [|i inputs IH]; intros r; [reflexivity|].
  cbn [forallb]. rewrite andb_true_iff, negb_true_iff. intros [Hi Hrest].
  rewrite render_run_cons. cbn [snd].
  now rewrite externals_app, scoringCalls_app,
    (render_step_no_scoring publicKey r i Hi), IH.
Qed.

(** The scoring requests of a session are those of its last event. *)
Lemma render_session_scoring (publicKey : jsstring) (r : Render)
  (inputs : list Input) :
  forallb (fun i => negb (isDeliverCallEnd i)) inputs = true ->
  scoringCalls
    (externals
       (snd (run publicKey r (inputs ++ [Deliver TranscriptBot.CallEnd]))))
  = scoringCalls
      (snd (deliver (fst (run publicKey r inputs)) TranscriptBot.CallEnd)).
Proof.
  intros H. rewrite render_run_app, render_run_single. cbn [snd].
  rewrite externals_app, scoringCalls_app,
    (render_run_no_scoring publicKey r inputs H), externals_step_deliver.
  reflexivity.
Qed.

(** What the listener closes over was the buffer at some earlier point. *)
Lemma step_listenerMessages (publicKey : jsstring) (r : Render) (i : Input) :
  listenerMessages (fst (step publicKey r i)) = listenerMessages r
  \/ listenerMessages (fst (step publicKey r i))
     = TranscriptBot.messages (cells r).
Proof.
  destruct i as [e|fresh].
  - left. rewrite fst_step_deliver. apply deliver_fst.
  - rewrite fst_step_commit. unfold commit.
    destruct (messagesSet r); [|now left].
    destruct (Lifecycle.transcriptEffect publicKey fresh (cells r)) as [s a].
    destruct publicKey; [now left | now right].
Qed.

Lemma render_snapshot (publicKey : jsstring) (r : Render)
  (inputs : list Input) :
  listenerMessages (fst (run publicKey r inputs)) = listenerMessages r
  \/ exists before after,
       inputs = before ++ after
       /\ listenerMessages (fst (run publicKey r inputs))
          = TranscriptBot.messages (cells (fst (run publicKey r before))).
Proof.
  revert r; induction inputs as [|i inputs IH]; intros r; [now left|].
  rewrite render_run_cons. cbn [fst].
  destruct (IH (fst (step publicKey r i))) as [E|[before [after [E1 E2]]]].
  - rewrite E.
    destruct (step_listenerMessages publicKey r i) as [E'|E']; [now left|].
    right. exists [], (i :: inputs). split; [reflexivity|]. exact E'.
  - right. exists (i :: before), after. split; [now rewrite E1|].
    rewrite render_run_cons. cbn [fst]. exact E2.
Qed.

End RenderFacts.

Module RenderSession.
Import TranscriptRender.

(** A speech, volume or content event appends the message it carries,
    if any, to the buffer. *)
Lemma deliver_content (r : Render) (e : TranscriptBot.Event) :
  TranscriptBot.isSpeechOrContent e = true ->
  TranscriptBot.messages (cells (fst (deliver r e)))
  = TranscriptBot.messages (cells r) ++ TranscriptBot.received [e]
  /\ TranscriptBot.isCallActive (cells (fst (deliver r e)))
     = TranscriptBot.isCallActive (cells r)
  /\ TranscriptBot.vapiRef (cells (fst (deliver r e)))
     = TranscriptBot.vapiRef (cells r)
  /\ messagesSet (fst (deliver r e))
     = messagesSet r
       || match e with TranscriptBot.Message _ => true | _ => false end.
Proof.
  intros He. destruct r as [s rd lm ref ms]. unfold deliver.
  destruct e; try discriminate He; cbn [cells TranscriptBot.step fst
    TranscriptBot.received flat_map storesMessages messagesSet app];
    rewrite ?app_nil_r; rewrite ?orb_false_r; try (repeat split; reflexivity).
  - unfold TranscriptBot.handleSpeechEnd.
    destruct (TranscriptBot.isCallActive s) eqn:A; cbn; rewrite ?A;
      repeat split; reflexivity.
  - unfold TranscriptBot.handleMessage. cbn.
    repeat match goal with
           | |- context [if ?b then _ else _] => destruct b
           end; repeat split; reflexivity.
Qed.

(** A commit leaves the buffer, the flag and, once a handle exists, the
    handle as they are; afterwards nothing is pending. *)
Lemma commit_cells (publicKey : jsstring) (fresh : Vapi) (r : Render) :
  TranscriptBot.messages (cells (fst (commit publicKey fresh r)))
  = TranscriptBot.messages (cells r)
  /\ TranscriptBot.isCallActive (cells (fst (commit publicKey fresh r)))
     = TranscriptBot.isCallActive (cells r)
  /\ rendered (fst (commit publicKey fresh r)) = cells r
  /\ messagesSet (fst (commit publicKey fresh r)) = false
  /\ (TranscriptBot.vapiRef (cells r) <> None ->
      TranscriptBot.vapiRef (cells (fst (commit publicKey fresh r)))
      = TranscriptBot.vapiRef (cells r)).
Proof.
  unfold commit, Lifecycle.transcriptEffect.
  destruct (messagesSet r); [|repeat split; reflexivity].
  destruct publicKey as [|k key]; [repeat split; reflexivity|].
  destruct (TranscriptBot.vapiRef (cells r)) eqn:V; cbn;
    repeat split; try reflexivity; try (intros H; now rewrite ?V).
Qed.

Lemma commit_listenerMessages (publicKey : jsstring) (fresh : Vapi)
  (r : Render) :
  publicKey <> [] ->
  listenerMessages (fst (commit publicKey fresh r))
  = if messagesSet r then TranscriptBot.messages (cells r)
    else listenerMessages r.
Proof.
  intros Hk. unfold commit. destruct (messagesSet r); [|reflexivity].
  destruct (Lifecycle.transcriptEffect publicKey fresh (cells r)) as [s a].
  destruct publicKey; [contradiction | reflexivity].
Qed.

(** Through the contents of a call the buffer holds what was received,
    and the listener is either about to be replaced or up to date. *)
Lemma contents_buffer (publicKey : jsstring) (r : Render)
  (contents : list Input) :
  publicKey <> [] ->
  forallb isContent contents = true ->
  messagesSet r = true
  \/ listenerMessages r = TranscriptBot.messages (cells r) ->
  let r' := fst (run publicKey r contents) in
  TranscriptBot.messages (cells r')
  = TranscriptBot.messages (cells r) ++ received contents
  /\ (messagesSet r' = true
      \/ listenerMessages r' = TranscriptBot.messages (cells r')).
Proof.
  intros Hk. revert r; induction contents as [|i contents IH]; intros r.
  - intros _ H. cbn. now rewrite app_nil_r.
  - cbn [forallb]. intros Hc H. apply andb_true_iff in Hc.
    destruct Hc as [Hi Hrest]. cbv zeta.
    rewrite RenderFacts.render_run_cons. cbn [fst].
    destruct i as [e|fresh].
    + rewrite RenderFacts.fst_step_deliver.
      destruct (deliver_content r e Hi) as [M [_ [_ S]]].
      destruct (RenderFacts.deliver_fst r e) as [_ [L _]].
      assert (H' : messagesSet (fst (deliver r e)) = true
                   \/ listenerMessages (fst (deliver r e))
                      = TranscriptBot.messages (cells (fst (deliver r e)))).
      { rewrite S, L, M.
        destruct H as [H|H]; [left; now rewrite H|].
        destruct e; try discriminate Hi;
          try (right; cbn; now rewrite app_nil_r).
        left. apply orb_true_r. }
      destruct (IH (fst (deliver r e)) Hrest H') as [M' I'].
      split; [|exact I'].
      rewrite M', M, <- app_assoc. f_equal.
      destruct e; reflexivity.
    + rewrite RenderFacts.fst_step_commit.
      destruct (commit_cells publicKey fresh r) as [M [_ [_ [S _]]]].
      pose proof (commit_listenerMessages fresh r Hk) as L.
      assert (H' : messagesSet (fst (commit publicKey fresh r)) = true
                   \/ listenerMessages (fst (commit publicKey fresh r))
                      = TranscriptBot.messages
                          (cells (fst (commit publicKey fresh r)))).
      { right. rewrite L, M.
        destruct H as [H|H]; [now rewrite H|].
        now destruct (messagesSet r). }
      destruct (IH (fst (commit publicKey fresh r)) Hrest H') as [M' I'].
      split; [|exact I']. now rewrite M', M.
Qed.

(** Events delivered with no commit among them reach one listener. *)
Lemma deliveries_listener (publicKey : jsstring) (r : Render)
  (events : list TranscriptBot.Event) :
  listenerMessages (fst (run publicKey r (map Deliver events)))
  = listenerMessages r.
Proof.
  revert r; induction events as [|e events IH]; intros r; [reflexivity|].
  cbn [map]. rewrite RenderFacts.render_run_cons. cbn [fst].
  rewrite IH, RenderFacts.fst_step_deliver. apply RenderFacts.deliver_fst.
Qed.

Lemma contents_not_end (contents : list Input) :
  forallb isContent contents = true ->
  forallb (fun i => negb (isDeliverCallEnd i)) contents = true.
Proof.
  induction contents as [|i l IH]; simpl; [reflexivity|].
  rewrite !andb_true_iff. intros [Hi Hl]. split; [|now apply IH].
  destruct i as [e|fresh]; [|reflexivity]. now destruct e.
Qed.

Lemma deliveries_not_end (events : list TranscriptBot.Event) :
  forallb TranscriptBot.isSpeechOrContent events = true ->
  forallb (fun i => negb (isDeliverCallEnd i)) (map Deliver events) = true.
Proof.
  induction events as [|e l IH]; simpl; [reflexivity|].
  rewrite !andb_true_iff. intros [He Hl]. split; [|now apply IH].
  now destruct e.
Qed.

End RenderSession.

Module RenderStops.
Import TranscriptRender.

(** Over events delivered with no commit among them, the ref and the
    handle stay as they are, and a new array is pending as soon as one
    message has arrived. *)
Lemma deliveries_pending (publicKey : jsstring) (r : Render)
  (events : list TranscriptBot.Event) :
  forallb TranscriptBot.isSpeechOrContent events = true ->
  let r' := fst (run publicKey r (map Deliver events)) in
  isCallActiveRef r' = isCallActiveRef r
  /\ TranscriptBot.vapiRef (cells r') = TranscriptBot.vapiRef (cells r)
  /\ messagesSet r'
     = messagesSet r
       || match TranscriptBot.received events with
          | [] => false
          | _ :: _ => true
          end.
Proof.
  revert r; induction events as [|e events IH]; intros r.
  - intros _. cbn. now rewrite orb_false_r.
  - cbn [forallb map]. intros Hc. apply andb_true_iff in Hc.
    destruct Hc as [He Hrest]. cbv zeta.
    rewrite RenderFacts.render_run_cons. cbn [fst].
    rewrite RenderFacts.fst_step_deliver.
    destruct (IH (fst (deliver r e)) Hrest) as [R [V S]].
    destruct (RenderSession.deliver_content r e He) as [_ [_ [V' S']]].
    destruct (RenderFacts.deliver_fst r e) as [_ [_ [R' _]]].
    rewrite R, V, S, R', V', S'. repeat split.
    rewrite <- orb_assoc. f_equal.
    destruct e; try discriminate He; try reflexivity.
Qed.

(** The [stop] calls of a commit: one when the main effect runs again
    while the ref, as the last commit left it, is set. *)
Lemma commit_stops (publicKey : jsstring) (fresh : Vapi) (r : Render) :
  publicKey <> [] ->
  TranscriptBot.vapiRef (cells r) <> None ->
  filter Lifecycle.isStopCall (snd (commit publicKey fresh r))
  = if messagesSet r && isCallActiveRef r then [Lifecycle.StopCall] else [].
Proof.
  intros Hk Hv. unfold commit, Lifecycle.transcriptCleanup,
    Lifecycle.transcriptEffect.
  destruct publicKey as [|k key]; [contradiction|].
  destruct (TranscriptBot.vapiRef (cells r)) as [v|]; [|contradiction].
  destruct (messagesSet r), (isCallActiveRef r); reflexivity.
Qed.

End RenderStops.

Module RenderAgreement.
Import TranscriptRender.

(** With every closure up to date, an event does what the handlers of
    the current render do. *)
Lemma deliver_committed (s : TranscriptBot.State) (e : TranscriptBot.Event) :
  deliver (committed s) e
  = ({| cells := fst (TranscriptBot.step s e); rendered := s;
        listenerMessages := TranscriptBot.messages s;
        isCallActiveRef := TranscriptBot.isCallActive s;
        messagesSet := storesMessages s e |},
     snd (TranscriptBot.step s e)).
Proof.
  assert (L : forall (p : TranscriptBot.State * list Effect) pending,
             (let (s1, effects) := p in
              ({| cells := s1; rendered := s;
                  listenerMessages := TranscriptBot.messages s;
                  isCallActiveRef := TranscriptBot.isCallActive s;
                  messagesSet := pending |}, effects))
             = ({| cells := fst p; rendered := s;
                   listenerMessages := TranscriptBot.messages s;
                   isCallActiveRef := TranscriptBot.isCallActive s;
                   messagesSet := pending |}, snd p))
    by (intros [s1 effects] pending; reflexivity).
  unfold deliver, committed. cbn [cells rendered listenerMessages
    isCallActiveRef messagesSet orb].
  rewrite L. destruct e; reflexivity.
Qed.

(** What an event leaves of the handle and of the buffer. *)
Lemma step_keeps_handle (s : TranscriptBot.State) (e : TranscriptBot.Event) :
  TranscriptBot.vapiRef s <> None ->
  TranscriptBot.vapiRef (fst (TranscriptBot.step s e)) <> None
  /\ (storesMessages s e = false ->
      TranscriptBot.messages (fst (TranscriptBot.step s e))
      = TranscriptBot.messages s).
Proof.
  intros Hv. destruct s. cbn [TranscriptBot.vapiRef] in Hv.
  destruct vapiRef as [v|]; [|contradiction].
  unfold TranscriptBot.step, TranscriptBot.handleStartCall,
    TranscriptBot.handleStopCall, TranscriptBot.handleToggleMute,
    TranscriptBot.handleSendBackgroundMessage, TranscriptBot.handleSayGoodbye,
    TranscriptBot.handleStartCall_micGranted, TranscriptBot.startWith,
    TranscriptBot.handleCallEnd, TranscriptBot.scoreInterviewTranscript,
    TranscriptBot.handleSpeechEnd, TranscriptBot.handleMessage,
    TranscriptBot.scoreInterviewTranscript_resolved.
  destruct e; cbn;
    repeat match goal with
           | |- context [match ?x with _ => _ end] => destruct x; cbn
           end;
    split; try discriminate; reflexivity.
Qed.

(** With a handle in place, a commit right after an event leaves a
    render in which nothing is pending. *)
Lemma committed_step (publicKey : jsstring) (fresh : Vapi)
  (s : TranscriptBot.State) (e : TranscriptBot.Event) :
  publicKey <> [] ->
  TranscriptBot.vapiRef s <> None ->
  fst (run publicKey (committed s) [Deliver e; Commit fresh])
  = committed (fst (TranscriptBot.step s e))
  /\ externals (snd (run publicKey (committed s) [Deliver e; Commit fresh]))
     = snd (TranscriptBot.step s e).
Proof.
  intros Hk Hv. destruct (@step_keeps_handle s e Hv) as [V M].
  rewrite RenderFacts.render_run_cons, RenderFacts.render_run_single.
  cbn [fst snd].
  rewrite RenderFacts.externals_app, RenderFacts.externals_step_deliver,
    RenderFacts.externals_step_commit, app_nil_r,
    RenderFacts.fst_step_deliver, RenderFacts.fst_step_commit,
    deliver_committed.
  split; [|reflexivity]. cbn [fst].
  destruct publicKey as [|k key]; [contradiction|].
  unfold commit, Lifecycle.transcriptEffect, committed.
  cbn [cells rendered listenerMessages isCallActiveRef messagesSet].
  destruct (TranscriptBot.vapiRef (fst (TranscriptBot.step s e))) as [v|];
    [|contradiction].
  assert (R : (if Bool.eqb
                    (TranscriptBot.isCallActive (fst (TranscriptBot.step s e)))
                    (TranscriptBot.isCallActive s)
               then TranscriptBot.isCallActive s
               else TranscriptBot.isCallActive (fst (TranscriptBot.step s e)))
              = TranscriptBot.isCallActive (fst (TranscriptBot.step s e))).
  { destruct (TranscriptBot.isCallActive (fst (TranscriptBot.step s e))),
      (TranscriptBot.isCallActive s); reflexivity. }
  destruct (storesMessages s e) eqn:S; cbn [fst app]; rewrite R;
    [reflexivity|].
  now rewrite (M eq_refl).
Qed.

(** When React commits after every event, the component does what the
    step function of [TranscriptBot] says. *)
Lemma committed_run (publicKey : jsstring) (fresh : Vapi)
  (s : TranscriptBot.State) (events : list TranscriptBot.Event) :
  publicKey <> [] ->
  TranscriptBot.vapiRef s <> None ->
  let inputs := flat_map (fun e => [Deliver e; Commit fresh]) events in
  fst (run publicKey (committed s) inputs)
  = committed (fst (TranscriptBot.run s events))
  /\ externals (snd (run publicKey (committed s) inputs))
     = snd (TranscriptBot.run s events).
Proof.
  intros Hk. revert s; induction events as [|e events IH]; intros s Hv.
  - split; reflexivity.
  - cbv zeta. cbn [flat_map].
    rewrite RenderFacts.render_run_app.
    destruct (@committed_step publicKey fresh s e Hk Hv) as [F X].
    destruct (@step_keeps_handle s e Hv) as [V _].
    cbn [fst snd]. rewrite F, RenderFacts.externals_app, X.
    destruct (IH (fst (TranscriptBot.step s e)) V) as [F' X'].
    cbv zeta in F', X'. rewrite F', X'.
    cbn [TranscriptBot.run].
    destruct (TranscriptBot.step s e) as [s1 e1]. cbn [fst snd].
    destruct (TranscriptBot.run s1 events) as [s2 e2]. split; reflexivity.
Qed.

End RenderAgreement.

(** C1.  Take any events none of which is the end of the call, then the
    end of the call.  Over the whole session the controller sends at most
    one scoring request, and sends it at the end.  In the call-id bot it
    carries the call id held by the ref when the call ends, and the ref is
    cleared, so that a repeated end sends nothing.  In the transcript bot,
    whatever commits React makes among the events, it carries the
    transcript of the messages the call-end listener closes over, and
    those are the buffer as it stood at some point of the session at or
    before its end (or what the listener held when the session began).
    Whatever follows the session (a later session) adds its own requests
    after these and changes nothing in them. *)
Theorem C1_at_most_one_scoring_request
  (s : CallIdBot.State) (events later : list CallIdBot.Event)
  (publicKey : jsstring) (r : TranscriptRender.Render)
  (inputs later' : list TranscriptRender.Input) :
  forallb (fun e => negb (CallIdBot.isCallEnd e)) events = true ->
  forallb (fun i => negb (TranscriptRender.isDeliverCallEnd i)) inputs = true ->
  let session := events ++ [CallIdBot.CallEnd] in
  let atEnd := fst (CallIdBot.run s events) in
  let session' := inputs ++ [TranscriptRender.Deliver TranscriptBot.CallEnd] in
  let atEnd' := fst (TranscriptRender.run publicKey r inputs) in
  let sent r inputs :=
    scoringCalls
      (TranscriptRender.externals (snd (TranscriptRender.run publicKey r inputs))) in
  (scoringCalls (snd (CallIdBot.run s events)) = []
   /\ scoringCalls (snd (CallIdBot.run s session))
      = match CallIdBot.currentCallIdRef atEnd with
        | Some (c :: callId) =>
            [FetchScoreInterview
               {| Route.callId := JStr (c :: callId);
                  Route.transcript := JUndefined |}]
        | _ => []
        end
   /\ (List.length (scoringCalls (snd (CallIdBot.run s session))) <= 1)%nat
   /\ scoringCalls
        (snd (CallIdBot.step (fst (CallIdBot.run s session)) CallIdBot.CallEnd))
      = []
   /\ scoringCalls (snd (CallIdBot.run s (session ++ later)))
      = scoringCalls (snd (CallIdBot.run s session))
        ++ scoringCalls
             (snd (CallIdBot.run (fst (CallIdBot.run s session)) later)))
  /\ (sent r inputs = []
      /\ sent r session'
         = match TranscriptBot.filteredTranscript
                   (TranscriptRender.listenerMessages atEnd') with
           | [] => []
           | lines =>
               [FetchScoreInterview
                  {| Route.callId := JUndefined;
                     Route.transcript := JStr (join LF lines) |}]
           end
      /\ (List.length (sent r session') <= 1)%nat
      /\ (TranscriptRender.listenerMessages atEnd'
          = TranscriptRender.listenerMessages r
          \/ exists before after,
               inputs = before ++ after
               /\ TranscriptRender.listenerMessages atEnd'
                  = TranscriptBot.messages
                      (TranscriptRender.cells
                         (fst (TranscriptRender.run publicKey r before))))
      /\ sent r (session' ++ later')
         = sent r session'
           ++ sent (fst (TranscriptRender.run publicKey r session')) later').
Proof.
  intros He He' session atEnd session' atEnd' sent. split.
  - assert (E : scoringCalls (snd (CallIdBot.run s session))
                = match CallIdBot.currentCallIdRef atEnd with
                  | Some (c :: callId) =>
                      [FetchScoreInterview
                         {| Route.callId := JStr (c :: callId);
                            Route.transcript := JUndefined |}]
                  | _ => []
                  end).
    { unfold session. rewrite CallIdFacts.callId_session_scoring by exact He.
      apply CallIdFacts.callId_handleCallEnd_scoring. }
    split; [now apply CallIdFacts.callId_run_no_scoring|].
    split; [exact E|]. split; [|split].
    + rewrite E. destruct (CallIdBot.currentCallIdRef atEnd) as [[|c i]|];
        simpl; lia.
    + unfold session. rewrite CallIdFacts.callId_run_app, CallIdFacts.callId_run_single.
      cbn [fst CallIdBot.step].
      apply CallIdFacts.callId_handleCallEnd_scoring.
    + rewrite CallIdFacts.callId_run_app. cbn [snd]. apply scoringCalls_app.
  - assert (E : sent r session'
                = match TranscriptBot.filteredTranscript
                          (TranscriptRender.listenerMessages atEnd') with
                  | [] => []
                  | lines =>
                      [FetchScoreInterview
                         {| Route.callId := JUndefined;
                            Route.transcript := JStr (join LF lines) |}]
                  end).
    { unfold sent, session'.
      rewrite RenderFacts.render_session_scoring by exact He'.
      apply RenderFacts.deliver_callEnd_scoring. }
    split; [now apply RenderFacts.render_run_no_scoring|].
    split; [exact E|]. split; [|split].
    + rewrite E.
      destruct (TranscriptBot.filteredTranscript _); simpl; lia.
    + apply RenderFacts.render_snapshot.
    + unfold sent. rewrite RenderFacts.render_run_app. cbn [snd].
      now rewrite RenderFacts.externals_app, scoringCalls_app.
Qed.

Lemma C1_witness :
  scoringCalls
    (snd (CallIdBot.run (CallIdBot.initial (Some Sample.handle))
            ((Sample.callIdSession ++ [CallIdBot.CallEnd])
             ++ Sample.callIdNextSession)))
  = [FetchScoreInterview (Sample.byCallId (lit "call-1"))]
  /\ scoringCalls
       (TranscriptRender.externals
          (snd (TranscriptRender.run (lit "pk") Inputs.mountedTranscriptBot
                  ((Inputs.renderSession
                    ++ [TranscriptRender.Deliver TranscriptBot.CallEnd])
                   ++ Inputs.renderNextSession))))
     = [FetchScoreInterview
          (Sample.byTranscript
             (lit "Interviewer: Tell me about yourself" ++ LF
              ++ lit "Candidate: I am an engineer"))].
Proof.
  pose proof
    (@C1_at_most_one_scoring_request
       (CallIdBot.initial (Some Sample.handle))
       Sample.callIdSession Sample.callIdNextSession
       (lit "pk") Inputs.mountedTranscriptBot
       Inputs.renderSession Inputs.renderNextSession
       eq_refl eq_refl) as H.
  cbv zeta in H.
  destruct H as [[_ [_ [_ [_ H1]]]] [_ [_ [_ [_ H2]]]]].
  split; [rewrite H1 | rewrite H2]; reflexivity.
Defined.

(** C8.  On the prototype page the handle does not outlive a toggle.  The
    toggle sets [status], the mount effect lists [status] among its
    dependencies, and so the commit that follows a toggle that changed
    the status removes the listeners, stops the call when one was active,
    and puts a new SDK instance in the ref.  The second toggle reads the
    flag of that new instance: its [setMuted] call is decided by the new
    instance and not by the handle the first toggle flipped, whose flag
    is not restored. *)
Theorem C8_page_replaces_handle_between_toggles
  (publicKey : jsstring) (p : Integration.State) (vapi fresh : Vapi) :
  publicKey <> [] ->
  Integration.vapiRef p = Some vapi ->
  Integration.status p
  <> lit "Microphone: "
     ++ (if negb (muted vapi) then lit "Muted" else lit "Unmuted") ->
  let once := Integration.handleToggleMute p in
  let committed := Lifecycle.integrationCommit publicKey fresh p (fst once) in
  let twice := Integration.handleToggleMute (fst committed) in
  snd once = [VapiIsMuted; VapiSetMuted (negb (muted vapi))]
  /\ Integration.vapiRef (fst once) = Some {| muted := negb (muted vapi) |}
  /\ snd committed
     = Lifecycle.RemoveAllListeners
       :: (if Integration.isCallActive p then [Lifecycle.StopCall] else [])
       ++ [Lifecycle.NewVapi publicKey;
           Lifecycle.On (lit "call-start"); Lifecycle.On (lit "call-end");
           Lifecycle.On (lit "speech-start"); Lifecycle.On (lit "speech-end");
           Lifecycle.On (lit "volume-level"); Lifecycle.On (lit "message");
           Lifecycle.On (lit "error")]
  /\ Integration.vapiRef (fst committed) = Some fresh
  /\ snd twice = [VapiIsMuted; VapiSetMuted (negb (muted fresh))]
  /\ Integration.vapiRef (fst twice) = Some {| muted := negb (muted fresh) |}.
Proof.
  intros Hk Hv Hs once committed twice.
  assert (E : once
              = (p |> Integration.setVapi (Some {| muted := negb (muted vapi) |})
                   |> Integration.setIsMuted (negb (muted vapi))
                   |> Integration.setStatus
                        (lit "Microphone: "
                         ++ (if negb (muted vapi)
                             then lit "Muted" else lit "Unmuted")),
                 [VapiIsMuted; VapiSetMuted (negb (muted vapi))])).
  { unfold once, Integration.handleToggleMute. now rewrite Hv. }
  assert (D : jsstring_eqb
                (lit "Microphone: "
                 ++ (if negb (muted vapi) then lit "Muted" else lit "Unmuted"))
                (Integration.status p) = false).
  { destruct (jsstring_eqb _ (Integration.status p)) eqn:Q; [|reflexivity].
    apply jsstring_eqb_eq in Q. now contradiction Hs. }
  assert (C : committed
              = (fst once |> Integration.setVapi None
                          |> Integration.setVapi (Some fresh),
                 Lifecycle.RemoveAllListeners
                 :: (if Integration.isCallActive p
                     then [Lifecycle.StopCall] else [])
                 ++ [Lifecycle.NewVapi publicKey;
                     Lifecycle.On (lit "call-start");
                     Lifecycle.On (lit "call-end");
                     Lifecycle.On (lit "speech-start");
                     Lifecycle.On (lit "speech-end");
                     Lifecycle.On (lit "volume-level");
                     Lifecycle.On (lit "message");
                     Lifecycle.On (lit "error")])).
  { unfold committed, Lifecycle.integrationCommit. rewrite E. cbn [fst].
    cbn [Integration.status Integration.isCallActive Integration.setStatus
         Integration.setIsMuted Integration.setVapi].
    rewrite D, andb_false_r.
    destruct publicKey as [|k key]; [contradiction|].
    unfold Lifecycle.integrationCleanup, Lifecycle.integrationEffect.
    cbn [Integration.vapiRef Integration.setStatus Integration.setIsMuted
         Integration.setVapi].
    now destruct (Integration.isCallActive p). }
  split; [now rewrite E|]. split; [now rewrite E|].
  split; [now rewrite C|]. split; [now rewrite C|].
  unfold twice, Integration.handleToggleMute. rewrite C. cbn [fst].
  cbn [Integration.vapiRef Integration.setVapi]. split; reflexivity.
Qed.

Lemma C8_witness :
  let once := Integration.handleToggleMute Inputs.activePage in
  let committed :=
    Lifecycle.integrationCommit (lit "pk") Sample.handle Inputs.activePage
      (fst once) in
  let twice := Integration.handleToggleMute (fst committed) in
  filter isVapiSetMuted (snd once ++ snd twice)
  = [VapiSetMuted true; VapiSetMuted true]
  /\ filter Lifecycle.isStopCall (snd committed) = [Lifecycle.StopCall]
  /\ Integration.vapiRef Inputs.activePage = Some {| muted := false |}
  /\ Integration.vapiRef (fst twice) = Some {| muted := true |}.
Proof.
  pose proof
    (@C8_page_replaces_handle_between_toggles (lit "pk") Inputs.activePage
       Sample.handle Sample.handle
       ltac:(discriminate) eq_refl ltac:(discriminate)) as H.
  cbv zeta in H. destruct H as [H1 [_ [H3 [_ [H5 H6]]]]].
  cbv zeta. rewrite H1, H3, H5, H6. repeat split; reflexivity.
Defined.

(** X14.  A session of the transcript bot: the call-start event, then
    speech, volume and message events with commits of React among them,
    then the call-end event.  When a commit is made after the call-start
    event, the request carries the transcript of the messages received up
    to the last commit: nothing captured before the call-start event is in
    it, and the messages delivered after that commit are left out (with no
    qualifying message up to it, nothing is sent).  When no commit is
    made during the session, the request carries what the listener held
    before the call-start event, and none of the session's messages. *)
Theorem X14_transcript_of_this_session (publicKey : jsstring)
  (r : TranscriptRender.Render) (contents : list TranscriptRender.Input)
  (fresh : Vapi) (tail : list TranscriptBot.Event) :
  publicKey <> [] ->
  forallb TranscriptRender.isContent contents = true ->
  forallb TranscriptBot.isSpeechOrContent tail = true ->
  let sent inputs :=
    scoringCalls
      (TranscriptRender.externals
         (snd (TranscriptRender.run publicKey r inputs))) in
  let request messages :=
    match TranscriptBot.filteredTranscript messages with
    | [] => []
    | lines =>
        [FetchScoreInterview
           {| Route.callId := JUndefined;
              Route.transcript := JStr (join LF lines) |}]
    end in
  sent (TranscriptRender.Deliver TranscriptBot.CallStart
        :: contents
        ++ TranscriptRender.Commit fresh
        :: map TranscriptRender.Deliver tail
        ++ [TranscriptRender.Deliver TranscriptBot.CallEnd])
  = request (TranscriptRender.received contents)
  /\ sent (TranscriptRender.Deliver TranscriptBot.CallStart
           :: map TranscriptRender.Deliver tail
           ++ [TranscriptRender.Deliver TranscriptBot.CallEnd])
     = request (TranscriptRender.listenerMessages r).
Proof.
  intros Hk Hc Ht sent request.
  pose proof (RenderSession.contents_not_end contents Hc) as Nc.
  pose proof (RenderSession.deliveries_not_end tail Ht) as Nt.
  split; unfold sent.
  - replace (TranscriptRender.Deliver TranscriptBot.CallStart
             :: contents
             ++ TranscriptRender.Commit fresh
             :: map TranscriptRender.Deliver tail
             ++ [TranscriptRender.Deliver TranscriptBot.CallEnd])
      with ((TranscriptRender.Deliver TranscriptBot.CallStart
             :: contents
             ++ TranscriptRender.Commit fresh
             :: map TranscriptRender.Deliver tail)
            ++ [TranscriptRender.Deliver TranscriptBot.CallEnd])
      by (rewrite <- app_comm_cons, <- app_assoc; reflexivity).
    rewrite RenderFacts.render_session_scoring.
    2:{ cbn [forallb]. rewrite forallb_app. cbn [forallb].
        rewrite Nc, Nt. reflexivity. }
    rewrite RenderFacts.deliver_callEnd_scoring. unfold request.
    rewrite RenderFacts.render_run_cons. cbn [fst].
    rewrite RenderFacts.render_run_app. cbn [fst].
    rewrite RenderFacts.render_run_cons. cbn [fst].
    rewrite RenderSession.deliveries_listener.
    rewrite RenderFacts.fst_step_commit, RenderFacts.fst_step_deliver.
    set (started := fst (TranscriptRender.deliver r TranscriptBot.CallStart)).
    assert (S : TranscriptRender.messagesSet started = true
                /\ TranscriptBot.messages (TranscriptRender.cells started) = []).
    { unfold started. destruct r as [c rd lm ref ms]. cbn.
      split; [apply orb_true_r | reflexivity]. }
    destruct S as [S1 S2].
    destruct (RenderSession.contents_buffer started contents Hk Hc
                (or_introl S1)) as [M I].
    rewrite S2 in M. cbn [app] in M.
    rewrite (RenderSession.commit_listenerMessages fresh _ Hk).
    destruct I as [I|I]; [rewrite I, M; reflexivity|].
    rewrite I, M.
    now destruct (TranscriptRender.messagesSet
                    (fst (TranscriptRender.run publicKey started contents))).
  - replace (TranscriptRender.Deliver TranscriptBot.CallStart
             :: map TranscriptRender.Deliver tail
             ++ [TranscriptRender.Deliver TranscriptBot.CallEnd])
      with (map TranscriptRender.Deliver (TranscriptBot.CallStart :: tail)
            ++ [TranscriptRender.Deliver TranscriptBot.CallEnd])
      by reflexivity.
    rewrite RenderFacts.render_session_scoring.
    2:{ cbn [map forallb]. now rewrite Nt. }
    rewrite RenderFacts.deliver_callEnd_scoring. unfold request.
    now rewrite RenderSession.deliveries_listener.
Qed.

Lemma X14_witness :
  scoringCalls
    (TranscriptRender.externals
       (snd (TranscriptRender.run (lit "pk") Inputs.mountedTranscriptBot
               [TranscriptRender.Deliver TranscriptBot.CallStart;
                TranscriptRender.Deliver
                  (TranscriptBot.Message
                     (Sample.utterance (lit "assistant") (lit "Tell me about yourself")));
                TranscriptRender.Commit Sample.handle;
                TranscriptRender.Deliver
                  (TranscriptBot.Message
                     (Sample.utterance (lit "user") (lit "I am an engineer")));
                TranscriptRender.Deliver TranscriptBot.CallEnd])))
  = [FetchScoreInterview
       (Sample.byTranscript (lit "Interviewer: Tell me about yourself"))]
  /\ scoringCalls
       (TranscriptRender.externals
          (snd (TranscriptRender.run (lit "pk") Inputs.mountedTranscriptBot
                  [TranscriptRender.Deliver TranscriptBot.CallStart;
                   TranscriptRender.Deliver
                     (TranscriptBot.Message
                        (Sample.utterance (lit "user") (lit "I am an engineer")));
                   TranscriptRender.Deliver TranscriptBot.CallEnd])))
     = [].
Proof.
  exact (@X14_transcript_of_this_session (lit "pk")
           Inputs.mountedTranscriptBot
           [TranscriptRender.Deliver
              (TranscriptBot.Message
                 (Sample.utterance (lit "assistant") (lit "Tell me about yourself")))]
           Sample.handle
           [TranscriptBot.Message
              (Sample.utterance (lit "user") (lit "I am an engineer"))]
           ltac:(discriminate) eq_refl eq_refl).
Defined.

(** X17.  Teardown mirrors setup.  With a public key, the main effect of
    either bot leaves a handle in the ref (building one only when there is
    none) and attaches one listener per event; the cleanup detaches
    listeners for the same events, in the same order, and stops the call
    once exactly when the flag it reads is set.  That flag is not the
    current state.  In the bots it is [isCallActiveRef.current]: in a
    commit of the transcript bot the cleanup runs when the buffer has
    been set, and reads the ref as the commit before left it.  On the
    prototype page it is the [isCallActive] of the render in which the
    effect ran: a commit runs the cleanup when [isCallActive] or [status]
    has changed, stops the call if that render saw it active, and the
    cleanup empties the ref. *)
Theorem X17_teardown_mirrors_setup (publicKey : jsstring) (fresh : Vapi)
  (isCallActiveRef : bool)
  (s s' : CallIdBot.State) (t t' : TranscriptBot.State)
  (r : TranscriptRender.Render) (rendered p : Integration.State) :
  publicKey <> [] ->
  CallIdBot.vapiRef s' <> None -> TranscriptBot.vapiRef t' <> None ->
  TranscriptBot.vapiRef (TranscriptRender.cells r) <> None ->
  Integration.vapiRef p <> None ->
  (CallIdBot.vapiRef (fst (Lifecycle.callIdEffect publicKey fresh s))
   = Some (match CallIdBot.vapiRef s with Some v => v | None => fresh end)
   /\ Lifecycle.detached (Lifecycle.callIdCleanup isCallActiveRef s')
      = Lifecycle.attached (snd (Lifecycle.callIdEffect publicKey fresh s))
   /\ filter Lifecycle.isStopCall (Lifecycle.callIdCleanup isCallActiveRef s')
      = if isCallActiveRef then [Lifecycle.StopCall] else [])
  /\ (TranscriptBot.vapiRef (fst (Lifecycle.transcriptEffect publicKey fresh t))
      = Some (match TranscriptBot.vapiRef t with Some v => v | None => fresh end)
      /\ Lifecycle.detached (Lifecycle.transcriptCleanup isCallActiveRef t')
         = Lifecycle.attached
             (snd (Lifecycle.transcriptEffect publicKey fresh t))
      /\ filter Lifecycle.isStopCall
           (Lifecycle.transcriptCleanup isCallActiveRef t')
         = (if isCallActiveRef then [Lifecycle.StopCall] else [])
      /\ filter Lifecycle.isStopCall
           (snd (TranscriptRender.commit publicKey fresh r))
         = if TranscriptRender.messagesSet r
              && TranscriptRender.isCallActiveRef r
           then [Lifecycle.StopCall] else [])
  /\ (Integration.vapiRef (fst (Lifecycle.integrationCleanup isCallActiveRef p))
      = None
      /\ filter Lifecycle.isStopCall
           (snd (Lifecycle.integrationCleanup isCallActiveRef p))
         = (if isCallActiveRef then [Lifecycle.StopCall] else [])
      /\ filter Lifecycle.isStopCall
           (snd (Lifecycle.integrationCommit publicKey fresh rendered p))
         = if Bool.eqb (Integration.isCallActive p)
                       (Integration.isCallActive rendered)
              && jsstring_eqb (Integration.status p)
                              (Integration.status rendered)
           then []
           else if Integration.isCallActive rendered
                then [Lifecycle.StopCall] else []).
Proof.
  intros Hk Hs Ht Hr Hp.
  split; [|split].
  - destruct publicKey as [|k key]; [contradiction|].
    unfold Lifecycle.callIdEffect, Lifecycle.callIdCleanup.
    destruct (CallIdBot.vapiRef s') as [v'|]; [|contradiction].
    destruct (CallIdBot.vapiRef s) as [v|] eqn:V;
      destruct isCallActiveRef; simpl; rewrite ?V; auto.
  - split; [|split; [|split]];
      [| | |exact (RenderStops.commit_stops fresh r Hk Hr)];
      destruct publicKey as [|k key]; try contradiction;
      unfold Lifecycle.transcriptEffect, Lifecycle.transcriptCleanup;
      (destruct (TranscriptBot.vapiRef t') as [v'|]; [|contradiction]);
      destruct (TranscriptBot.vapiRef t) as [v|] eqn:V;
      destruct isCallActiveRef; simpl; rewrite ?V; auto.
  - destruct publicKey as [|k key]; [contradiction|].
    unfold Lifecycle.integrationCommit, Lifecycle.integrationCleanup,
      Lifecycle.integrationEffect.
    destruct (Integration.vapiRef p) as [v|]; [|contradiction].
    split; [reflexivity|]. split; [now destruct isCallActiveRef|].
    destruct (Bool.eqb _ _ && jsstring_eqb _ _); [reflexivity|].
    now destruct (Integration.isCallActive rendered).
Qed.

Lemma X17_witness :
  Lifecycle.callIdCleanup true Inputs.activeCallIdBot
  = [Lifecycle.Off (lit "call-start"); Lifecycle.Off (lit "call-end");
     Lifecycle.Off (lit "speech-start"); Lifecycle.Off (lit "speech-end");
     Lifecycle.Off (lit "volume-level"); Lifecycle.Off (lit "error");
     Lifecycle.StopCall]
  /\ filter Lifecycle.isStopCall
       (snd (Lifecycle.integrationCommit (lit "pk") Sample.handle
               (Inputs.page (Some Sample.handle))
               (Integration.onCallStart
                  (Inputs.page (Some Sample.handle)))))
     = [].
Proof.
  pose proof
    (@X17_teardown_mirrors_setup (lit "pk") Sample.handle true
       (CallIdBot.initial None) Inputs.activeCallIdBot
       (TranscriptBot.initial None) Inputs.activeTranscriptBot
       Inputs.mountedTranscriptBot
       (Inputs.page (Some Sample.handle))
       (Integration.onCallStart (Inputs.page (Some Sample.handle)))
       ltac:(discriminate) ltac:(discriminate) ltac:(discriminate)
       ltac:(discriminate) ltac:(discriminate)) as H.
  destruct H as [_ [_ [_ [_ H]]]]. split; [reflexivity | exact H].
Defined.

(** X23.  In the two interview bots the handle outlives the toggles: the
    main effect builds an instance only when the ref is empty, and its
    dependencies do not include the status.  Two toggles on the call-id
    bot, and two toggles on the transcript bot with a commit between
    them, leave the handle's flag as it was and make the calls
    [isMuted(), setMuted(!m), isMuted(), setMuted(m)], whatever the local
    [isMuted] state holds. *)
Theorem X23_toggle_twice_restores_the_flag
  (s : CallIdBot.State) (vapi : Vapi)
  (publicKey : jsstring) (r : TranscriptRender.Render) (vapi' fresh : Vapi) :
  CallIdBot.vapiRef s = Some vapi ->
  TranscriptBot.vapiRef (TranscriptRender.cells r) = Some vapi' ->
  let once := CallIdBot.handleToggleMute s in
  let twice := CallIdBot.handleToggleMute (fst once) in
  let toggled :=
    TranscriptRender.run publicKey r
      [TranscriptRender.Deliver TranscriptBot.ClickToggleMute;
       TranscriptRender.Commit fresh;
       TranscriptRender.Deliver TranscriptBot.ClickToggleMute] in
  (CallIdBot.vapiRef (fst once) = Some {| muted := negb (muted vapi) |}
   /\ CallIdBot.vapiRef (fst twice) = Some vapi
   /\ snd once ++ snd twice
      = [VapiIsMuted; VapiSetMuted (negb (muted vapi));
         VapiIsMuted; VapiSetMuted (muted vapi)]
   /\ CallIdBot.isMuted (fst once) = negb (muted vapi)
   /\ CallIdBot.isMuted (fst twice) = muted vapi
   /\ forall local,
       snd (CallIdBot.handleToggleMute (CallIdBot.setIsMuted local s))
       = snd once
       /\ CallIdBot.vapiRef
            (fst (CallIdBot.handleToggleMute (CallIdBot.setIsMuted local s)))
          = CallIdBot.vapiRef (fst once))
  /\ (TranscriptBot.vapiRef (TranscriptRender.cells (fst toggled))
      = Some vapi'
      /\ TranscriptRender.externals (snd toggled)
         = [VapiIsMuted; VapiSetMuted (negb (muted vapi'));
            VapiIsMuted; VapiSetMuted (muted vapi')]
      /\ filter (fun c => match c with
                          | Lifecycle.NewVapi _ => true
                          | _ => false
                          end)
                (TranscriptRender.handleCalls (snd toggled)) = []
      /\ TranscriptBot.isMuted (TranscriptRender.cells (fst toggled))
         = muted vapi').
Proof.
  intros Hs Hr once twice toggled.
  subst once twice toggled.
  destruct vapi as [m], vapi' as [m']. split.
  - unfold CallIdBot.handleToggleMute. simpl. rewrite Hs. simpl.
    rewrite negb_involutive. repeat split; reflexivity.
  - destruct r as [c rd lm ref ms]. cbn [TranscriptRender.cells] in Hr.
    destruct c. cbn [TranscriptBot.vapiRef] in Hr. subst vapiRef.
    destruct publicKey as [|k key], ms, ref, m';
      repeat split; reflexivity.
Qed.

Lemma X23_witness :
  CallIdBot.vapiRef
    (fst (CallIdBot.handleToggleMute
            (fst (CallIdBot.handleToggleMute
                    (CallIdBot.handleCallStart
                       (CallIdBot.initial (Some Sample.handle)))))))
  = Some Sample.handle
  /\ TranscriptRender.externals
       (snd (TranscriptRender.run (lit "pk") Inputs.mountedTranscriptBot
               [TranscriptRender.Deliver TranscriptBot.ClickToggleMute;
                TranscriptRender.Commit Sample.handle;
                TranscriptRender.Deliver TranscriptBot.ClickToggleMute]))
     = [VapiIsMuted; VapiSetMuted true; VapiIsMuted; VapiSetMuted false].
Proof.
  pose proof
    (@X23_toggle_twice_restores_the_flag
       (CallIdBot.handleCallStart (CallIdBot.initial (Some Sample.handle)))
       Sample.handle (lit "pk") Inputs.mountedTranscriptBot
       Sample.handle Sample.handle eq_refl eq_refl) as H.
  cbv zeta in H. destruct H as [[_ [H1 _]] [_ [H2 _]]].
  split; [exact H1 | exact H2].
Defined.

(** X24.  The transcript bot hangs up on the first message.  The cleanup
    of the main effect reads [isCallActiveRef.current], and the main
    effect runs again whenever the buffer has been set.  In the commit
    that follows the call-start event the ref still holds [false] and no
    [stop] is called; that commit sets the ref, so the next commit after
    a message has arrived calls [stop] once, while without a message no
    effect runs and nothing is stopped. *)
Theorem X24_first_message_stops_the_call (publicKey : jsstring)
  (r : TranscriptRender.Render) (fresh fresh' : Vapi)
  (tail : list TranscriptBot.Event) :
  publicKey <> [] ->
  TranscriptBot.vapiRef (TranscriptRender.cells r) <> None ->
  TranscriptRender.isCallActiveRef r = false ->
  TranscriptBot.isCallActive (TranscriptRender.rendered r) = false ->
  forallb TranscriptBot.isSpeechOrContent tail = true ->
  let started :=
    [TranscriptRender.Deliver TranscriptBot.CallStart;
     TranscriptRender.Commit fresh] in
  let stops inputs :=
    filter Lifecycle.isStopCall
      (TranscriptRender.handleCalls
         (snd (TranscriptRender.run publicKey r inputs))) in
  stops started = []
  /\ stops (started
            ++ map TranscriptRender.Deliver tail
            ++ [TranscriptRender.Commit fresh'])
     = match TranscriptBot.received tail with
       | [] => []
       | _ :: _ => [Lifecycle.StopCall]
       end.
Proof.
  intros Hk Hv Href Hrd Ht started stops.
  set (r1 := fst (TranscriptRender.run publicKey r started)).
  assert (S : stops started = []
              /\ TranscriptRender.isCallActiveRef r1 = true
              /\ TranscriptRender.messagesSet r1 = false
              /\ TranscriptBot.vapiRef (TranscriptRender.cells r1) <> None).
  { unfold stops, r1, started.
    destruct r as [c rd lm ref ms].
    cbn [TranscriptRender.cells TranscriptRender.isCallActiveRef
         TranscriptRender.rendered] in Hv, Href, Hrd.
    destruct c, rd. cbn [TranscriptBot.vapiRef TranscriptBot.isCallActive]
      in Hv, Hrd.
    subst ref. subst.
    destruct publicKey as [|k key]; [contradiction|].
    destruct vapiRef as [v|]; [|contradiction].
    destruct ms; repeat split; try reflexivity; cbn; discriminate. }
  destruct S as [S1 [S2 [S3 S4]]]. split; [exact S1|].
  unfold stops. rewrite RenderFacts.render_run_app. cbn [snd].
  rewrite RenderFacts.handleCalls_app, filter_app. fold (stops started).
  rewrite S1. cbn [app]. fold r1.
  rewrite RenderFacts.render_run_app. cbn [snd].
  rewrite RenderFacts.handleCalls_app, filter_app.
  rewrite RenderFacts.render_run_single, RenderFacts.handleCalls_step_commit.
  destruct (RenderStops.deliveries_pending publicKey r1 tail Ht)
    as [R [V P]].
  rewrite RenderStops.commit_stops; [|exact Hk|now rewrite V].
  rewrite R, P, S2, S3. cbn [orb].
  assert (N : filter Lifecycle.isStopCall
                (TranscriptRender.handleCalls
                   (snd (TranscriptRender.run publicKey r1
                           (map TranscriptRender.Deliver tail)))) = []).
  { clear. generalize r1. induction tail as [|e l IH]; intros r0;
      [reflexivity|].
    cbn [map]. rewrite RenderFacts.render_run_cons. cbn [snd].
    rewrite RenderFacts.handleCalls_app,
      RenderFacts.handleCalls_step_deliver. cbn [app]. apply IH. }
  rewrite N. cbn [app].
  now destruct (TranscriptBot.received tail).
Qed.

Lemma X24_witness :
  filter Lifecycle.isStopCall
    (TranscriptRender.handleCalls
       (snd (TranscriptRender.run (lit "pk") Inputs.mountedTranscriptBot
               [TranscriptRender.Deliver TranscriptBot.CallStart;
                TranscriptRender.Commit Sample.handle;
                TranscriptRender.Deliver
                  (TranscriptBot.Message
                     (Sample.utterance (lit "assistant")
                        (lit "Tell me about yourself")));
                TranscriptRender.Commit Sample.handle])))
  = [Lifecycle.StopCall].
Proof.
  exact (proj2
    (@X24_first_message_stops_the_call (lit "pk")
       Inputs.mountedTranscriptBot Sample.handle Sample.handle
       [TranscriptBot.Message
          (Sample.utterance (lit "assistant") (lit "Tell me about yourself"))]
       ltac:(discriminate) ltac:(discriminate) eq_refl eq_refl eq_refl)).
Defined.
